(** * OverlapNet: the two-heads batch generator

    A shallow embedding of
    [src/two_heads/ImagePairOverlapFunctionAngleOrientationSequence.py]
    (class [ImagePairOverlapFunctionAngleOrientationSequence], a
    [keras.utils.Sequence]) and the properties of its batching, of its
    rotation schedule, of its target vectors and of its error flow.

    Conventions.
    - Python integers are [Z]; list and array positions are [Z] as well,
      because Python accepts negative positions and slices clamp.
    - The label arrays (overlap, function angle, orientation) are
      one-dimensional arrays of finite floats.  The generator only copies
      them and truncates an orientation to an integer, so they are modelled
      by exact rationals [Q].
    - A raised exception is a value of [exn]; a computation that can raise
      returns a [result].
    - A Python float is an IEEE binary64 number; [Float64] holds the
      conversions and the division [__len__] performs, with their rounding
      to nearest, ties to even.
    - The image tensors and the objects returned by [np.load] belong to
      numpy; they are reached through the interface [NumpyImages].
    - The module-level generator of Python's [random] is reached through
      the interface [PyRandom]; [MT19937] implements it as CPython does. *)

From Stdlib Require Import ZArith QArith Qround List String Ascii Bool Lia.
Import ListNotations.
Local Open Scope Z_scope.

(* ================================================================== *)
(** ** Python prelude: exceptions, sequences, paths *)

Module Py.

(** The exception classes the generator can meet.  [IOError] is what
    [except IOError] catches (an alias of [OSError] in Python 3). *)
Inductive exn : Type :=
| IOError (msg : string)
| ValueError
| IndexError
| TypeError
| ZeroDivisionError
| OverflowError
| AttributeError
| Exception (msg : string).

Inductive result (A : Type) : Type :=
| Ok (a : A)
| Err (e : exn).
Arguments Ok {A} a.
Arguments Err {A} e.

Definition is_IOError (e : exn) : bool :=
  match e with IOError _ => true | _ => false end.

Definition rbind {A B} (r : result A) (k : A -> result B) : result B :=
  match r with Ok a => k a | Err e => Err e end.

(** [len(l)] *)
Definition len {A} (l : list A) : Z := Z.of_nat (List.length l).

(** Position [i] of a sequence of length [n], as Python resolves it: a
    negative position counts from the end; anything else outside [0, n)
    is an [IndexError]. *)
Definition norm_index (n i : Z) : option Z :=
  if (0 <=? i) && (i <? n) then Some i
  else if (- n <=? i) && (i <? 0) then Some (i + n)
  else None.

(** [l[i]] *)
Definition getitem {A} (l : list A) (i : Z) : result A :=
  match norm_index (len l) i with
  | Some k => match nth_error l (Z.to_nat k) with
              | Some x => Ok x
              | None => Err IndexError
              end
  | None => Err IndexError
  end.

Fixpoint update {A} (l : list A) (k : nat) (v : A) : list A :=
  match l, k with
  | [], _ => []
  | _ :: t, O => v :: t
  | x :: t, S k' => x :: update t k' v
  end.

(** [l[i] = v] *)
Definition setitem {A} (l : list A) (i : Z) (v : A) : result (list A) :=
  match norm_index (len l) i with
  | Some k => Ok (update l (Z.to_nat k) v)
  | None => Err IndexError
  end.

(** A slice bound, clamped as [slice.indices] does for step 1. *)
Definition clamp (n i : Z) : Z :=
  if i <? 0 then Z.max 0 (i + n) else Z.min i n.

(** [l[lo:hi]] *)
Definition slice {A} (l : list A) (lo hi : Z) : list A :=
  let a := clamp (len l) lo in
  let b := clamp (len l) hi in
  firstn (Z.to_nat (b - a)) (skipn (Z.to_nat a) l).

(** [range(0, k)] *)
Definition range (k : Z) : list Z :=
  map Z.of_nat (seq 0 (Z.to_nat k)).

(** [int(x)] for a finite float: truncation toward zero. *)
Definition int_of_float (x : Q) : Z := Z.quot (Qnum x) (Zpos (Qden x)).

Definition startswith_sep (s : string) : bool :=
  match s with
  | String c _ => Ascii.eqb c "/"%char
  | EmptyString => false
  end.

Fixpoint endswith_sep (s : string) : bool :=
  match s with
  | EmptyString => false
  | String c EmptyString => Ascii.eqb c "/"%char
  | String _ t => endswith_sep t
  end.

(** One step of [posixpath.join]: an absolute component restarts the
    path, otherwise it is appended after exactly one separator. *)
Definition join_step (path b : string) : string :=
  if startswith_sep b then b
  else if orb (String.eqb path "") (endswith_sep path) then (path ++ b)%string
  else (path ++ "/" ++ b)%string.

(** [os.path.join(a, *p)] *)
Definition os_path_join (a : string) (p : list string) : string :=
  fold_left join_step p a.

End Py.
Import Py.

(* ================================================================== *)
(** ** Python floats *)

(** What [__len__] needs of the doubles: [float(k)] for an integer, the
    quotient of two floats, and [np.ceil].  A finite double is [m * 2^e]
    with [|m| <= 2^53] and [e >= -1074]; every operation rounds the exact
    result to the nearest double, ties to the even mantissa.  A result of
    magnitude [2^1024] or more is no finite double: [float(k)] raises
    [OverflowError] there, the division gives an infinity, which [int]
    refuses with [OverflowError]. *)
Module Float64.

(** The double [m * 2^e]. *)
Definition t : Type := (Z * Z)%type.

(** [x * 2^k] for [k >= 0], [x] otherwise. *)
Definition shl (x k : Z) : Z := x * 2 ^ Z.max 0 k.

(** The exponent of the binade of [p / q], for positive [p] and [q]:
    [2^k <= p / q < 2^(k + 1)]. *)
Definition ilog2 (p q : Z) : Z :=
  let e0 := Z.log2 p - Z.log2 q in
  if shl q e0 <=? shl p (- e0) then e0 else e0 - 1.

(** The exponent of the unit in the last place at [p / q]: 53 significant
    bits, and no exponent below that of the subnormal numbers. *)
Definition ulp_exponent (p q : Z) : Z := Z.max (ilog2 p q - 52) (-1074).

(** The integer nearest to [num / den], ties to the even one. *)
Definition nearest_even (num den : Z) : Z :=
  let fl := num / den in
  let r2 := 2 * (num mod den) in
  if r2 <? den then fl
  else if den <? r2 then fl + 1
  else if Z.even fl then fl else fl + 1.

(** [p / q] rounded to a double, for [p >= 0] and [q > 0]. *)
Definition round_ratio (p q : Z) : t :=
  if p =? 0 then (0, 0)
  else let e := ulp_exponent p q in
       (nearest_even (shl p (- e)) (shl q e), e).

(** The magnitude is [2^1024] or more: beyond the largest double. *)
Definition overflows (x : t) : bool :=
  let '(m, e) := x in shl (2 ^ 1024) (- e) <=? shl (Z.abs m) e.

(** [float(k)] for a Python integer *)
Definition of_int (k : Z) : result t :=
  let '(m, e) := round_ratio (Z.abs k) 1 in
  let x := (Z.sgn k * m, e) in
  if overflows x then Err OverflowError else Ok x.

(** [a / b] of two floats *)
Definition div (a b : t) : result t :=
  let '(ma, ea) := a in
  let '(mb, eb) := b in
  if mb =? 0 then Err ZeroDivisionError
  else
    let '(m, e) :=
      round_ratio (shl (Z.abs ma) (ea - eb)) (shl (Z.abs mb) (eb - ea)) in
    Ok (Z.sgn ma * Z.sgn mb * m, e).

(** The integer [np.ceil(x)] of a finite [x] *)
Definition ceil (x : t) : Z :=
  let '(m, e) := x in
  if 0 <=? e then m * 2 ^ e else - ((- m) / 2 ^ (- e)).

(** [int(np.ceil(x))]; an infinite value cannot be converted. *)
Definition int_ceil (x : t) : result Z :=
  if overflows x then Err OverflowError else Ok (ceil x).

End Float64.

(* ================================================================== *)
(** ** The random module *)

(** What the generator needs of the module-level generator of [random]:
    [random.seed(a)] and [random.randint(a, b)].  [randint] is inclusive
    at both ends and raises [ValueError] on an empty range, without
    consuming randomness. *)
Class PyRandom : Type := {
  rng : Type;
  random_seed : Z -> rng;
  random_randint : Z -> Z -> rng -> result (Z * rng);
  randint_range : forall a b g v g',
      random_randint a b g = Ok (v, g') -> a <= v <= b;
  randint_total : forall a b g,
      a <= b -> exists v g', random_randint a b g = Ok (v, g');
  randint_empty : forall a b g,
      b < a -> random_randint a b g = Err ValueError
}.

(** CPython's generator: the Mersenne Twister MT19937 of
    [Modules/_randommodule.c] under [Lib/random.py].  The state is the
    window of the 624 most recent words of the recurrence, oldest first;
    the in-place block update of the C code computes the same sequence. *)
Module MT19937.

Definition N : nat := 624.
Definition M : nat := 397.
Definition w32 (x : Z) : Z := Z.land x 4294967295.
Definition MATRIX_A : Z := 2567483615.
Definition UPPER_MASK : Z := 2147483648.
Definition LOWER_MASK : Z := 2147483647.

Definition state : Type := list Z.

(** [init_genrand(s)] *)
Fixpoint init_genrand_from (prev : Z) (i : Z) (k : nat) : list Z :=
  match k with
  | O => []
  | S k' =>
      let x := w32 (1812433253 * Z.lxor prev (Z.shiftr prev 30) + i) in
      x :: init_genrand_from x (i + 1) k'
  end.

Definition init_genrand (s : Z) : state :=
  w32 s :: init_genrand_from (w32 s) 1 (N - 1).

Definition mt_get (mt : state) (i : nat) : Z := nth i mt 0.

(** The two mixing loops of [init_by_array]; [i] and [j] as in the C code. *)
Fixpoint init_loop1 (k : nat) (key : list Z) (mt : state) (i j : nat) : state * nat :=
  match k with
  | O => (mt, i)
  | S k' =>
      let p := mt_get mt (i - 1) in
      let v := w32 (Z.lxor (mt_get mt i) (Z.lxor p (Z.shiftr p 30) * 1664525)
                    + nth j key 0 + Z.of_nat j) in
      let mt := update mt i v in
      let i := S i in
      let j := S j in
      let '(mt, i) := if (N <=? i)%nat then (update mt 0 (mt_get mt (N - 1)), 1%nat)
                      else (mt, i) in
      let j := if (List.length key <=? j)%nat then 0%nat else j in
      init_loop1 k' key mt i j
  end.

Fixpoint init_loop2 (k : nat) (mt : state) (i : nat) : state :=
  match k with
  | O => mt
  | S k' =>
      let p := mt_get mt (i - 1) in
      let v := w32 (Z.lxor (mt_get mt i) (Z.lxor p (Z.shiftr p 30) * 1566083941)
                    - Z.of_nat i) in
      let mt := update mt i v in
      let i := S i in
      let '(mt, i) := if (N <=? i)%nat then (update mt 0 (mt_get mt (N - 1)), 1%nat)
                      else (mt, i) in
      init_loop2 k' mt i
  end.

Definition init_by_array (key : list Z) : state :=
  let mt := init_genrand 19650218 in
  let '(mt, i) := init_loop1 (Nat.max N (List.length key)) key mt 1 0 in
  let mt := init_loop2 (N - 1) mt i in
  update mt 0 2147483648.

(** The 32-bit digits of [abs(a)], least significant first; at least one. *)
Fixpoint key_digits (fuel : nat) (a : Z) : list Z :=
  match fuel with
  | O => []
  | S f => w32 a :: (if Z.shiftr a 32 =? 0 then [] else key_digits f (Z.shiftr a 32))
  end.

(** [random.seed(a)] for an integer [a] *)
Definition seed (a : Z) : state :=
  let a := Z.abs a in
  init_by_array (key_digits (S (Z.to_nat (Z.log2 a))) a).

(** [genrand_uint32]: the next word of the recurrence, tempered. *)
Definition genrand_uint32 (mt : state) : Z * state :=
  let y := Z.lor (Z.land (mt_get mt 0) UPPER_MASK) (Z.land (mt_get mt 1) LOWER_MASK) in
  let x := Z.lxor (mt_get mt M)
             (Z.lxor (Z.shiftr y 1) (if Z.odd y then MATRIX_A else 0)) in
  let y := x in
  let y := Z.lxor y (Z.shiftr y 11) in
  let y := Z.lxor y (Z.land (Z.shiftl y 7) 2636928640) in
  let y := Z.lxor y (Z.land (Z.shiftl y 15) 4022730752) in
  let y := Z.lxor y (Z.shiftr y 18) in
  (w32 y, tl mt ++ [x]).

(** [getrandbits(k)] for [k > 0]: 32-bit words, least significant first,
    the last one cut to the remaining bits. *)
Fixpoint getrandbits_words (words : nat) (k : Z) (mt : state) : Z * state :=
  match words with
  | O => (0, mt)
  | S w' =>
      let '(r, mt) := genrand_uint32 mt in
      let r := if k <? 32 then Z.shiftr r (32 - k) else r in
      let '(hi, mt) := getrandbits_words w' (k - 32) mt in
      (r + Z.shiftl hi 32, mt)
  end.

Definition getrandbits (k : Z) (mt : state) : Z * state :=
  getrandbits_words (Z.to_nat ((k - 1) / 32 + 1)) k mt.

(** [n.bit_length()] for [n > 0] *)
Definition bit_length (n : Z) : Z := Z.log2 n + 1.

(** [_randbelow_with_getrandbits(n)], [n > 0]: rejection sampling.  Each
    round succeeds with probability above one half; the loop is unrolled
    [fuel] times and answers 0 should every round be rejected. *)
Fixpoint randbelow_loop (fuel : nat) (n k : Z) (mt : state) : Z * state :=
  match fuel with
  | O => (0, mt)
  | S f =>
      let '(r, mt') := getrandbits k mt in
      if r <? n then (r, mt') else randbelow_loop f n k mt'
  end.

Definition randbelow (n : Z) (mt : state) : Z * state :=
  randbelow_loop 4096 n (bit_length n) mt.

(** [randint(a, b)] is [randrange(a, b + 1)] *)
Definition randint (a b : Z) (mt : state) : result (Z * state) :=
  let width := b + 1 - a in
  if 0 <? width then
    let '(r, mt') := randbelow width mt in Ok (a + r, mt')
  else Err ValueError.

End MT19937.

(* ================================================================== *)
(** ** numpy *)

(** The image side of numpy, as far as the generator touches it: the
    object [np.load] returns, the 4-dimensional input tensor and the three
    assignments [prepareOneInput] performs on it.  Assignments between
    arrays in memory raise [ValueError], [TypeError] or [IndexError], never
    an [IOError]. *)
Class NumpyImages : Type := {
  loaded : Type;
  tensor : Type;
  (** [np.zeros((size, height, width, no_channels))] *)
  np_zeros4 : Z -> Z -> Z -> Z -> result tensor;
  (** [x[i, :, :, c] = img] *)
  set_channel : tensor -> Z -> Z -> loaded -> result tensor;
  (** [x[i, :, :, c:d] = img] *)
  set_channels : tensor -> Z -> Z -> Z -> loaded -> result tensor;
  (** [x[i, :, :, :] = np.roll(x[i, :, :, :], shift, axis=1)] *)
  roll_sample : tensor -> Z -> Z -> result tensor;
  set_channel_no_io : forall x i c img e,
      set_channel x i c img = Err e -> is_IOError e = false;
  set_channels_no_io : forall x i c d img e,
      set_channels x i c d img = Err e -> is_IOError e = false
}.

(** A positional argument of [np.hstack]: an array, or a tuple of arrays. *)
Inductive pyarg : Type :=
| Arr (a : list Q)
| Tup (arrays : list (list Q)).

(** [np.hstack].  Its signature is [hstack(tup)]: one positional
    argument, the sequence of arrays to join; any other number of
    positional arguments is a [TypeError].  Joining nothing is a
    [ValueError]. *)
Definition np_hstack (args : list pyarg) : result (list Q) :=
  match args with
  | [Tup arrays] =>
      match arrays with [] => Err ValueError | _ => Ok (List.concat arrays) end
  | [Arr a] =>
      match a with [] => Err ValueError | _ => Ok a end
  | _ => Err TypeError
  end.

(** [np.zeros(m)] for an integer [m] *)
Definition np_zeros (m : Z) : result (list Q) :=
  if m <? 0 then Err ValueError else Ok (repeat 0%Q (Z.to_nat m)).

(* ================================================================== *)
(** ** Reading files *)

(** What [np.load] answers at each path: the state of the disk. *)
Definition filesystem `{NumpyImages} : Type := string -> result loaded.

(** Computations that read files: they can raise, and they leave the list
    of the paths handed to [np.load], oldest first. *)
Definition IO (A : Type) : Type := list string -> result A * list string.

Definition ret {A} (a : A) : IO A := fun t => (Ok a, t).

Definition raise {A} (e : exn) : IO A := fun t => (Err e, t).

Definition bind {A B} (c : IO A) (k : A -> IO B) : IO B :=
  fun t => match c t with
           | (Ok a, t') => k a t'
           | (Err e, t') => (Err e, t')
           end.

Definition lift {A} (r : result A) : IO A := fun t => (r, t).

(** [try: c  except IOError: h] *)
Definition try_except_IOError {A} (c : IO A) (h : IO A) : IO A :=
  fun t => match c t with
           | (Err e, t') => if is_IOError e then h t' else (Err e, t')
           | r => r
           end.

(** [np.load(f)] *)
Definition np_load `{NumpyImages} (fs : filesystem) (f : string) : IO loaded :=
  fun t => (fs f, t ++ [f]).

Declare Scope io_scope.
Delimit Scope io_scope with io.
Notation "x <- c ;; k" := (bind c (fun x => k))
  (at level 61, c at next level, right associativity) : io_scope.
Notation "' pat <- c ;; k" := (bind c (fun x => match x with pat => k end))
  (at level 61, pat pattern, c at next level, right associativity) : io_scope.
Notation "x <-! r ;; k" := (rbind r (fun x => k))
  (at level 61, r at next level, right associativity).
Notation "' pat <-! r ;; k" := (rbind r (fun x => match x with pat => k end))
  (at level 61, pat pattern, r at next level, right associativity).

(** Run from an empty log. *)
Definition run {A} (c : IO A) : result A * list string := c [].

(* ================================================================== *)
(** ** The generator *)

Section Generator.

Context {RG : PyRandom} {NP : NumpyImages}.

Local Open Scope string_scope.
Local Open Scope Z_scope.

(** The attributes [__init__] sets.  [random_rotate] exists only when
    [rotate_data > 0]. *)
Record Sequence : Type := mkSequence {
  image_path : string;
  batch_size : Z;
  imgfilenames1 : list string;
  imgfilenames2 : list string;
  dir1 : list string;
  dir2 : list string;
  overlap : list Q;
  function_angle : list Q;
  orientation : list Q;
  network_output_size : Z;
  n : Z;
  height : Z;
  width : Z;
  no_channels : Z;
  use_depth : bool;
  use_normals : bool;
  use_class_probabilities : bool;
  use_class_probabilities_pca : bool;
  use_intensity : bool;
  rotate_data : Z;
  do_rotation : bool;
  random_rotate : option (list Z)
}.

(** [self.do_rotation = d; self.random_rotate = np.array(r)] *)
Definition set_rotation (self : Sequence) (d : bool) (r : list Z) : Sequence :=
  mkSequence (image_path self) (batch_size self) (imgfilenames1 self)
    (imgfilenames2 self) (dir1 self) (dir2 self) (overlap self)
    (function_angle self) (orientation self) (network_output_size self)
    (n self) (height self) (width self) (no_channels self) (use_depth self)
    (use_normals self) (use_class_probabilities self)
    (use_class_probabilities_pca self) (use_intensity self)
    (rotate_data self) d (Some r).

(** [[random.randint(a, b) for i in range(0, k)]] *)
Fixpoint randint_list (k : nat) (a b : Z) (g : rng) : result (list Z * rng) :=
  match k with
  | O => Ok ([], g)
  | S k' =>
      '(v, g1) <-! random_randint a b g ;;
      '(vs, g2) <-! randint_list k' a b g1 ;;
      Ok (v :: vs, g2)
  end.

(** [np.array([random.randint(0, self.width) for i in range(0, self.n)])] *)
Definition draw_random_rotate (self : Sequence) (g : rng) : result (list Z * rng) :=
  randint_list (Z.to_nat (n self)) 0 (width self) g.

(** [__init__]; [g] is the state of the module-level generator before the
    call, the result carries its state after. *)
Definition __init__ (image_path : string) (imgfilenames1 imgfilenames2 : list string)
    (dir1 dir2 : list string) (overlap function_angle orientation : list Q)
    (network_output_size batch_size height width no_channels : Z)
    (use_depth use_normals use_class_probabilities use_class_probabilities_pca
       use_intensity : bool)
    (rotate_data : Z) (g : rng) : result (Sequence * rng) :=
  let self :=
    mkSequence image_path batch_size imgfilenames1 imgfilenames2 dir1 dir2
      overlap function_angle orientation network_output_size
      (len overlap) height width no_channels use_depth use_normals
      use_class_probabilities use_class_probabilities_pca use_intensity
      rotate_data false None in
  if rotate_data >? 0 then
    let g := random_seed 1234 in
    '(r, g') <-! draw_random_rotate self g ;;
    Ok (set_rotation self true r, g')
  else Ok (self, g).

(** [__len__]: [int(np.ceil(self.n / float(self.batch_size)))].
    [float(self.batch_size)] is evaluated first; the division then
    converts [self.n] and refuses a zero divisor. *)
Definition __len__ (self : Sequence) : result Z :=
  b <-! Float64.of_int (batch_size self) ;;
  a <-! Float64.of_int (n self) ;;
  q <-! Float64.div a b ;;
  Float64.int_ceil q.

(** Truth value of a list *)
Definition truthy {A} (l : list A) : bool :=
  match l with [] => false | _ => true end.

(** [self.random_rotate[totalidx]] *)
Definition lookup_shift (self : Sequence) (totalidx : Z) : result Z :=
  match random_rotate self with
  | Some r => getitem r totalidx
  | None => Err AttributeError
  end.

(** The path [os.path.join(self.image_path, dir_f1[i], kind, batch_f1[i] + ext)] *)
Definition layer_path (self : Sequence) (dir_f1 batch_f1 : list string) (i : Z)
    (kind ext : string) : result string :=
  d <-! getitem dir_f1 i ;;
  b <-! getitem batch_f1 i ;;
  Ok (os_path_join (image_path self) [d; kind; b ++ ext]).

Local Open Scope io_scope.

(** [prepareOneInput], lines 146-157: the depth layer *)
Definition load_depth (self : Sequence) (fs : filesystem) (i : Z)
    (batch_f1 dir_f1 : list string) (st : tensor * Z) : IO (tensor * Z) :=
  let '(x1, channelidx) := st in
  if use_depth self then
    f <- lift (layer_path self dir_f1 batch_f1 i "depth" ".npy") ;;
    img1 <- try_except_IOError (np_load fs f)
              (raise (Exception ("Could not read depth image " ++ f))) ;;
    x1 <- lift (set_channel x1 i channelidx img1) ;;
    ret (x1, channelidx + 1)
  else ret st.

(** lines 158-167: the normals *)
Definition load_normals (self : Sequence) (fs : filesystem) (i : Z)
    (batch_f1 dir_f1 : list string) (st : tensor * Z) : IO (tensor * Z) :=
  let '(x1, channelidx) := st in
  if use_normals self then
    f <- lift (layer_path self dir_f1 batch_f1 i "normal" ".npy") ;;
    img1 <- try_except_IOError (np_load fs f)
              (raise (Exception ("Could not read normal image " ++ f))) ;;
    x1 <- lift (set_channels x1 i channelidx (channelidx + 3) img1) ;;
    ret (x1, channelidx + 3)
  else ret st.

(** lines 178-183 and 194-199: store the class probabilities *)
Definition store_probabilities (self : Sequence) (i : Z) (st : tensor * Z)
    (img1 : loaded) : IO (tensor * Z) :=
  let '(x1, channelidx) := st in
  if use_class_probabilities_pca self then
    x1 <- lift (set_channels x1 i channelidx (channelidx + 3) img1) ;;
    ret (x1, channelidx + 3)
  else
    x1 <- lift (set_channels x1 i channelidx (channelidx + 20) img1) ;;
    ret (x1, channelidx + 20).

(** lines 169-199: the class probabilities; the [try] spans the load and
    the store, the handler reads the [.npz] file. *)
Definition load_probabilities (self : Sequence) (fs : filesystem) (i : Z)
    (batch_f1 dir_f1 : list string) (st : tensor * Z) : IO (tensor * Z) :=
  if use_class_probabilities self then
    let kind := if use_class_probabilities_pca self
                then "probability_pca" else "probability" in
    f <- lift (layer_path self dir_f1 batch_f1 i kind ".npy") ;;
    try_except_IOError
      (img1 <- np_load fs f ;;
       store_probabilities self i st img1)
      (f <- lift (layer_path self dir_f1 batch_f1 i kind ".npz") ;;
       img1 <- np_load fs f ;;
       store_probabilities self i st img1)
  else ret st.

(** lines 201-211: the intensity *)
Definition load_intensity (self : Sequence) (fs : filesystem) (i : Z)
    (batch_f1 dir_f1 : list string) (st : tensor * Z) : IO (tensor * Z) :=
  let '(x1, channelidx) := st in
  if use_intensity self then
    f <- lift (layer_path self dir_f1 batch_f1 i "intensity" ".npy") ;;
    img1 <- try_except_IOError (np_load fs f)
              (f <- lift (layer_path self dir_f1 batch_f1 i "intensity" ".npz") ;;
               np_load fs f) ;;
    x1 <- lift (set_channel x1 i channelidx img1) ;;
    ret (x1, channelidx + 1)
  else ret st.

(** lines 213-216: the shift along the width *)
Definition rotate (self : Sequence) (i : Z) (totalidx : Z) (rotate_data : bool)
    (x1 : tensor) : IO tensor :=
  if rotate_data then
    shift <- lift (lookup_shift self totalidx) ;;
    lift (roll_sample x1 i shift)
  else ret x1.

(** [prepareOneInput(x1, i, batch_f1, dir_f1, totalidx, rotate_data)]; the
    tensor, updated in place by the source, is returned. *)
Definition prepareOneInput (self : Sequence) (fs : filesystem) (x1 : tensor)
    (i : Z) (batch_f1 dir_f1 : list string) (totalidx : Z) (rotate_data : bool)
    : IO tensor :=
  let channelidx := 0 in
  st <- load_depth self fs i batch_f1 dir_f1 (x1, channelidx) ;;
  st <- load_normals self fs i batch_f1 dir_f1 st ;;
  st <- load_probabilities self fs i batch_f1 dir_f1 st ;;
  '(x1, _) <- load_intensity self fs i batch_f1 dir_f1 st ;;
  rotate self i totalidx rotate_data x1.

(** The targets part of what [__getitem__] returns: the array [y] alone
    with one leg, the list [[np.hstack(...), y]] with two. *)
Inductive targets : Type :=
| OneHead (y : list (list Q))
| TwoHeads (overlap_function_angle : list Q) (y : list (list Q)).

(** The value of [__getitem__]: the list of input tensors and the targets. *)
Definition batch : Type := list tensor * targets.

(** [for i in l: s = body(i, s)] *)
Fixpoint for_each {S} (l : list Z) (body : Z -> S -> IO S) (s : S) : IO S :=
  match l with
  | [] => ret s
  | i :: l' => s' <- body i s ;; for_each l' body s'
  end.

(** lines 98-102: the pair [(maxidx, size)] *)
Definition batch_bounds (self : Sequence) (idx : Z) : Z * Z :=
  let maxidx := (idx + 1) * batch_size self in
  let size := batch_size self in
  if maxidx >? n self then
    let maxidx := n self in
    (maxidx, maxidx - idx * batch_size self)
  else (maxidx, size).

(** [l[idx * self.batch_size: maxidx]] *)
Definition batch_slice {A} (self : Sequence) (idx : Z) (l : list A) : list A :=
  slice l (idx * batch_size self) (fst (batch_bounds self idx)).

(** The index handed to [prepareOneInput] as [totalidx] for the second
    leg of the [i]-th sample of the batch: [idx * size + i] (line 115). *)
Definition leg2_totalidx (self : Sequence) (idx i : Z) : Z :=
  idx * snd (batch_bounds self idx) + i.

(** lines 113-115: one round of the loop over the samples of the batch *)
Definition fill_one (self : Sequence) (fs : filesystem) (idx : Z) (i : Z)
    (x : tensor * option tensor) : IO (tensor * option tensor) :=
  let batch_f1 := batch_slice self idx (imgfilenames1 self) in
  let dir_f1 := batch_slice self idx (dir1 self) in
  let batch_f2 := batch_slice self idx (imgfilenames2 self) in
  let dir_f2 := batch_slice self idx (dir2 self) in
  let '(x1, x2) := x in
  x1 <- prepareOneInput self fs x1 i batch_f1 dir_f1 0 false ;;
  match x2 with
  | Some x2 =>
      x2 <- prepareOneInput self fs x2 i batch_f2 dir_f2
              (leg2_totalidx self idx i) (do_rotation self) ;;
      ret (x1, Some x2)
  | None => ret (x1, None)
  end.

(** lines 103-115: the input tensors.  The second one exists when
    [self.imgfilenames2] is not empty. *)
Definition fill_inputs (self : Sequence) (fs : filesystem) (idx : Z)
    : IO (tensor * option tensor) :=
  let size := snd (batch_bounds self idx) in
  x1 <- lift (np_zeros4 size (height self) (width self) (no_channels self)) ;;
  x2 <- (if truthy (imgfilenames2 self) then
            x2 <- lift (np_zeros4 size (height self) (width self) (no_channels self)) ;;
            ret (Some x2)
          else ret None) ;;
  for_each (range size) (fill_one self fs idx) (x1, x2).

(** lines 123-124: one row of [y] *)
Definition target_row (self : Sequence) (y_function_angle y_orientation : list Q)
    (idx : Z) : result (list Q) :=
  y_item <-! np_zeros (network_output_size self) ;;
  v <-! getitem y_function_angle idx ;;
  o <-! getitem y_orientation idx ;;
  setitem y_item (int_of_float o) v.

(** [for idx in l: y.append(row(idx))] *)
Fixpoint rows (row : Z -> result (list Q)) (l : list Z) : result (list (list Q)) :=
  match l with
  | [] => Ok []
  | idx :: l' =>
      y_item <-! row idx ;;
      y <-! rows row l' ;;
      Ok (y_item :: y)
  end.

(** lines 117-127: the array [y] *)
Definition target_array (self : Sequence) (idx : Z) : result (list (list Q)) :=
  let y_overlap := batch_slice self idx (overlap self) in
  let y_function_angle := batch_slice self idx (function_angle self) in
  let y_orientation := batch_slice self idx (orientation self) in
  rows (target_row self y_function_angle y_orientation) (range (len y_overlap)).

(** lines 129-132: what is returned *)
Definition pack (self : Sequence) (idx : Z) (x : tensor * option tensor)
    (y : list (list Q)) : result batch :=
  let y_overlap := batch_slice self idx (overlap self) in
  let y_function_angle := batch_slice self idx (function_angle self) in
  match x with
  | (x1, Some x2) =>
      h <-! np_hstack [Arr y_overlap; Arr y_function_angle] ;;
      Ok ([x1; x2], TwoHeads h y)
  | (x1, None) => Ok ([x1], OneHead y)
  end.

(** lines 98-132: the batch, once the schedule is settled *)
Definition assemble (self : Sequence) (fs : filesystem) (idx : Z) : IO batch :=
  x <- fill_inputs self fs idx ;;
  y <- lift (target_array self idx) ;;
  lift (pack self idx x y).

(** lines 93-96: with [rotate_data == 2], batch 0 draws new shifts *)
Definition renew_rotation (self : Sequence) (g : rng) (idx : Z)
    : result (Sequence * rng) :=
  if (idx =? 0) && (rotate_data self =? 2) then
    '(r, g') <-! draw_random_rotate self g ;;
    Ok (set_rotation self (do_rotation self) r, g')
  else Ok (self, g).

(** What a call leaves behind: the value or the exception, the paths
    read, the object and the generator of [random]. *)
Record outcome : Type := mkOutcome {
  value : result batch;
  reads : list string;
  self_after : Sequence;
  rng_after : rng
}.

(** [__getitem__(idx)] *)
Definition __getitem__ (self : Sequence) (g : rng) (fs : filesystem) (idx : Z)
    : outcome :=
  match renew_rotation self g idx with
  | Err e => mkOutcome (Err e) [] self g
  | Ok (self', g') =>
      let '(v, t) := run (assemble self' fs idx) in
      mkOutcome v t self' g'
  end.

(** A run of calls of [__getitem__], each with its index and the disk of
    its time; what is left is the object and the generator of [random]. *)
Fixpoint calls (self : Sequence) (g : rng) (reqs : list (filesystem * Z))
    : Sequence * rng :=
  match reqs with
  | [] => (self, g)
  | (fs, idx) :: reqs' =>
      let o := __getitem__ self g fs idx in
      calls (self_after o) (rng_after o) reqs'
  end.

(** The array [y] inside the targets *)
Definition peak (t : targets) : list (list Q) :=
  match t with
  | OneHead y => y
  | TwoHeads _ y => y
  end.

End Generator.

(* ================================================================== *)
(** ** Two implementations of the interfaces *)

(** A dense reference implementation of [NumpyImages]: a tensor is its
    shape and its cells, indexed sample, row, column, channel.  A loaded
    [.npy] file is a 2- or 3-dimensional array, held as nested lists whose
    lengths are its shape (an empty list is an empty array whose further
    axes fit; nested lists of unequal lengths are no array and are
    refused); a loaded [.npz] file is an archive object.

    An assignment [x[i, :, :, c] = img] resolves the positions first
    ([IndexError]) and then converts and broadcasts the value
    ([ValueError]): leading axes of length one beyond the dimensions of
    the destination are dropped, a missing leading axis is added, and
    every axis of the value must have the length of the destination's or
    length one, in which case its single entry is repeated.  An archive is
    no numeric value: [ValueError]. *)
Module Dense.

Inductive loaded : Type :=
| Array2 (a : list (list Q))
| Array3 (a : list (list (list Q)))
| NpzFile.

Record tensor : Type := mkTensor {
  shape : Z * Z * Z * Z;
  cells : list (list (list (list Q)))
}.

Definition zeros4 (s h w c : Z) : result tensor :=
  if (s <? 0) || (h <? 0) || (w <? 0) || (c <? 0) then Err ValueError
  else Ok (mkTensor (s, h, w, c)
             (repeat (repeat (repeat (repeat 0%Q (Z.to_nat c)) (Z.to_nat w))
                        (Z.to_nat h)) (Z.to_nat s))).

Definition has_shape2 (a : list (list Q)) (h w : Z) : bool :=
  (len a =? h) && forallb (fun r => len r =? w) a.

Definition has_shape3 (a : list (list (list Q))) (h w k : Z) : bool :=
  (len a =? h) && forallb (fun r => has_shape2 r w k) a.

(** All the lists have the length of the first. *)
Definition same_len {A} (l : list (list A)) : bool :=
  match l with
  | [] => true
  | r :: t => forallb (fun r' => len r' =? len r) t
  end.

(** An axis of [n] entries can be assigned to an axis of [k] entries. *)
Definition fits (k n : Z) : bool := (n =? k) || (n =? 1).

(** The axis broadcast to [k] entries, when it fits. *)
Definition stretch {A} (k : Z) (l : list A) : list A :=
  if len l =? k then l
  else match l with
       | [v] => repeat v (Z.to_nat k)
       | _ => l
       end.

Definition fits2 (a : list (list Q)) (h w : Z) : bool :=
  same_len a && fits h (len a) && forallb (fun r => fits w (len r)) a.

Definition stretch2 (h w : Z) (a : list (list Q)) : list (list Q) :=
  stretch h (map (stretch w) a).

Definition fits3 (a : list (list (list Q))) (h w k : Z) : bool :=
  same_len a && same_len (List.concat a) && fits h (len a)
  && forallb (fun p => fits w (len p) && forallb (fun r => fits k (len r)) p) a.

Definition stretch3 (h w k : Z) (a : list (list (list Q))) : list (list (list Q)) :=
  stretch h (map (stretch2 w k) a).

(** The value as a 2-dimensional array: a leading axis of length one is
    dropped. *)
Definition image2 (img : loaded) : option (list (list Q)) :=
  match img with
  | Array2 a => Some a
  | Array3 [a] => Some a
  | Array3 _ => None
  | NpzFile => None
  end.

(** The value as a 3-dimensional array: a 2-dimensional one gets a leading
    axis of length one. *)
Definition image3 (img : loaded) : option (list (list (list Q))) :=
  match img with
  | Array2 a => Some [a]
  | Array3 a => Some a
  | NpzFile => None
  end.

(** Replace channels [c, c + length v) of one pixel by [v]. *)
Definition put_pixel (c : nat) (pixel v : list Q) : list Q :=
  firstn c pixel ++ v ++ skipn (c + List.length v) pixel.

Definition put_image (c : nat) (img : list (list (list Q)))
    (a : list (list (list Q))) : list (list (list Q)) :=
  map (fun '(row, arow) =>
         map (fun '(pixel, v) => put_pixel c pixel v) (combine row arow))
      (combine img a).

(** Sample [k] gets the values [a] from channel [c] on. *)
Definition store (x : tensor) (k c : nat) (a : list (list (list Q))) : tensor :=
  mkTensor (shape x) (update (cells x) k (put_image c (nth k (cells x) []) a)).

Definition set_channel (x : tensor) (i c : Z) (img : loaded) : result tensor :=
  let '(s, h, w, ch) := shape x in
  match norm_index s i, norm_index ch c with
  | Some k, Some c' =>
      match image2 img with
      | Some a =>
          if fits2 a h w
          then Ok (store x (Z.to_nat k) (Z.to_nat c')
                     (map (map (fun v => [v])) (stretch2 h w a)))
          else Err ValueError
      | None => Err ValueError
      end
  | _, _ => Err IndexError
  end.

Definition set_channels (x : tensor) (i c d : Z) (img : loaded) : result tensor :=
  let '(s, h, w, ch) := shape x in
  let c' := clamp ch c in
  let d' := clamp ch d in
  match norm_index s i with
  | Some k =>
      match image3 img with
      | Some a =>
          if fits3 a h w (Z.max 0 (d' - c'))
          then Ok (store x (Z.to_nat k) (Z.to_nat c')
                     (stretch3 h w (Z.max 0 (d' - c')) a))
          else Err ValueError
      | None => Err ValueError
      end
  | None => Err IndexError
  end.

(** [np.roll(row, shift)] along the columns of one row: the column at
    position [j] moves to [(j + shift) mod w], wrapping around. *)
Definition roll {A} (row : list A) (shift : Z) : list A :=
  let w := len row in
  if w =? 0 then row
  else let k := Z.to_nat (w - shift mod w) in skipn k row ++ firstn k row.

Definition roll_sample (x : tensor) (i shift : Z) : result tensor :=
  let '(s, h, w, ch) := shape x in
  match norm_index s i with
  | None => Err IndexError
  | Some k =>
      let img := nth (Z.to_nat k) (cells x) [] in
      Ok (mkTensor (shape x)
            (update (cells x) (Z.to_nat k) (map (fun row => roll row shift) img)))
  end.

End Dense.

Lemma Dense_set_channel_no_io x i c img e :
  Dense.set_channel x i c img = Err e -> is_IOError e = false.
Proof.
  unfold Dense.set_channel. destruct (Dense.shape x) as [[[s h] w] ch].
  destruct (norm_index s i); [|intros H; inversion H; reflexivity].
  destruct (norm_index ch c); [|intros H; inversion H; reflexivity].
  destruct (Dense.image2 img) as [a|]; [|intros H; inversion H; reflexivity].
  destruct (Dense.fits2 a h w); intros H; inversion H; reflexivity.
Qed.

Lemma Dense_set_channels_no_io x i c d img e :
  Dense.set_channels x i c d img = Err e -> is_IOError e = false.
Proof.
  unfold Dense.set_channels. destruct (Dense.shape x) as [[[s h] w] ch].
  destruct (norm_index s i); [|intros H; inversion H; reflexivity].
  destruct (Dense.image3 img) as [a|]; [|intros H; inversion H; reflexivity].
  destruct (Dense.fits3 a h w _); intros H; inversion H; reflexivity.
Qed.

#[export] Instance DenseImages : NumpyImages := {
  loaded := Dense.loaded;
  tensor := Dense.tensor;
  np_zeros4 := Dense.zeros4;
  set_channel := Dense.set_channel;
  set_channels := Dense.set_channels;
  roll_sample := Dense.roll_sample;
  set_channel_no_io := Dense_set_channel_no_io;
  set_channels_no_io := Dense_set_channels_no_io
}.

Lemma MT_w32_nonneg x : 0 <= MT19937.w32 x.
Proof. unfold MT19937.w32. apply Z.land_nonneg. right. lia. Qed.

Lemma MT_getrandbits_words_S w' k mt :
  MT19937.getrandbits_words (S w') k mt =
  let '(r, mt) := MT19937.genrand_uint32 mt in
  let r := if k <? 32 then Z.shiftr r (32 - k) else r in
  let '(hi, mt) := MT19937.getrandbits_words w' (k - 32) mt in
  (r + Z.shiftl hi 32, mt).
Proof. reflexivity. Qed.

Lemma MT_getrandbits_words_nonneg words : forall k mt r mt',
  MT19937.getrandbits_words words k mt = (r, mt') -> 0 <= r.
Proof.
  induction words as [|w' IH]; intros k mt r mt' H.
  - inversion H. lia.
  - rewrite MT_getrandbits_words_S in H.
    destruct (MT19937.genrand_uint32 mt) as [r0 mt0] eqn:E0.
    destruct (MT19937.getrandbits_words w' (k - 32) mt0) as [hi mt1] eqn:E1.
    cbv zeta in H. remember (Z.shiftr r0 (32 - k)) as q eqn:Hq.
    remember (Z.shiftl hi 32) as q' eqn:Hq'.
    injection H as Hr _. subst r.
    apply IH in E1.
    assert (0 <= r0).
    { unfold MT19937.genrand_uint32 in E0. inversion E0. apply MT_w32_nonneg. }
    assert (0 <= q') by (subst q'; apply Z.shiftl_nonneg; lia).
    assert (0 <= q) by (subst q; apply Z.shiftr_nonneg; lia).
    destruct (k <? 32); lia.
Qed.

Lemma MT_randbelow_loop_range fuel : forall m k mt r mt',
  0 < m -> MT19937.randbelow_loop fuel m k mt = (r, mt') -> 0 <= r < m.
Proof.
  induction fuel as [|f IH]; intros m k mt r mt' Hm H;
    unfold MT19937.randbelow_loop in H; fold MT19937.randbelow_loop in H.
  - inversion H. lia.
  - destruct (MT19937.getrandbits k mt) as [r0 mt0] eqn:E0.
    destruct (r0 <? m) eqn:Hlt.
    + inversion H; subst. apply Z.ltb_lt in Hlt.
      apply MT_getrandbits_words_nonneg in E0. lia.
    + eapply IH; eauto.
Qed.

Lemma MT_randint_range a b g v g' :
  MT19937.randint a b g = Ok (v, g') -> a <= v <= b.
Proof.
  unfold MT19937.randint. destruct (0 <? b + 1 - a) eqn:Hw; [|discriminate].
  apply Z.ltb_lt in Hw.
  destruct (MT19937.randbelow (b + 1 - a) g) as [r mt'] eqn:E.
  intros H; inversion H; subst.
  apply MT_randbelow_loop_range in E; lia.
Qed.

Lemma MT_randint_total a b g :
  a <= b -> exists v g', MT19937.randint a b g = Ok (v, g').
Proof.
  intros Hab. unfold MT19937.randint.
  replace (0 <? b + 1 - a) with true by (symmetry; apply Z.ltb_lt; lia).
  destruct (MT19937.randbelow (b + 1 - a) g) as [r mt']. eauto.
Qed.

Lemma MT_randint_empty a b g :
  b < a -> MT19937.randint a b g = Err ValueError.
Proof.
  intros Hab. unfold MT19937.randint.
  replace (0 <? b + 1 - a) with false by (symmetry; apply Z.ltb_ge; lia).
  reflexivity.
Qed.

#[export] Instance MersenneTwister : PyRandom := {
  rng := MT19937.state;
  random_seed := MT19937.seed;
  random_randint := MT19937.randint;
  randint_range := MT_randint_range;
  randint_total := MT_randint_total;
  randint_empty := MT_randint_empty
}.


(* ================================================================== *)
(** ** Sequences and slices *)

Section Slices.

Context {A : Type}.
Implicit Types l : list A.

Lemma firstn_plus l : forall a b : nat,
  firstn (a + b) l = firstn a l ++ firstn b (skipn a l).
Proof.
  induction l as [|x l IH]; intros a b.
  - now rewrite skipn_nil, !firstn_nil.
  - destruct a as [|a]; simpl; [reflexivity|]. now rewrite IH.
Qed.

Lemma firstn_min_length l (k : nat) :
  firstn (Nat.min k (List.length l)) l = firstn k l.
Proof.
  destruct (Nat.le_ge_cases k (List.length l)) as [H|H].
  - now rewrite Nat.min_l.
  - rewrite Nat.min_r by assumption. now rewrite !firstn_all2 by lia.
Qed.

(** A slice with bounds inside the sequence is the plain sub-list. *)
Lemma slice_inside l (lo hi : Z) :
  0 <= lo <= hi -> hi <= len l ->
  slice l lo hi = firstn (Z.to_nat (hi - lo)) (skipn (Z.to_nat lo) l).
Proof.
  intros H1 H2. unfold slice, clamp.
  replace (lo <? 0) with false by (symmetry; apply Z.ltb_ge; lia).
  replace (hi <? 0) with false by (symmetry; apply Z.ltb_ge; lia).
  now rewrite !Z.min_l by lia.
Qed.

Lemma len_slice_inside l (lo hi : Z) :
  0 <= lo <= hi -> hi <= len l -> len (slice l lo hi) = hi - lo.
Proof.
  intros H1 H2. rewrite slice_inside by assumption. unfold len in *.
  rewrite length_firstn, length_skipn. lia.
Qed.

(** Position [j] of a slice is position [lo + j] of the sequence. *)
Lemma getitem_slice_inside l (lo hi j : Z) :
  0 <= lo <= hi -> hi <= len l -> 0 <= j < hi - lo ->
  getitem (slice l lo hi) j = getitem l (lo + j).
Proof.
  intros H1 H2 Hj. unfold getitem.
  rewrite len_slice_inside by assumption. unfold norm_index.
  replace ((0 <=? j) && (j <? hi - lo)) with true
    by (symmetry; apply andb_true_iff; split; [apply Z.leb_le|apply Z.ltb_lt]; lia).
  replace ((0 <=? lo + j) && (lo + j <? len l)) with true
    by (symmetry; apply andb_true_iff; split; [apply Z.leb_le|apply Z.ltb_lt]; lia).
  rewrite slice_inside by assumption.
  rewrite nth_error_firstn.
  replace (Z.to_nat j <? Z.to_nat (hi - lo))%nat with true
    by (symmetry; apply Nat.ltb_lt; lia).
  rewrite nth_error_skipn.
  replace (Z.to_nat lo + Z.to_nat j)%nat with (Z.to_nat (lo + j)) by lia.
  reflexivity.
Qed.

(** Cutting a sequence into consecutive chunks of [b] elements and joining
    the first [k] chunks gives back its first [k * b] elements. *)
Lemma concat_chunks l (b : nat) : forall k : nat,
  List.concat (map (fun i => firstn b (skipn (i * b) l)) (seq 0 k)) = firstn (k * b) l.
Proof.
  induction k as [|k IH]; [reflexivity|].
  rewrite seq_S, map_app, concat_app, IH. simpl.
  rewrite app_nil_r. replace (b + k * b)%nat with (k * b + b)%nat by lia.
  now rewrite firstn_plus.
Qed.

End Slices.

(** The ceiling of a quotient of integers, for a positive divisor. *)
Lemma Qceiling_div_pos (a b : Z) :
  0 < b ->
  let L := Qceiling (inject_Z a / inject_Z b) in
  (L - 1) * b < a <= L * b.
Proof.
  intros Hb L.
  assert (H1 := Qle_ceiling (inject_Z a / inject_Z b)).
  assert (H2 := Qceiling_lt (inject_Z a / inject_Z b)).
  fold L in H1, H2.
  assert (Hbq : (0 < inject_Z b)%Q) by (unfold Qlt; simpl; lia).
  assert (Hq : (inject_Z a / inject_Z b * inject_Z b == inject_Z a)%Q).
  { rewrite Qmult_comm. apply Qmult_div_r. intros E. rewrite E in Hbq.
    apply Qlt_irrefl in Hbq. exact Hbq. }
  split.
  - apply (Qmult_lt_compat_r _ _ (inject_Z b)) in H2; [|assumption].
    rewrite Hq, <- inject_Z_mult, <- Zlt_Qlt in H2. exact H2.
  - apply (Qmult_le_compat_r _ _ (inject_Z b)) in H1; [|apply Qlt_le_weak; assumption].
    rewrite Hq, <- inject_Z_mult, <- Zle_Qle in H1. exact H1.
Qed.

(** The ceiling of a quotient of integers is an integer quotient. *)
Lemma Qceiling_div (a b : Z) :
  b <> 0 -> Qceiling (inject_Z a / inject_Z b) = - (- a / b).
Proof.
  intros Hb. unfold Qceiling. f_equal.
  destruct b as [|p|p]; [contradiction| |].
  - unfold Qdiv, Qmult, Qinv, Qopp, Qfloor, inject_Z. cbn [Qnum Qden].
    rewrite Z.mul_1_r. reflexivity.
  - unfold Qdiv, Qmult, Qinv, Qopp, Qfloor, inject_Z. cbn [Qnum Qden].
    change (Z.neg 1) with (- (1)). rewrite Z.mul_opp_r, Z.mul_1_r.
    change (Z.pos (1 * p)) with (Z.pos p).
    rewrite <- (Z.div_opp_opp (- a) (Z.neg p)) by discriminate.
    reflexivity.
Qed.

Lemma ceiling_div_pos (a b : Z) : 0 < b -> - (- a / b) = (a + b - 1) / b.
Proof.
  intros Hb.
  pose proof (Z.div_mod (- a) b ltac:(lia)) as E1.
  pose proof (Z.mod_pos_bound (- a) b Hb) as B1.
  pose proof (Z.div_mod (a + b - 1) b ltac:(lia)) as E2.
  pose proof (Z.mod_pos_bound (a + b - 1) b Hb) as B2.
  nia.
Qed.

(* ================================================================== *)
(** ** Doubles *)

Section Doubles.

Import Float64.

Lemma nearest_even_bounds num den :
  0 < den ->
  2 * num - den <= 2 * (nearest_even num den * den) <= 2 * num + den.
Proof.
  intros Hd. unfold nearest_even.
  pose proof (Z.div_mod num den ltac:(lia)) as E.
  pose proof (Z.mod_pos_bound num den Hd) as B.
  set (fl := num / den) in *. set (r := num mod den) in *.
  destruct (Z.ltb_spec (2*r) den); [nia|].
  destruct (Z.ltb_spec den (2*r)); [nia|].
  destruct (Z.even fl); nia.
Qed.

Lemma nearest_even_one x : nearest_even x 1 = x.
Proof.
  unfold nearest_even. rewrite Z.mod_1_r, Z.div_1_r. reflexivity.
Qed.

Lemma shl_nonpos x k : k <= 0 -> shl x k = x.
Proof. intros H. unfold shl. rewrite Z.max_l by lia. simpl. lia. Qed.

Lemma shl_nonneg x k : 0 <= k -> shl x k = x * 2 ^ k.
Proof. intros H. unfold shl. now rewrite Z.max_r by lia. Qed.

Lemma log2_small k : 0 < k < 2 ^ 53 -> 0 <= Z.log2 k <= 52.
Proof.
  intros H. split; [apply Z.log2_nonneg|].
  enough (Z.log2 k < 53) by lia. apply Z.log2_lt_pow2; lia.
Qed.

(** An integer of magnitude below [2^53] is a double. *)
Lemma of_int_small k :
  0 < Z.abs k < 2 ^ 53 ->
  of_int k = Ok (Z.sgn k * (Z.abs k * 2 ^ (52 - Z.log2 (Z.abs k))),
                 Z.log2 (Z.abs k) - 52).
Proof.
  intros H. pose proof (log2_small _ H) as Hl.
  pose proof (Z.log2_spec (Z.abs k) ltac:(lia)) as [Hlo _].
  unfold of_int, round_ratio.
  set (a := Z.abs k) in *.
  replace (a =? 0) with false by (symmetry; apply Z.eqb_neq; lia).
  assert (Hi : ilog2 a 1 = Z.log2 a).
  { unfold ilog2. change (Z.log2 1) with 0. rewrite Z.sub_0_r.
    rewrite shl_nonneg, shl_nonpos by lia.
    destruct (Z.leb_spec (1 * 2 ^ Z.log2 a) a); [reflexivity|lia]. }
  unfold ulp_exponent. rewrite Hi. rewrite Z.max_l by lia.
  rewrite (shl_nonpos 1) by lia. rewrite nearest_even_one.
  rewrite shl_nonneg by lia.
  replace (- (Z.log2 a - 52)) with (52 - Z.log2 a) by lia.
  unfold overflows.
  assert (0 < 2 ^ (52 - Z.log2 a)) by (apply Z.pow_pos_nonneg; lia).
  rewrite Z.abs_mul, (Z.abs_eq (a * _)) by nia.
  replace (Z.abs (Z.sgn k)) with 1 by (subst a; lia).
  rewrite Z.mul_1_l.
  rewrite shl_nonneg, shl_nonpos by lia.
  replace (- (Z.log2 a - 52)) with (52 - Z.log2 a) by lia.
  assert (2 ^ 53 <= 2 ^ 1024) by (apply Z.pow_le_mono_r; lia).
  destruct (Z.leb_spec (2 ^ 1024 * 2 ^ (52 - Z.log2 a)) (a * 2 ^ (52 - Z.log2 a)));
    [nia|reflexivity].
Qed.

(** The operands of the division of two such doubles have a common
    scale. *)
Lemma common_scale n b :
  0 < n < 2 ^ 53 -> 0 < b < 2 ^ 53 ->
  exists K, 0 < K /\
    shl (n * 2 ^ (52 - Z.log2 n)) (Z.log2 n - 52 - (Z.log2 b - 52)) = n * K /\
    shl (b * 2 ^ (52 - Z.log2 b)) (Z.log2 b - 52 - (Z.log2 n - 52)) = b * K /\
    Z.log2 (n * K) - Z.log2 (b * K) = Z.log2 n - Z.log2 b.
Proof.
  intros Hn Hb.
  pose proof (log2_small n Hn) as Hln. pose proof (log2_small b Hb) as Hlb.
  exists (2 ^ (52 - Z.min (Z.log2 n) (Z.log2 b))).
  split; [apply Z.pow_pos_nonneg; lia|].
  unfold shl. rewrite <- !Z.mul_assoc, <- !Z.pow_add_r by lia.
  split; [f_equal; f_equal; lia|]. split; [f_equal; f_equal; lia|].
  rewrite !Z.log2_mul_pow2 by lia. lia.
Qed.

(** The mantissa of the quotient of two positive integers below [2^53]:
    it is the quotient scaled by [2^s] and rounded, and the scale is fine
    enough to separate the multiples of [1 / b]. *)
Lemma quotient_mantissa n b K :
  0 < n < 2 ^ 53 -> 0 < b < 2 ^ 53 -> 0 < K ->
  Z.log2 (n * K) - Z.log2 (b * K) = Z.log2 n - Z.log2 b ->
  exists s m,
    round_ratio (n * K) (b * K) = (m, - s) /\
    0 <= s <= 105 /\ b < 2 * 2 ^ s /\
    2 * (n * 2 ^ s) - b <= 2 * (m * b) <= 2 * (n * 2 ^ s) + b.
Proof.
  intros Hn Hb HK Hlog.
  pose proof (log2_small n Hn) as Hln. pose proof (log2_small b Hb) as Hlb.
  unfold round_ratio.
  replace (n * K =? 0) with false by (symmetry; apply Z.eqb_neq; nia).
  assert (Hi : Z.log2 n - Z.log2 b - 1 <= ilog2 (n * K) (b * K)
               <= Z.log2 n - Z.log2 b).
  { unfold ilog2. rewrite Hlog. destruct (_ <=? _); lia. }
  set (L := ilog2 (n * K) (b * K)) in *.
  unfold ulp_exponent. fold L. rewrite Z.max_l by lia.
  exists (52 - L), (nearest_even (shl (n * K) (- (L - 52))) (shl (b * K) (L - 52))).
  split; [f_equal; lia|]. split; [lia|].
  assert (Hs : 0 < 2 ^ (52 - L)) by (apply Z.pow_pos_nonneg; lia).
  split.
  - pose proof (Z.log2_spec b ltac:(lia)) as [_ Hhi].
    assert (2 ^ Z.succ (Z.log2 b) <= 2 * 2 ^ (52 - L)); [|lia].
    replace (2 * 2 ^ (52 - L)) with (2 ^ (Z.succ (52 - L)))
      by (rewrite Z.pow_succ_r by lia; reflexivity).
    apply Z.pow_le_mono_r; lia.
  - rewrite shl_nonneg, shl_nonpos by lia.
    replace (- (L - 52)) with (52 - L) by lia.
    pose proof (nearest_even_bounds (n * K * 2 ^ (52 - L)) (b * K) ltac:(nia)) as Hne.
    set (m := nearest_even _ _) in *. nia.
Qed.

(** Rounding up a mantissa at scale [2^s]. *)
Lemma ceil_scaled m s c :
  0 <= s -> (c - 1) * 2 ^ s < m <= c * 2 ^ s -> ceil (m, - s) = c.
Proof.
  intros Hs Hm. unfold ceil.
  assert (Hp : 0 < 2 ^ s) by (apply Z.pow_pos_nonneg; lia).
  destruct (Z.leb_spec 0 (- s)).
  - replace s with 0 in * by lia. simpl in *. lia.
  - rewrite Z.opp_involutive.
    pose proof (Z.div_mod (- m) (2 ^ s) ltac:(lia)) as E.
    pose proof (Z.mod_pos_bound (- m) (2 ^ s) Hp) as B.
    nia.
Qed.

Lemma not_overflows_scaled m s :
  0 <= s -> Z.abs m < 2 ^ 1024 * 2 ^ s -> overflows (m, - s) = false.
Proof.
  intros Hs Hm. unfold overflows.
  rewrite shl_nonneg, shl_nonpos by lia. rewrite Z.opp_involutive.
  apply Z.leb_gt. exact Hm.
Qed.

(** Below [2^53] the quotient in doubles rounds up to the same integer as
    the exact quotient. *)
Lemma float_quotient_ceiling n b :
  0 <= n < 2 ^ 53 -> 0 < Z.abs b < 2 ^ 53 ->
  (fb <-! of_int b ;; fa <-! of_int n ;; q <-! div fa fb ;; int_ceil q)
  = Ok (- (- n / b)).
Proof.
  intros Hn Hb.
  rewrite (of_int_small b Hb). cbn [rbind].
  pose proof (log2_small _ Hb) as Hlb.
  assert (Hpb : 0 < 2 ^ (52 - Z.log2 (Z.abs b))) by (apply Z.pow_pos_nonneg; lia).
  assert (Hmb : Z.sgn b * (Z.abs b * 2 ^ (52 - Z.log2 (Z.abs b))) <> 0) by nia.
  destruct (Z.eq_dec n 0) as [->|Hn0].
  - change (- 0) with 0. rewrite Z.div_0_l by lia.
    change (of_int 0) with (Ok (A := t) (0, 0)). cbn [rbind]. unfold div.
    replace (_ =? 0) with false by (symmetry; apply Z.eqb_neq; exact Hmb).
    unfold shl at 1. change (Z.abs 0) with 0. rewrite Z.mul_0_l.
    reflexivity.
  - assert (Hn' : 0 < Z.abs n < 2 ^ 53) by lia.
    rewrite (of_int_small n Hn'). cbn [rbind].
    rewrite (Z.abs_eq n) in * by lia. rewrite (Z.sgn_pos n) by lia.
    rewrite Z.mul_1_l.
    pose proof (log2_small n Hn') as Hln.
    assert (Hpn : 0 < 2 ^ (52 - Z.log2 n)) by (apply Z.pow_pos_nonneg; lia).
    unfold div.
    replace (_ =? 0) with false by (symmetry; apply Z.eqb_neq; exact Hmb).
    rewrite (Z.abs_eq (n * _)) by nia.
    rewrite (Z.abs_mul (Z.sgn b)), (Z.abs_eq (Z.abs b * _)) by nia.
    replace (Z.abs (Z.sgn b)) with 1 by lia. rewrite Z.mul_1_l.
    rewrite (Z.sgn_pos (n * _)) by nia.
    rewrite (Z.sgn_mul (Z.sgn b)), (Z.sgn_pos (Z.abs b * _)) by nia.
    rewrite Z.sgn_sgn, Z.mul_1_r, Z.mul_1_l.
    destruct (common_scale n (Z.abs b) Hn' Hb) as (K & HK & -> & -> & Hlog).
    destruct (quotient_mantissa n (Z.abs b) K Hn' Hb HK Hlog)
      as (s & m & -> & Hs & Hbs & Hm).
    cbn [rbind].
    assert (Hp : 0 < 2 ^ s) by (apply Z.pow_pos_nonneg; lia).
    assert (2 ^ 53 <= 2 ^ 1024) by (apply Z.pow_le_mono_r; lia).
    assert (Hm0 : 0 <= m <= n * 2 ^ s) by nia.
    unfold int_ceil. rewrite not_overflows_scaled;
      [|lia|rewrite Z.abs_mul, (Z.abs_eq m) by lia;
            replace (Z.abs (Z.sgn b)) with 1 by lia; nia].
    f_equal. apply ceil_scaled; [lia|].
    pose proof (Z.div_mod (- n) b ltac:(lia)) as E.
    destruct (Z.lt_total 0 b) as [Hpos|[Hz|Hneg]]; [|lia|].
    + pose proof (Z.mod_pos_bound (- n) b Hpos) as B.
      rewrite Z.abs_eq in * by lia. rewrite Z.sgn_pos by lia.
      set (c := - n / b) in *. nia.
    + pose proof (Z.mod_neg_bound (- n) b Hneg) as B.
      rewrite Z.abs_neq in * by lia. rewrite Z.sgn_neg by lia.
      set (c := - n / b) in *. nia.
Qed.

(** An integer of [2^1024] or more is no double. *)
Lemma of_int_overflow k : 2 ^ 1024 <= k -> of_int k = Err OverflowError.
Proof.
  intros Hk.
  assert (H0 : 0 < 2 ^ 1024) by (apply Z.pow_pos_nonneg; lia).
  pose proof (Z.log2_spec k ltac:(lia)) as [Hlo _].
  assert (Hl : 1024 <= Z.log2 k) by (apply Z.log2_le_pow2; lia).
  unfold of_int, round_ratio. rewrite Z.abs_eq by lia.
  replace (k =? 0) with false by (symmetry; apply Z.eqb_neq; lia).
  assert (Hi : ilog2 k 1 = Z.log2 k).
  { unfold ilog2. change (Z.log2 1) with 0. rewrite Z.sub_0_r.
    rewrite shl_nonneg, shl_nonpos by lia.
    destruct (Z.leb_spec (1 * 2 ^ Z.log2 k) k); [reflexivity|lia]. }
  unfold ulp_exponent. rewrite Hi, Z.max_l by lia.
  rewrite shl_nonpos, shl_nonneg by lia. rewrite Z.mul_1_l.
  rewrite Z.sgn_pos, Z.mul_1_l by lia.
  assert (Hp : 0 < 2 ^ (Z.log2 k - 52)) by (apply Z.pow_pos_nonneg; lia).
  pose proof (nearest_even_bounds k _ Hp) as Hm.
  assert (Hsplit : 2 ^ Z.log2 k = 2 ^ 52 * 2 ^ (Z.log2 k - 52)).
  { rewrite <- Z.pow_add_r by lia. f_equal. lia. }
  assert (H1024 : 2 ^ 1024 <= 2 ^ Z.log2 k) by (apply Z.pow_le_mono_r; lia).
  set (m := nearest_even _ _) in *. set (u := 2 ^ (Z.log2 k - 52)) in *.
  assert (Hm52 : 2 ^ 52 <= m).
  { assert (0 < 2 ^ 52) by (apply Z.pow_pos_nonneg; lia).
    set (c := 2 ^ 52) in *. nia. }
  unfold overflows. rewrite shl_nonpos, shl_nonneg by lia.
  rewrite Z.abs_eq by lia. fold u.
  assert (2 ^ 1024 <= m * u).
  { set (c := 2 ^ 52) in *. set (big := 2 ^ 1024) in *. nia. }
  destruct (Z.leb_spec (2 ^ 1024) (m * u)); [reflexivity|lia].
Qed.

End Doubles.

(* ================================================================== *)
(** ** Batching *)

Definition zsum (l : list Z) : Z := fold_right Z.add 0 l.

Lemma zsum_app (l1 l2 : list Z) : zsum (l1 ++ l2) = zsum l1 + zsum l2.
Proof.
  induction l1 as [|x l1 IH]; simpl; [reflexivity|].
  unfold zsum in *. simpl. rewrite IH. lia.
Qed.

Section Batching.

Context {RG : PyRandom} {NP : NumpyImages}.

Variable self : Sequence.

(** With both operands below [2^53], [__len__] is the exact ceiling. *)
Lemma len_exact :
  0 <= n self < 2 ^ 53 -> 0 < Z.abs (batch_size self) < 2 ^ 53 ->
  __len__ self = Ok (- (- n self / batch_size self)).
Proof. intros Hn Hb. unfold __len__. now apply float_quotient_ceiling. Qed.

Lemma len_is_ceiling :
  0 <= n self < 2 ^ 53 -> 1 <= batch_size self < 2 ^ 53 ->
  exists L, __len__ self = Ok L /\
            (L - 1) * batch_size self < n self <= L * batch_size self.
Proof.
  intros Hn Hb. rewrite len_exact by lia.
  eexists; split; [reflexivity|].
  rewrite <- Qceiling_div by lia. apply Qceiling_div_pos. lia.
Qed.

Lemma batch_bounds_min idx :
  batch_bounds self idx =
    (Z.min ((idx + 1) * batch_size self) (n self),
     Z.min ((idx + 1) * batch_size self) (n self) - idx * batch_size self).
Proof.
  unfold batch_bounds.
  destruct ((idx + 1) * batch_size self >? n self) eqn:E.
  - apply Z.gtb_lt in E. now rewrite Z.min_r by lia.
  - assert ((idx + 1) * batch_size self <= n self)
      by (destruct (Z.gtb_spec ((idx + 1) * batch_size self) (n self)); [discriminate|lia]).
    rewrite Z.min_l by lia. f_equal. lia.
Qed.

Lemma batch_within idx L :
  1 <= batch_size self ->
  (L - 1) * batch_size self < n self -> 0 <= idx < L ->
  0 <= idx * batch_size self < n self.
Proof. intros Hb HL Hidx. nia. Qed.

Lemma batch_size_range idx L :
  1 <= batch_size self ->
  (L - 1) * batch_size self < n self -> 0 <= idx < L ->
  1 <= snd (batch_bounds self idx) <= batch_size self.
Proof.
  intros Hb HL Hidx. rewrite batch_bounds_min. simpl.
  pose proof (batch_within _ _ Hb HL Hidx). lia.
Qed.

(** The batch is the [idx]-th chunk of [batch_size] elements. *)
Lemma batch_slice_chunk {A} (l : list A) idx L :
  1 <= batch_size self -> len l = n self ->
  (L - 1) * batch_size self < n self -> 0 <= idx < L ->
  batch_slice self idx l =
    firstn (Z.to_nat (batch_size self))
           (skipn (Z.to_nat idx * Z.to_nat (batch_size self)) l).
Proof.
  intros Hb Hl HL Hidx. unfold batch_slice. rewrite batch_bounds_min. simpl.
  pose proof (batch_within _ _ Hb HL Hidx) as Hw.
  rewrite slice_inside by lia.
  replace (Z.to_nat (idx * batch_size self))
    with (Z.to_nat idx * Z.to_nat (batch_size self))%nat by lia.
  rewrite <- (firstn_min_length _ (Z.to_nat (batch_size self))).
  f_equal. rewrite length_skipn. unfold len in Hl. lia.
Qed.

Lemma batches_concat {A} (l : list A) L :
  1 <= batch_size self -> len l = n self ->
  (L - 1) * batch_size self < n self <= L * batch_size self ->
  List.concat (map (fun idx => batch_slice self idx l) (range L)) = l.
Proof.
  intros Hb Hl [HL1 HL2]. unfold range. rewrite map_map.
  rewrite (map_ext_in _
             (fun i => firstn (Z.to_nat (batch_size self))
                         (skipn (i * Z.to_nat (batch_size self)) l))).
  - rewrite concat_chunks. apply firstn_all2. unfold len in Hl. nia.
  - intros i Hi. apply in_seq in Hi.
    rewrite (batch_slice_chunk l (Z.of_nat i) L) by (assumption || lia).
    now rewrite Nat2Z.id.
Qed.

Lemma batch_sizes_sum_prefix (k : nat) L :
  1 <= n self -> 1 <= batch_size self ->
  (L - 1) * batch_size self < n self -> Z.of_nat k <= L ->
  zsum (map (fun idx => snd (batch_bounds self idx)) (map Z.of_nat (seq 0 k)))
  = Z.min (Z.of_nat k * batch_size self) (n self).
Proof.
  intros Hn Hb HL. induction k as [|k IH]; intros Hk.
  - simpl. lia.
  - rewrite seq_S, !map_app, zsum_app, IH by lia.
    cbn [map zsum fold_right Nat.add]. rewrite batch_bounds_min. cbn [snd].
    rewrite Nat2Z.inj_succ.
    assert (0 <= Z.of_nat k * batch_size self < n self) by nia.
    lia.
Qed.

End Batching.

(** Five single-leg samples in batches of two; nothing is read from disk
    because every layer is switched off. *)
Definition five_pairs : Sequence :=
  mkSequence "data" 2 ["a0"; "a1"; "a2"; "a3"; "a4"]%string [] ["s"; "s"; "s"; "s"; "s"]%string []
    [1#2; 1#3; 1#4; 1#5; 1#6]%Q [7#10; 1#10; 2#10; 3#10; 4#10]%Q [3; 0; 1; 2; 9]%Q
    10 5 1 2 1 false false false false false 0 false None.

Section BatchingContract.

Context {RG : PyRandom} {NP : NumpyImages}.

(** C5.  With at least one sample, a batch size of at least one and both
    below [2^53], [__len__] returns the ceiling of [n / batch_size]; batch
    [idx] covers the positions from [idx * batch_size] up to, not
    including, the smaller of [(idx + 1) * batch_size] and [n]; it holds
    between 1 and [batch_size] samples, [n - idx * batch_size] of them when
    [(idx + 1) * batch_size > n]; the sizes add up to [n]; position [j] of
    batch [idx] of any array of length [n] is position
    [idx * batch_size + j] of the array, and the batches joined in order
    are the array. *)
Theorem batches_partition_dataset (self : Sequence) :
  1 <= n self < 2 ^ 53 -> 1 <= batch_size self < 2 ^ 53 ->
  exists L : Z,
    __len__ self = Ok L /\
    L = Qceiling (inject_Z (n self) / inject_Z (batch_size self)) /\
    (L - 1) * batch_size self < n self <= L * batch_size self /\
    (forall idx, 0 <= idx < L ->
       batch_bounds self idx =
         (Z.min ((idx + 1) * batch_size self) (n self),
          Z.min ((idx + 1) * batch_size self) (n self) - idx * batch_size self) /\
       1 <= snd (batch_bounds self idx) <= batch_size self /\
       ((idx + 1) * batch_size self > n self ->
        snd (batch_bounds self idx) = n self - idx * batch_size self)) /\
    zsum (map (fun idx => snd (batch_bounds self idx)) (range L)) = n self /\
    (forall (A : Type) (l : list A), len l = n self ->
       (forall idx, 0 <= idx < L ->
          len (batch_slice self idx l) = snd (batch_bounds self idx) /\
          forall j, 0 <= j < snd (batch_bounds self idx) ->
            getitem (batch_slice self idx l) j
            = getitem l (idx * batch_size self + j)) /\
       List.concat (map (fun idx => batch_slice self idx l) (range L)) = l).
Proof.
  intros [Hn Hn53] [Hb Hb53].
  assert (HL : __len__ self = Ok (- (- n self / batch_size self)))
    by (apply len_exact; lia).
  assert (HQ : - (- n self / batch_size self)
               = Qceiling (inject_Z (n self) / inject_Z (batch_size self)))
    by (symmetry; apply Qceiling_div; lia).
  set (L := - (- n self / batch_size self)) in *.
  assert (HLb : (L - 1) * batch_size self < n self <= L * batch_size self)
    by (rewrite HQ; apply Qceiling_div_pos; lia).
  destruct HLb as [HL1 HL2].
  exists L. split; [exact HL|]. split; [exact HQ|]. split; [split; assumption|].
  assert (0 <= L) by nia.
  split; [|split].
  - intros idx Hidx. split; [apply batch_bounds_min|].
    split; [eapply batch_size_range; eassumption|].
    intros Hlast. rewrite batch_bounds_min. cbn [snd]. lia.
  - unfold range. rewrite batch_sizes_sum_prefix with (L := L) by (assumption || lia).
    nia.
  - intros A l Hl. split.
    + intros idx Hidx.
      pose proof (batch_within self _ _ Hb HL1 Hidx) as Hw.
      unfold batch_slice. rewrite batch_bounds_min. cbn [fst snd].
      split.
      * apply len_slice_inside; lia.
      * intros j Hj. apply getitem_slice_inside; lia.
    + apply batches_concat; try assumption. split; assumption.
Qed.

End BatchingContract.

Lemma batches_partition_dataset_witness :
  1 <= n five_pairs < 2 ^ 53 /\ 1 <= batch_size five_pairs < 2 ^ 53 /\
  __len__ five_pairs = Ok 3 /\
  map (fun idx => snd (batch_bounds five_pairs idx)) (range 3) = [2; 2; 1] /\
  List.concat (map (fun idx => batch_slice five_pairs idx (overlap five_pairs)) (range 3))
  = overlap five_pairs.
Proof.
  assert (H1 : 1 <= n five_pairs < 2 ^ 53) by (simpl; lia).
  assert (H2 : 1 <= batch_size five_pairs < 2 ^ 53) by (simpl; lia).
  split; [exact H1|]. split; [exact H2|].
  destruct (batches_partition_dataset five_pairs H1 H2)
    as (L & HL & _ & HLb & _ & _ & Hcat).
  assert (L = 3) by (simpl in HLb; lia). subst L.
  split; [exact HL|]. split; [reflexivity|].
  apply (Hcat Q (overlap five_pairs)). reflexivity.
Defined.

(** Five samples in batches of [10^400]: [float(self.batch_size)] raises
    [OverflowError], where the ceiling of [5 / 10^400] is 1.  And for an
    object of [2^53 + 1] samples in batches of one ([__len__] reads [n] and
    [batch_size] only) the quotient is rounded to the double [2^53]: one
    batch fewer than the ceiling. *)
Definition huge_batches : Sequence :=
  mkSequence "data" (10 ^ 400) ["a0"; "a1"; "a2"; "a3"; "a4"]%string []
    ["s"; "s"; "s"; "s"; "s"]%string []
    [1#2; 1#3; 1#4; 1#5; 1#6]%Q [7#10; 1#10; 2#10; 3#10; 4#10]%Q [3; 0; 1; 2; 9]%Q
    10 5 1 2 1 false false false false false 0 false None.

Definition many_samples : Sequence :=
  mkSequence "data" 1 [] [] [] [] [] [] []
    10 (2 ^ 53 + 1) 1 2 1 false false false false false 0 false None.

Lemma batches_partition_dataset_counterexample :
  (1 <= n huge_batches /\ 1 <= batch_size huge_batches /\
   n huge_batches = len (overlap huge_batches) /\
   Qceiling (inject_Z (n huge_batches) / inject_Z (batch_size huge_batches)) = 1 /\
   __len__ huge_batches = Err OverflowError) /\
  (1 <= n many_samples /\ 1 <= batch_size many_samples /\
   Qceiling (inject_Z (n many_samples) / inject_Z (batch_size many_samples))
   = 2 ^ 53 + 1 /\
   __len__ many_samples = Ok (2 ^ 53)).
Proof.
  repeat split; try (vm_compute; congruence).
Qed.

(* ================================================================== *)
(** ** Construction *)

Section Construction.

Context {RG : PyRandom} {NP : NumpyImages}.

Lemma randint_list_spec (k : nat) (a b : Z) : forall g r g',
  randint_list k a b g = Ok (r, g') ->
  List.length r = k /\ Forall (fun v => a <= v <= b) r.
Proof.
  induction k as [|k IH]; intros g r g' H; cbn [randint_list] in H.
  - injection H as <- _. split; [reflexivity|constructor].
  - unfold rbind in H.
    destruct (random_randint a b g) as [[v g1]|] eqn:E1; [|discriminate].
    destruct (randint_list k a b g1) as [[vs g2]|] eqn:E2; [|discriminate].
    injection H as <- _. apply IH in E2 as [Hl Hf].
    split; [simpl; now rewrite Hl|].
    constructor; [eapply randint_range; eassumption|assumption].
Qed.

Lemma randint_list_total (k : nat) (a b : Z) : forall g,
  a <= b -> exists r g', randint_list k a b g = Ok (r, g').
Proof.
  intros g Hab. revert g. induction k as [|k IH]; intros g; cbn [randint_list].
  - eauto.
  - destruct (randint_total a b g Hab) as (v & g1 & E1). rewrite E1.
    destruct (IH g1) as (vs & g2 & E2). cbn [rbind]. rewrite E2. cbn [rbind]. eauto.
Qed.

(** What [__init__] stores, whatever the rotation mode. *)
Lemma init_fields image_path f1 f2 d1 d2 ov fa ori M bs h w c ud un ucp ucpp ui rd g
      self g' :
  __init__ image_path f1 f2 d1 d2 ov fa ori M bs h w c ud un ucp ucpp ui rd g
  = Ok (self, g') ->
  n self = len ov /\ batch_size self = bs /\ width self = w /\
  rotate_data self = rd /\ overlap self = ov /\
  imgfilenames1 self = f1 /\ imgfilenames2 self = f2.
Proof.
  unfold __init__. destruct (rd >? 0).
  - unfold rbind. destruct (draw_random_rotate _ _) as [[r g1]|]; [|discriminate].
    intros H. injection H as <- _. cbn. repeat split.
  - intros H. injection H as <- _. cbn. repeat split.
Qed.

(** C10.  The number of samples is the number of elements of the overlap
    array: after any successful construction with fewer than [2^53] labels
    and a non-zero batch size of magnitude below [2^53], [__len__] returns
    the ceiling of [overlap.size / batch_size], whatever the lengths of the
    filename and directory lists. *)
Theorem length_counts_overlap_labels
    image_path f1 f2 d1 d2 ov fa ori M bs h w c ud un ucp ucpp ui rd g self g' :
  __init__ image_path f1 f2 d1 d2 ov fa ori M bs h w c ud un ucp ucpp ui rd g
  = Ok (self, g') ->
  len ov < 2 ^ 53 -> bs <> 0 -> Z.abs bs < 2 ^ 53 ->
  n self = len ov /\
  exists L, __len__ self = Ok L /\
            L = Qceiling (inject_Z (len ov) / inject_Z bs) /\
            (inject_Z (L - 1) < inject_Z (len ov) / inject_Z bs)%Q /\
            (inject_Z (len ov) / inject_Z bs <= inject_Z L)%Q.
Proof.
  intros Hinit Hov Hbs Hbs53. apply init_fields in Hinit as (Hn & Hb & _).
  split; [exact Hn|].
  assert (0 <= len ov) by (unfold len; lia).
  rewrite len_exact by (rewrite ?Hn, ?Hb; lia). rewrite Hn, Hb.
  rewrite <- Qceiling_div by assumption.
  eexists. split; [reflexivity|]. split; [reflexivity|]. split.
  - apply Qceiling_lt.
  - apply Qle_ceiling.
Qed.

End Construction.

(** Five labels, one filename: the length follows the labels. *)
Lemma length_counts_overlap_labels_witness :
  exists self g',
    __init__ (RG := MersenneTwister)
      "data" ["a0"]%string [] ["s"]%string []
      [1#2; 1#3; 1#4; 1#5; 1#6]%Q [7#10; 1#10; 2#10; 3#10; 4#10]%Q [3; 0; 1; 2; 9]%Q
      10 2 1 2 1 false false false false false 0 [] = Ok (self, g') /\
    len [1#2; 1#3; 1#4; 1#5; 1#6]%Q < 2 ^ 53 /\ 2 <> 0 /\ Z.abs 2 < 2 ^ 53 /\
    n self = 5 /\ __len__ self = Ok 3.
Proof.
  eexists. eexists. split; [reflexivity|].
  assert (H1 : len [1#2; 1#3; 1#4; 1#5; 1#6]%Q < 2 ^ 53) by (vm_compute; reflexivity).
  assert (H2 : 2 <> 0) by lia.
  assert (H3 : Z.abs 2 < 2 ^ 53) by (vm_compute; reflexivity).
  split; [exact H1|]. split; [exact H2|]. split; [exact H3|].
  match goal with |- n ?s = _ /\ _ =>
    destruct (length_counts_overlap_labels (RG := MersenneTwister)
                "data" ["a0"]%string [] ["s"]%string []
                [1#2; 1#3; 1#4; 1#5; 1#6]%Q [7#10; 1#10; 2#10; 3#10; 4#10]%Q
                [3; 0; 1; 2; 9]%Q
                10 2 1 2 1 false false false false false 0 [] s [] eq_refl H1 H2 H3)
      as (Hn & L & HL & HQ & _)
  end.
  split; [exact Hn|]. rewrite HL, HQ. reflexivity.
Defined.

(** Five labels and a batch size of [10^400]: the construction succeeds and
    [__len__] raises [OverflowError], where the ceiling of [5 / 10^400] is
    1.  With a batch size of 0 it raises [ZeroDivisionError]. *)
Lemma length_counts_overlap_labels_counterexample :
  (exists self,
     __init__ (RG := MersenneTwister)
       "data" ["a0"]%string [] ["s"]%string []
       [1#2; 1#3; 1#4; 1#5; 1#6]%Q [7#10; 1#10; 2#10; 3#10; 4#10]%Q [3; 0; 1; 2; 9]%Q
       10 (10 ^ 400) 1 2 1 false false false false false 0 [] = Ok (self, []) /\
     n self = 5 /\
     Qceiling (inject_Z 5 / inject_Z (10 ^ 400)) = 1 /\
     __len__ self = Err OverflowError) /\
  (exists self,
     __init__ (RG := MersenneTwister)
       "data" ["a0"]%string [] ["s"]%string []
       [1#2; 1#3; 1#4; 1#5; 1#6]%Q [7#10; 1#10; 2#10; 3#10; 4#10]%Q [3; 0; 1; 2; 9]%Q
       10 0 1 2 1 false false false false false 0 [] = Ok (self, []) /\
     n self = 5 /\
     __len__ self = Err ZeroDivisionError).
Proof.
  split; eexists; (split; [reflexivity|]); repeat split; vm_compute; reflexivity.
Qed.

(* ================================================================== *)
(** ** The rotation schedule *)

Section Rotation.

Context {RG : PyRandom} {NP : NumpyImages}.

Lemma renew_rotation_other (self : Sequence) (g : rng) (idx : Z) :
  idx <> 0 \/ rotate_data self <> 2 ->
  renew_rotation self g idx = Ok (self, g).
Proof.
  intros H. unfold renew_rotation.
  replace ((idx =? 0) && (rotate_data self =? 2)) with false; [reflexivity|].
  symmetry. apply andb_false_iff.
  destruct H as [H|H]; [left|right]; apply Z.eqb_neq; assumption.
Qed.

Lemma renew_rotation_first (self : Sequence) (g : rng) :
  rotate_data self = 2 ->
  renew_rotation self g 0 =
    match draw_random_rotate self g with
    | Ok (r, g') => Ok (set_rotation self (do_rotation self) r, g')
    | Err e => Err e
    end.
Proof.
  intros H. unfold renew_rotation. rewrite H. cbn [Z.eqb andb Pos.eqb].
  unfold rbind. destruct (draw_random_rotate self g) as [[r g']|]; reflexivity.
Qed.

Lemma getitem_state (self : Sequence) (g : rng) (fs : filesystem) (idx : Z) :
  (self_after (__getitem__ self g fs idx), rng_after (__getitem__ self g fs idx))
  = match renew_rotation self g idx with
    | Ok p => p
    | Err _ => (self, g)
    end.
Proof.
  unfold __getitem__. destruct (renew_rotation self g idx) as [[s g']|]; [|reflexivity].
  destruct (run (assemble s fs idx)). reflexivity.
Qed.

Lemma getitem_keeps_state (self : Sequence) (g : rng) (fs : filesystem) (idx : Z) :
  idx <> 0 \/ rotate_data self <> 2 ->
  self_after (__getitem__ self g fs idx) = self /\
  rng_after (__getitem__ self g fs idx) = g.
Proof.
  intros H. pose proof (getitem_state self g fs idx) as E.
  rewrite renew_rotation_other in E by assumption.
  injection E as E1 E2. split; assumption.
Qed.

Lemma calls_keep_state (self : Sequence) (g : rng) (reqs : list (filesystem * Z)) :
  Forall (fun r => snd r <> 0 \/ rotate_data self <> 2) reqs ->
  calls self g reqs = (self, g).
Proof.
  induction reqs as [|[fs idx] reqs IH]; intros H; cbn [calls]; [reflexivity|].
  inversion H as [|? ? H1 H2]; subst. cbn [snd] in H1.
  destruct (getitem_keeps_state self g fs idx H1) as [-> ->].
  apply IH. assumption.
Qed.

(** C3, as the code has it.  Every entry of the rotation schedule is an
    integer between 0 and [width], both included: [random.randint] is
    inclusive at both ends.  This holds for the schedule created at
    construction when [rotate_data > 0] and for each schedule drawn anew
    by batch 0 when [rotate_data] is 2. *)
Theorem schedule_entries_up_to_width :
  (forall image_path f1 f2 d1 d2 ov fa ori M bs h w c ud un ucp ucpp ui rd g self g',
     __init__ image_path f1 f2 d1 d2 ov fa ori M bs h w c ud un ucp ucpp ui rd g
     = Ok (self, g') ->
     rd > 0 ->
     exists r, random_rotate self = Some r /\
               Forall (fun v => 0 <= v <= width self) r) /\
  (forall self g fs r g',
     rotate_data self = 2 ->
     draw_random_rotate self g = Ok (r, g') ->
     random_rotate (self_after (__getitem__ self g fs 0)) = Some r /\
     Forall (fun v => 0 <= v <= width (self_after (__getitem__ self g fs 0))) r).
Proof.
  split.
  - intros image_path f1 f2 d1 d2 ov fa ori M bs h w c ud un ucp ucpp ui rd g
           self g' Hinit Hrd.
    unfold __init__ in Hinit.
    replace (rd >? 0) with true in Hinit by (symmetry; apply Z.gtb_lt; lia).
    unfold rbind in Hinit.
    destruct (draw_random_rotate _ _) as [[r g1]|] eqn:E; [|discriminate].
    injection Hinit as <- _. exists r. split; [reflexivity|].
    unfold draw_random_rotate in E. apply randint_list_spec in E as [_ HF].
    exact HF.
  - intros self g fs r g' Hmode Hdraw.
    pose proof (getitem_state self g fs 0) as E.
    rewrite renew_rotation_first, Hdraw in E by assumption.
    injection E as E1 _. rewrite E1. split; [reflexivity|].
    unfold draw_random_rotate in Hdraw. apply randint_list_spec in Hdraw as [_ HF].
    exact HF.
Qed.

(** [draws a b g r g']: the list [r] holds the results of successive calls
    of [random.randint(a, b)], which take the generator from [g] to [g']. *)
Inductive draws (a b : Z) : rng -> list Z -> rng -> Prop :=
| draws_nil g : draws a b g [] g
| draws_cons g v g1 vs g2 :
    random_randint a b g = Ok (v, g1) ->
    draws a b g1 vs g2 ->
    draws a b g (v :: vs) g2.

Lemma randint_list_draws (k : nat) (a b : Z) : forall g r g',
  randint_list k a b g = Ok (r, g') -> draws a b g r g'.
Proof.
  induction k as [|k IH]; intros g r g' H; cbn [randint_list] in H.
  - injection H as <- <-. constructor.
  - unfold rbind in H.
    destruct (random_randint a b g) as [[v g1]|] eqn:E1; [|discriminate].
    destruct (randint_list k a b g1) as [[vs g2]|] eqn:E2; [|discriminate].
    injection H as <- <-. econstructor; [exact E1|]. apply IH. exact E2.
Qed.

(** C4.  With [rotate_data] equal to 2 and a width that is not negative,
    the call for batch 0 replaces the schedule by [n] fresh draws of
    [random.randint(0, width)], one for each sample, and advances the
    generator of [random] past them: the schedule of the object after the
    call is the list of these draws, and [do_rotation] is kept.  Every
    other call, and every call when [rotate_data] is not 2, leaves the
    object and the generator as they were.  Hence a pass that asks for
    batch 0 and then for other batches leaves the schedule drawn by
    batch 0. *)
Theorem schedule_renewed_by_first_batch_only (self : Sequence) (g : rng)
    (fs : filesystem) (idx : Z) :
  (rotate_data self = 2 -> idx = 0 -> 0 <= width self ->
   exists r g',
     draw_random_rotate self g = Ok (r, g') /\
     List.length r = Z.to_nat (n self) /\
     self_after (__getitem__ self g fs idx) = set_rotation self (do_rotation self) r /\
     rng_after (__getitem__ self g fs idx) = g' /\
     randint_list (Z.to_nat (n self)) 0 (width self) g = Ok (r, g') /\
     draws 0 (width self) g r g' /\
     random_rotate (self_after (__getitem__ self g fs idx)) = Some r /\
     do_rotation (self_after (__getitem__ self g fs idx)) = do_rotation self) /\
  (idx <> 0 \/ rotate_data self <> 2 ->
   self_after (__getitem__ self g fs idx) = self /\
   rng_after (__getitem__ self g fs idx) = g /\
   random_rotate (self_after (__getitem__ self g fs idx)) = random_rotate self) /\
  (forall reqs,
     Forall (fun r => snd r <> 0) reqs ->
     calls self g ((fs, idx) :: reqs)
     = (self_after (__getitem__ self g fs idx), rng_after (__getitem__ self g fs idx)) /\
     random_rotate (fst (calls self g ((fs, idx) :: reqs)))
     = random_rotate (self_after (__getitem__ self g fs idx))).
Proof.
  split; [|split].
  - intros Hmode -> Hw.
    destruct (randint_list_total (Z.to_nat (n self)) 0 (width self) g Hw)
      as (r & g' & E).
    exists r, g'. pose proof E as E'. fold (draw_random_rotate self g) in E.
    split; [exact E|]. split; [apply randint_list_spec in E'; tauto|].
    pose proof (getitem_state self g fs 0) as S.
    rewrite renew_rotation_first, E in S by assumption.
    injection S as S1 S2.
    split; [exact S1|]. split; [exact S2|]. split; [exact E'|].
    split; [eapply randint_list_draws; exact E'|].
    rewrite S1. split; reflexivity.
  - intros H. destruct (getitem_keeps_state self g fs idx H) as [H1 H2].
    split; [exact H1|]. split; [exact H2|]. now rewrite H1.
  - intros reqs Hreqs. cbn [calls].
    assert (Hc : calls (self_after (__getitem__ self g fs idx))
                   (rng_after (__getitem__ self g fs idx)) reqs
                 = (self_after (__getitem__ self g fs idx),
                    rng_after (__getitem__ self g fs idx))).
    { apply calls_keep_state.
      eapply Forall_impl; [|exact Hreqs]. cbn. intros a Ha. left. exact Ha. }
    split; [exact Hc|]. rewrite Hc. reflexivity.
Qed.

(** C8.  With [rotate_data] equal to 1 the schedule is drawn once, at
    construction, from the generator seeded with 1234, whatever state the
    generator was in before; after that no call of [__getitem__] changes
    the object or the generator, so the shift at any position stays what
    it was, over any number of calls and passes. *)
Theorem fixed_schedule_never_changes
    image_path f1 f2 d1 d2 ov fa ori M bs h w c ud un ucp ucpp ui g self g' :
  __init__ image_path f1 f2 d1 d2 ov fa ori M bs h w c ud un ucp ucpp ui 1 g
  = Ok (self, g') ->
  (exists r, randint_list (Z.to_nat (len ov)) 0 w (random_seed 1234) = Ok (r, g') /\
             random_rotate self = Some r) /\
  forall reqs : list (filesystem * Z),
    calls self g' reqs = (self, g') /\
    forall i, lookup_shift (fst (calls self g' reqs)) i = lookup_shift self i.
Proof.
  intros Hinit.
  assert (Hrd : rotate_data self = 1) by (apply init_fields in Hinit; tauto).
  split.
  - unfold __init__ in Hinit. cbn [Z.gtb Z.compare] in Hinit.
    unfold rbind, draw_random_rotate in Hinit. cbn [n width] in Hinit.
    destruct (randint_list _ _ _ _) as [[r g1]|] eqn:E; [|discriminate].
    injection Hinit as <- <-. exists r. split; reflexivity.
  - intros reqs.
    assert (Hc : calls self g' reqs = (self, g')).
    { apply calls_keep_state. apply Forall_forall. intros x _. right. lia. }
    split; [exact Hc|]. intros i. now rewrite Hc.
Qed.

End Rotation.

(* ================================================================== *)
(** ** A small dataset on a small disk *)

(** One row of seven depth values. *)
Definition scan (k : Z) : Dense.loaded :=
  Dense.Array2 [[inject_Z k; inject_Z (k + 1); inject_Z (k + 2); inject_Z (k + 3);
                 inject_Z (k + 4); inject_Z (k + 5); inject_Z (k + 6)]].

(** A disk holding the depth layer of three pairs of scans. *)
Definition disk : filesystem (H := DenseImages) :=
  fun f =>
    if String.eqb f "data/s/depth/a0.npy" then Ok (scan 10)
    else if String.eqb f "data/s/depth/a1.npy" then Ok (scan 20)
    else if String.eqb f "data/s/depth/a2.npy" then Ok (scan 30)
    else if String.eqb f "data/s/depth/b0.npy" then Ok (scan 40)
    else if String.eqb f "data/s/depth/b1.npy" then Ok (scan 50)
    else if String.eqb f "data/s/depth/b2.npy" then Ok (scan 60)
    else Err (IOError "No such file or directory").

(** Three pairs of 1 x 7 scans with the depth layer only, in batches of
    two, as [__init__] leaves them for rotation mode [rd]. *)
Abbreviation three_pairs rd :=
  (__init__ (RG := MersenneTwister)
     "data" ["a0"; "a1"; "a2"]%string ["b0"; "b1"; "b2"]%string
     ["s"; "s"; "s"]%string ["s"; "s"; "s"]%string
     [1#2; 1#3; 1#4]%Q [7#10; 1#10; 2#10]%Q [3; 0; 1]%Q
     10 2 1 7 1 true false false false false rd []) (only parsing).

(** The same three scans without a second leg. *)
Abbreviation three_scans ori :=
  (__init__ (RG := MersenneTwister)
     "data" ["a0"; "a1"; "a2"]%string [] ["s"; "s"; "s"]%string []
     [1#2; 1#3; 1#4]%Q [7#10; 1#10; 2#10]%Q ori
     3 2 1 7 1 true false false false false 0 []) (only parsing).

(** The object and the generator a construction leaves. *)
Definition made (r : result (Sequence * MT19937.state)) : Sequence * MT19937.state :=
  match r with
  | Ok p => p
  | Err _ => (five_pairs, [])
  end.

(** The three pairs in rotation mode 1, and the generator after their
    construction. *)
Definition fixed : Sequence := Eval vm_compute in fst (made (three_pairs 1)).
Definition fixed_rng : MT19937.state := Eval vm_compute in snd (made (three_pairs 1)).

(** The same in rotation mode 2. *)
Definition renewed : Sequence := Eval vm_compute in fst (made (three_pairs 2)).
Definition renewed_rng : MT19937.state := Eval vm_compute in snd (made (three_pairs 2)).

Lemma three_pairs_fixed : three_pairs 1 = Ok (fixed, fixed_rng).
Proof. vm_compute. reflexivity. Qed.

Lemma three_pairs_renewed : three_pairs 2 = Ok (renewed, renewed_rng).
Proof. vm_compute. reflexivity. Qed.

(** The schedule Python draws for three scans of width 7 after
    [random.seed(1234)]. *)
Lemma three_pairs_schedule :
  random_rotate fixed = Some [7; 1; 0] /\
  width fixed = 7 /\ n fixed = 3 /\
  batch_size fixed = 2.
Proof. repeat split. Qed.

(** C3 as stated fails: with seed 1234 the first shift drawn for scans of
    width 7 is 7 itself, which is outside [0, 7). *)
Lemma schedule_entries_below_width_counterexample :
  three_pairs 1 = Ok (fixed, fixed_rng) /\
  random_rotate fixed = Some [7; 1; 0] /\
  ~ Forall (fun v => 0 <= v < width fixed) [7; 1; 0].
Proof.
  split; [exact three_pairs_fixed|]. split; [reflexivity|].
  intros H. inversion H as [|? ? H7 _]. cbn in H7. lia.
Qed.

Lemma schedule_entries_up_to_width_witness :
  three_pairs 1 = Ok (fixed, fixed_rng) /\ 1 > 0 /\
  (exists r, random_rotate fixed = Some r /\
             Forall (fun v => 0 <= v <= width fixed) r) /\
  rotate_data renewed = 2 /\
  exists r g',
    draw_random_rotate renewed renewed_rng = Ok (r, g') /\
    random_rotate
      (self_after (__getitem__ renewed renewed_rng disk 0))
    = Some r /\
    Forall (fun v => 0 <= v <=
                     width (self_after
                              (__getitem__ renewed renewed_rng
                                 disk 0))) r.
Proof.
  destruct (schedule_entries_up_to_width (RG := MersenneTwister) (NP := DenseImages))
    as [Hinit Hrenew].
  assert (H1 : 1 > 0) by lia.
  split; [exact three_pairs_fixed|]. split; [exact H1|]. split.
  - exact (Hinit _ _ _ _ _ _ _ _ _ _ _ _ _ _ _ _ _ _ _ _ fixed fixed_rng
             three_pairs_fixed H1).
  - assert (Hm : rotate_data renewed = 2) by reflexivity.
    split; [exact Hm|].
    destruct (randint_list_total (RG := MersenneTwister) 3 0 7 renewed_rng)
      as (r & g' & E); [lia|].
    exists r, g'. split; [exact E|].
    exact (Hrenew renewed renewed_rng disk r g' Hm E).
Defined.

(** The three pairs in rotation mode 2: batch 0 draws the next three
    shifts of the generator seeded with 1234, batch 1 keeps them. *)
Lemma schedule_renewed_by_first_batch_only_witness :
  rotate_data renewed = 2 /\ 0 <= width renewed /\
  random_rotate renewed = Some [7; 1; 0] /\
  (exists r g',
     draw_random_rotate renewed renewed_rng = Ok (r, g') /\
     List.length r = Z.to_nat (n renewed) /\
     self_after (__getitem__ renewed renewed_rng disk 0)
     = set_rotation renewed (do_rotation renewed) r /\
     rng_after (__getitem__ renewed renewed_rng disk 0) = g' /\
     randint_list (Z.to_nat (n renewed)) 0 (width renewed) renewed_rng = Ok (r, g') /\
     draws 0 (width renewed) renewed_rng r g' /\
     random_rotate (self_after (__getitem__ renewed renewed_rng disk 0)) = Some r /\
     do_rotation (self_after (__getitem__ renewed renewed_rng disk 0))
     = do_rotation renewed /\
     r = [1; 0; 1]) /\
  (1 <> 0 \/ rotate_data renewed <> 2) /\
  self_after (__getitem__ renewed renewed_rng disk 1)
  = renewed /\
  rng_after (__getitem__ renewed renewed_rng disk 1)
  = renewed_rng /\
  Forall (fun r : filesystem * Z => snd r <> 0) [(disk, 1)] /\
  calls renewed renewed_rng [(disk, 0); (disk, 1)]
  = (self_after (__getitem__ renewed renewed_rng disk 0),
     rng_after (__getitem__ renewed renewed_rng disk 0)).
Proof.
  assert (Hm : rotate_data renewed = 2) by reflexivity.
  assert (Hw0 : 0 <= width renewed) by (cbn; lia).
  assert (Hne : 1 <> 0 \/ rotate_data renewed <> 2) by (left; lia).
  assert (Hreqs : Forall (fun r : filesystem * Z => snd r <> 0) [(disk, 1)])
    by (repeat constructor; cbn; lia).
  assert (Hdrawn : match randint_list (RG := MersenneTwister) 3 0 7 renewed_rng with
                   | Ok (r, _) => r
                   | Err _ => []
                   end = [1; 0; 1]) by (vm_compute; reflexivity).
  pose proof (schedule_renewed_by_first_batch_only
                (RG := MersenneTwister) (NP := DenseImages)
                renewed renewed_rng disk 0) as T0.
  pose proof (schedule_renewed_by_first_batch_only
                (RG := MersenneTwister) (NP := DenseImages)
                renewed renewed_rng disk 1) as T1.
  split; [exact Hm|]. split; [exact Hw0|]. split; [reflexivity|].
  split.
  - destruct (proj1 T0 Hm eq_refl Hw0)
      as (r & g' & H1 & H2 & H3 & H4 & H5 & H6 & H7 & H8).
    exists r, g'. repeat (split; [assumption|]).
    change (Z.to_nat (n renewed)) with 3%nat in H5.
    change (width renewed) with 7 in H5.
    rewrite H5 in Hdrawn. exact Hdrawn.
  - split; [exact Hne|].
    destruct (proj1 (proj2 T1) Hne) as (H1 & H2 & _).
    split; [exact H1|]. split; [exact H2|]. split; [exact Hreqs|].
    exact (proj1 (proj2 (proj2 T0) _ Hreqs)).
Defined.

Lemma fixed_schedule_never_changes_witness :
  three_pairs 1 = Ok (fixed, fixed_rng) /\
  random_rotate fixed = Some [7; 1; 0] /\
  calls fixed fixed_rng [(disk, 0); (disk, 1); (disk, 0); (disk, 1)]
  = (fixed, fixed_rng) /\
  lookup_shift
    (fst (calls fixed fixed_rng
            [(disk, 0); (disk, 1); (disk, 0); (disk, 1)])) 2
  = lookup_shift fixed 2.
Proof.
  split; [exact three_pairs_fixed|]. split; [reflexivity|].
  destruct (fixed_schedule_never_changes (RG := MersenneTwister) (NP := DenseImages)
              _ _ _ _ _ _ _ _ _ _ _ _ _ _ _ _ _ _ _ fixed fixed_rng
              three_pairs_fixed) as [_ Hcalls].
  destruct (Hcalls [(disk, 0); (disk, 1); (disk, 0); (disk, 1)]) as [Hc Hl].
  split; [exact Hc|exact (Hl 2)].
Defined.

(* ================================================================== *)
(** ** The target array *)

Section Targets.

Context {RG : PyRandom} {NP : NumpyImages}.

Lemma length_update {A} (l : list A) : forall k v,
  List.length (update l k v) = List.length l.
Proof.
  induction l as [|x l IH]; intros [|k] v; simpl; auto.
Qed.

Lemma nth_error_update_same {A} (l : list A) : forall k v,
  (k < List.length l)%nat -> nth_error (update l k v) k = Some v.
Proof.
  induction l as [|x l IH]; intros [|k] v H; simpl in *; try lia; auto.
  apply IH. lia.
Qed.

Lemma nth_error_update_other {A} (l : list A) : forall k p v,
  p <> k -> nth_error (update l k v) p = nth_error l p.
Proof.
  induction l as [|x l IH]; intros [|k] [|p] v H; simpl; auto; try congruence.
Qed.

Lemma norm_index_inside (m i : Z) : 0 <= i < m -> norm_index m i = Some i.
Proof.
  intros H. unfold norm_index.
  replace ((0 <=? i) && (i <? m)) with true; [reflexivity|].
  symmetry. apply andb_true_iff. split; [apply Z.leb_le|apply Z.ltb_lt]; lia.
Qed.

Lemma norm_index_outside (m i : Z) : i >= m \/ i < - m -> norm_index m i = None.
Proof.
  intros H. unfold norm_index.
  replace ((0 <=? i) && (i <? m)) with false.
  - replace ((- m <=? i) && (i <? 0)) with false; [reflexivity|].
    symmetry. apply andb_false_iff.
    destruct (Z.leb_spec (- m) i); [right; apply Z.ltb_ge; lia|left; reflexivity].
  - symmetry. apply andb_false_iff.
    destruct (Z.leb_spec 0 i); [right; apply Z.ltb_ge; lia|left; reflexivity].
Qed.

Lemma getitem_inside {A} (l : list A) (i : Z) :
  0 <= i < len l -> exists x, getitem l i = Ok x /\ nth_error l (Z.to_nat i) = Some x.
Proof.
  intros H. unfold getitem. rewrite norm_index_inside by assumption.
  destruct (nth_error l (Z.to_nat i)) as [x|] eqn:E; [eauto|].
  apply nth_error_None in E. unfold len in H. lia.
Qed.

Lemma getitem_range (k j : Z) : 0 <= j < k -> getitem (range k) j = Ok j.
Proof.
  intros H. unfold getitem, range, len. rewrite length_map, length_seq.
  rewrite norm_index_inside by lia.
  rewrite nth_error_map, nth_error_seq.
  replace (Z.to_nat j <? Z.to_nat k)%nat with true by (symmetry; apply Nat.ltb_lt; lia).
  simpl. f_equal. lia.
Qed.

(** The loop over the samples answers row by row, in order. *)
Lemma rows_ok (row : Z -> result (list Q)) (l : list Z) : forall y,
  rows row l = Ok y -> Forall2 (fun idx y_item => row idx = Ok y_item) l y.
Proof.
  induction l as [|idx l IH]; intros y H; cbn [rows] in H.
  - injection H as <-. constructor.
  - unfold rbind in H. destruct (row idx) as [y_item|] eqn:E1; [|discriminate].
    destruct (rows row l) as [y'|] eqn:E2; [|discriminate].
    injection H as <-. constructor; [assumption|auto].
Qed.

(** The loop stops at the first row that raises. *)
Lemma rows_err (row : Z -> result (list Q)) (l : list Z) (idx : Z) (e : exn) :
  In idx l -> row idx = Err e -> exists e', rows row l = Err e'.
Proof.
  induction l as [|i l IH]; intros Hin Hrow; [destruct Hin|].
  cbn [rows]. unfold rbind. destruct Hin as [->|Hin].
  - rewrite Hrow. eauto.
  - destruct (row i); [|eauto].
    destruct (IH Hin Hrow) as (e' & ->). eauto.
Qed.

(** Whatever a row raises is an [IndexError], provided the network output
    size is not negative. *)
Lemma getitem_error {A} (l : list A) (i : Z) (e : exn) :
  getitem l i = Err e -> e = IndexError.
Proof.
  unfold getitem. destruct (norm_index (len l) i) as [k|].
  - destruct (nth_error l (Z.to_nat k)); intros H; [discriminate H|].
    injection H as <-. reflexivity.
  - intros H. injection H as <-. reflexivity.
Qed.

Lemma setitem_error {A} (l : list A) (i : Z) (v : A) (e : exn) :
  setitem l i v = Err e -> e = IndexError.
Proof.
  unfold setitem. destruct (norm_index (len l) i) as [k|]; intros H.
  - discriminate H.
  - injection H as <-. reflexivity.
Qed.

Lemma target_row_error (self : Sequence) (fa ori : list Q) (idx : Z) (e : exn) :
  0 <= network_output_size self ->
  target_row self fa ori idx = Err e -> e = IndexError.
Proof.
  intros HM. unfold target_row, np_zeros, rbind.
  replace (network_output_size self <? 0) with false by (symmetry; apply Z.ltb_ge; lia).
  destruct (getitem fa idx) as [v|e1] eqn:E1.
  - destruct (getitem ori idx) as [o|e2] eqn:E2.
    + apply setitem_error.
    + intros H. injection H as <-. eapply getitem_error; eassumption.
  - intros H. injection H as <-. eapply getitem_error; eassumption.
Qed.

Lemma rows_error (self : Sequence) (fa ori : list Q) (l : list Z) (e : exn) :
  0 <= network_output_size self ->
  rows (target_row self fa ori) l = Err e -> e = IndexError.
Proof.
  intros HM. induction l as [|idx l IH]; cbn [rows]; [discriminate|].
  unfold rbind. destruct (target_row self fa ori idx) as [y_item|e0] eqn:E.
  - destruct (rows (target_row self fa ori) l); [discriminate|].
    intros H. injection H as <-. apply IH. reflexivity.
  - intros H. injection H as <-. eapply target_row_error; eassumption.
Qed.

(** One row: zeros, and the function angle at the orientation. *)
Lemma target_row_peak (self : Sequence) (fa ori : list Q) (j : Z) (o v : Q) row :
  getitem ori j = Ok o -> getitem fa j = Ok v ->
  0 <= int_of_float o < network_output_size self ->
  target_row self fa ori j = Ok row ->
  len row = network_output_size self /\
  getitem row (int_of_float o) = Ok v /\
  forall p, 0 <= p < network_output_size self -> p <> int_of_float o ->
            getitem row p = Ok 0%Q.
Proof.
  intros Ho Hv Hrange. unfold target_row, np_zeros, rbind. rewrite Ho, Hv.
  replace (network_output_size self <? 0) with false by (symmetry; apply Z.ltb_ge; lia).
  unfold setitem, len. rewrite repeat_length, Z2Nat.id by lia.
  rewrite norm_index_inside by assumption.
  intros H. injection H as <-.
  assert (Hlen : len (update (repeat 0%Q (Z.to_nat (network_output_size self)))
                        (Z.to_nat (int_of_float o)) v) = network_output_size self).
  { unfold len. rewrite length_update, repeat_length. lia. }
  split; [exact Hlen|]. split.
  - unfold getitem. rewrite Hlen, norm_index_inside by assumption.
    rewrite nth_error_update_same; [reflexivity|]. rewrite repeat_length. lia.
  - intros p Hp Hne. unfold getitem. rewrite Hlen, norm_index_inside by assumption.
    rewrite nth_error_update_other by lia.
    rewrite nth_error_repeat; [reflexivity|lia].
Qed.

(** A row whose orientation is at or above the size, or below minus the
    size, cannot be written. *)
Lemma target_row_outside (self : Sequence) (fa ori : list Q) (j : Z) (o : Q) :
  getitem ori j = Ok o ->
  int_of_float o >= network_output_size self \/
  int_of_float o < - network_output_size self ->
  exists e, target_row self fa ori j = Err e.
Proof.
  intros Ho Hout. unfold target_row, np_zeros, rbind. rewrite Ho.
  destruct (network_output_size self <? 0) eqn:EM; [eauto|].
  apply Z.ltb_ge in EM.
  destruct (getitem fa j); [|eauto].
  unfold setitem, len. rewrite repeat_length, Z2Nat.id by lia.
  rewrite norm_index_outside by assumption. eauto.
Qed.

Lemma renew_rotation_labels (self : Sequence) (g : rng) (idx : Z) s' g' :
  renew_rotation self g idx = Ok (s', g') ->
  target_array s' idx = target_array self idx /\
  imgfilenames2 s' = imgfilenames2 self /\
  (forall A (l : list A), batch_slice s' idx l = batch_slice self idx l).
Proof.
  unfold renew_rotation. destruct ((idx =? 0) && (rotate_data self =? 2)).
  - unfold rbind. destruct (draw_random_rotate self g) as [[r g1]|]; [|discriminate].
    intros H. injection H as <- _. repeat split.
  - intros H. injection H as <- _. repeat split.
Qed.

(** What [__getitem__] returns contains the array [y]. *)
Lemma getitem_returns_target_array (self : Sequence) (g : rng) (fs : filesystem)
    (idx : Z) xs t :
  value (__getitem__ self g fs idx) = Ok (xs, t) ->
  target_array self idx = Ok (peak t).
Proof.
  unfold __getitem__.
  destruct (renew_rotation self g idx) as [[s' g']|] eqn:E; [|discriminate].
  apply renew_rotation_labels in E as (Ht & _ & _).
  unfold run, assemble, bind, lift.
  destruct (fill_inputs s' fs idx []) as [[x|] t0]; [|discriminate].
  rewrite Ht. destruct (target_array self idx) as [y|]; [|discriminate].
  unfold pack, rbind. destruct x as [x1 [x2|]].
  - destruct (np_hstack _); [|discriminate].
    cbn. intros H. injection H as _ <-. reflexivity.
  - cbn. intros H. injection H as _ <-. reflexivity.
Qed.

End Targets.

Section TargetContract.

Context {RG : PyRandom} {NP : NumpyImages}.

Lemma Forall2_nth_error {A B} (R : A -> B -> Prop) (l : list A) (y : list B) :
  Forall2 R l y ->
  List.length l = List.length y /\
  forall j a, nth_error l j = Some a -> exists b, nth_error y j = Some b /\ R a b.
Proof.
  induction 1 as [|a b l y HR HF [IHl IH]].
  - split; [reflexivity|]. intros [|j] a H; discriminate H.
  - split; [simpl; now rewrite IHl|].
    intros [|j] a' H; simpl in *.
    + injection H as <-. eauto.
    + apply IH. assumption.
Qed.

(** C6.  When the array [y] of a batch is built, the row of a sample whose
    orientation, cut to an integer, lies in [0, M) has length [M], holds
    the function angle of the sample at that position and zero everywhere
    else; [y] is what [__getitem__] returns as the peak targets. *)
Theorem target_row_is_peak_at_orientation
    (self : Sequence) (idx j : Z) (o v : Q) (y : list (list Q)) :
  target_array self idx = Ok y ->
  0 <= j < len (batch_slice self idx (overlap self)) ->
  getitem (batch_slice self idx (orientation self)) j = Ok o ->
  getitem (batch_slice self idx (function_angle self)) j = Ok v ->
  0 <= int_of_float o < network_output_size self ->
  (exists row,
     getitem y j = Ok row /\
     len row = network_output_size self /\
     getitem row (int_of_float o) = Ok v /\
     forall p, 0 <= p < network_output_size self -> p <> int_of_float o ->
               getitem row p = Ok 0%Q) /\
  (forall g fs xs t,
     value (__getitem__ self g fs idx) = Ok (xs, t) -> peak t = y).
Proof.
  intros Hy Hj Ho Hv Hrange. split.
  - unfold target_array in Hy. apply rows_ok in Hy.
    apply Forall2_nth_error in Hy as [Hlen Hnth].
    destruct (getitem_inside (range (len (batch_slice self idx (overlap self)))) j)
      as (a & Ha & Hna).
    { unfold range, len at 1. rewrite length_map, length_seq. lia. }
    rewrite getitem_range in Ha by assumption. injection Ha as <-.
    destruct (Hnth _ _ Hna) as (row & Hrow & Htr).
    exists row. split.
    + unfold getitem. rewrite norm_index_inside.
      * now rewrite Hrow.
      * unfold len at 1. rewrite <- Hlen. unfold range.
        rewrite length_map, length_seq. lia.
    + eapply target_row_peak; eassumption.
  - intros g fs xs t H. apply getitem_returns_target_array in H.
    rewrite Hy in H. injection H as ->. reflexivity.
Qed.

(** C7, as the code has it.  When the inputs of the batch were read, the
    network output size is not negative and some sample of the batch has
    an orientation that, cut to an integer, is at least [M] or below
    [-M], [__getitem__] raises [IndexError].  (An orientation in
    [-M, 0) is a position counted from the end of the row.) *)
Theorem orientation_beyond_size_raises
    (self : Sequence) (g : rng) (fs : filesystem) (idx j : Z) (o : Q)
    s' g' x t :
  renew_rotation self g idx = Ok (s', g') ->
  run (fill_inputs s' fs idx) = (Ok x, t) ->
  0 <= network_output_size self ->
  0 <= j < len (batch_slice self idx (overlap self)) ->
  getitem (batch_slice self idx (orientation self)) j = Ok o ->
  int_of_float o >= network_output_size self \/
  int_of_float o < - network_output_size self ->
  value (__getitem__ self g fs idx) = Err IndexError.
Proof.
  intros Hrenew Hfill HM Hj Ho Hout.
  unfold __getitem__. rewrite Hrenew.
  apply renew_rotation_labels in Hrenew as (Ht & _ & _).
  unfold run in *. unfold assemble, bind, lift. rewrite Hfill, Ht.
  destruct (target_row_outside self (batch_slice self idx (function_angle self))
              (batch_slice self idx (orientation self)) j o Ho Hout) as (e & He).
  assert (Hin : In j (range (len (batch_slice self idx (overlap self))))).
  { unfold range. apply in_map_iff. exists (Z.to_nat j). split; [lia|].
    apply in_seq. lia. }
  destruct (rows_err _ _ _ _ Hin He) as (e' & He').
  unfold target_array. rewrite He'. cbn [value].
  apply rows_error in He'; [|assumption]. now subst e'.
Qed.

End TargetContract.

Lemma target_row_is_peak_at_orientation_witness :
  exists s g y,
    three_scans [2; 0; 1]%Q = Ok (s, g) /\
    target_array s 0 = Ok y /\
    0 <= 0 < len (batch_slice s 0 (overlap s)) /\
    getitem (batch_slice s 0 (orientation s)) 0 = Ok 2%Q /\
    getitem (batch_slice s 0 (function_angle s)) 0 = Ok (7 # 10)%Q /\
    0 <= int_of_float 2%Q < network_output_size s /\
    getitem y 0 = Ok [0; 0; 7 # 10]%Q /\
    value (__getitem__ (RG := MersenneTwister) (NP := DenseImages) s g disk 0)
    = Ok ([Dense.mkTensor (2, 1, 7, 1)
             [[[[10]; [11]; [12]; [13]; [14]; [15]; [16]]];
              [[[20]; [21]; [22]; [23]; [24]; [25]; [26]]]]%Q],
          OneHead y).
Proof.
  destruct (three_scans [2; 0; 1]%Q) as [[s g]|e] eqn:E; [|vm_compute in E; discriminate].
  vm_compute in E. injection E as <- <-.
  eexists. eexists. eexists. split; [reflexivity|].
  match goal with |- target_array ?s 0 = Ok ?y /\ _ =>
    assert (Hy : target_array s 0 = Ok [[0; 0; 7 # 10]; [1 # 10; 0; 0]]%Q)
      by (vm_compute; reflexivity);
    assert (Hj : 0 <= 0 < len (batch_slice s 0 (overlap s))) by (vm_compute; split; congruence);
    assert (Ho : getitem (batch_slice s 0 (orientation s)) 0 = Ok 2%Q) by reflexivity;
    assert (Hv : getitem (batch_slice s 0 (function_angle s)) 0 = Ok (7 # 10)%Q) by reflexivity;
    assert (Hr : 0 <= int_of_float 2%Q < network_output_size s) by (vm_compute; split; congruence);
    destruct (target_row_is_peak_at_orientation (RG := MersenneTwister) (NP := DenseImages)
                s 0 0 2%Q (7 # 10)%Q _ Hy Hj Ho Hv Hr) as [(row & Hrow & _) Hret]
  end.
  split; [exact Hy|]. split; [exact Hj|]. split; [exact Ho|]. split; [exact Hv|].
  split; [exact Hr|]. split; [reflexivity|]. vm_compute. reflexivity.
Defined.

(** The same three scans with an orientation of -1 for the first one. *)
Definition wrapped : Sequence :=
  Eval vm_compute in fst (made (three_scans [-1 # 1; 0; 1]%Q)).

(** The same with an orientation of 3, the size of the network output. *)
Definition beyond : Sequence :=
  Eval vm_compute in fst (made (three_scans [3; 0; 1]%Q)).

(** C7 as stated fails: an orientation of -1 is outside [0, 3), yet the
    batch is returned, with the function angle in the last position of
    the row. *)
Lemma orientation_outside_raises_counterexample :
  three_scans [-1 # 1; 0; 1]%Q = Ok (wrapped, []) /\
  getitem (batch_slice wrapped 0 (orientation wrapped)) 0 = Ok (-1 # 1)%Q /\
  int_of_float (-1 # 1)%Q = -1 /\
  ~ (0 <= -1 < network_output_size wrapped) /\
  value (__getitem__ (RG := MersenneTwister) (NP := DenseImages) wrapped [] disk 0)
  = Ok ([Dense.mkTensor (2, 1, 7, 1)
           [[[[10]; [11]; [12]; [13]; [14]; [15]; [16]]];
            [[[20]; [21]; [22]; [23]; [24]; [25]; [26]]]]%Q],
        OneHead [[0; 0; 7 # 10]; [1 # 10; 0; 0]]%Q).
Proof.
  split; [vm_compute; reflexivity|]. split; [reflexivity|]. split; [reflexivity|].
  split; [cbn; lia|]. vm_compute. reflexivity.
Qed.

Lemma orientation_beyond_size_raises_witness :
  exists x t,
    renew_rotation (RG := MersenneTwister) beyond [] 0 = Ok (beyond, []) /\
    run (fill_inputs (NP := DenseImages) beyond disk 0) = (Ok x, t) /\
    0 <= network_output_size beyond /\
    0 <= 0 < len (batch_slice beyond 0 (overlap beyond)) /\
    getitem (batch_slice beyond 0 (orientation beyond)) 0 = Ok 3%Q /\
    (int_of_float 3%Q >= network_output_size beyond \/
     int_of_float 3%Q < - network_output_size beyond) /\
    value (__getitem__ (RG := MersenneTwister) (NP := DenseImages) beyond [] disk 0)
    = Err IndexError.
Proof.
  assert (Hfill : exists x t,
             run (fill_inputs (NP := DenseImages) beyond disk 0) = (Ok x, t))
    by (eexists; eexists; vm_compute; reflexivity).
  destruct Hfill as (x & t & Hfill).
  assert (Hrenew : renew_rotation (RG := MersenneTwister) beyond [] 0 = Ok (beyond, []))
    by reflexivity.
  assert (HM : 0 <= network_output_size beyond) by (cbn; lia).
  assert (Hj : 0 <= 0 < len (batch_slice beyond 0 (overlap beyond)))
    by (vm_compute; split; congruence).
  assert (Ho : getitem (batch_slice beyond 0 (orientation beyond)) 0 = Ok 3%Q)
    by reflexivity.
  assert (Hout : int_of_float 3%Q >= network_output_size beyond \/
                 int_of_float 3%Q < - network_output_size beyond)
    by (left; vm_compute; congruence).
  exists x, t. repeat (split; [assumption|]).
  exact (orientation_beyond_size_raises (RG := MersenneTwister) (NP := DenseImages)
           beyond [] disk 0 0 3%Q beyond [] x t Hrenew Hfill HM Hj Ho Hout).
Defined.

(* ================================================================== *)
(** ** What is returned *)

Section Packaging.

Context {RG : PyRandom} {NP : NumpyImages}.

(** A property of the loop state kept by every round is kept by the loop. *)
Lemma for_each_inv {S} (P : S -> Prop) (body : Z -> S -> IO S) :
  (forall i s t s' t', P s -> body i s t = (Ok s', t') -> P s') ->
  forall l s t s' t', P s -> for_each l body s t = (Ok s', t') -> P s'.
Proof.
  intros Hbody. induction l as [|i l IH]; intros s t s' t' HP H; cbn [for_each] in H.
  - unfold ret in H. injection H as <- _. exact HP.
  - unfold bind in H. destruct (body i s t) as [[s1|e] t1] eqn:E; [|discriminate].
    eapply IH; [|exact H]. eapply Hbody; eassumption.
Qed.

(** The second tensor exists exactly when [imgfilenames2] is not empty. *)
Lemma fill_inputs_legs (self : Sequence) (fs : filesystem) (idx : Z) t x t' :
  fill_inputs self fs idx t = (Ok x, t') ->
  if truthy (imgfilenames2 self) then exists x2, snd x = Some x2 else snd x = None.
Proof.
  unfold fill_inputs, bind, lift, ret.
  destruct (np_zeros4 _ _ _ _) as [x1|]; [|discriminate].
  destruct (truthy (imgfilenames2 self)).
  - apply (for_each_inv (fun s => exists x2, snd s = Some x2)).
    + intros i [a b] t0 s' t0' [b' Hb] H. cbn [snd] in Hb. subst b.
      unfold fill_one, bind, ret in H.
      destruct (prepareOneInput self fs a i _ _ 0 false t0) as [[a'|] t1];
        [|discriminate].
      destruct (prepareOneInput self fs b' i _ _ _ _ t1) as [[b''|] t2];
        [|discriminate].
      injection H as <- _. cbn. eauto.
    + cbn. eauto.
  - apply (for_each_inv (fun s => snd s = None)).
    + intros i [a b] t0 s' t0' Hb H. cbn [snd] in Hb. subst b.
      unfold fill_one, bind, ret in H.
      destruct (prepareOneInput self fs a i _ _ 0 false t0) as [[a'|] t1];
        [|discriminate].
      injection H as <- _. reflexivity.
    + reflexivity.
Qed.

(** [np.hstack] called with two positional arguments raises. *)
Lemma np_hstack_two_arguments (a b : list Q) :
  np_hstack [Arr a; Arr b] = Err TypeError.
Proof. reflexivity. Qed.

(** C2, as the code has it.  Once the inputs and the array [y] of a batch
    are built, a generator with one leg returns [([x1], y)]; a generator
    with two legs returns nothing: it raises [TypeError], because
    [np.hstack] is handed the overlap and the function angle as two
    arguments instead of one sequence.  With two legs no call returns. *)
Theorem return_packaging (self : Sequence) (g : rng) (fs : filesystem) (idx : Z)
    s' g' x t y :
  renew_rotation self g idx = Ok (s', g') ->
  run (fill_inputs s' fs idx) = (Ok x, t) ->
  target_array self idx = Ok y ->
  (truthy (imgfilenames2 self) = false ->
   value (__getitem__ self g fs idx) = Ok ([fst x], OneHead y)) /\
  (truthy (imgfilenames2 self) = true ->
   value (__getitem__ self g fs idx) = Err TypeError).
Proof.
  intros Hrenew Hfill Hy.
  pose proof (fill_inputs_legs _ _ _ _ _ _ Hfill) as Hlegs.
  unfold __getitem__. rewrite Hrenew.
  apply renew_rotation_labels in Hrenew as (Ht & Hf2 & _).
  rewrite Hf2 in Hlegs.
  unfold run in *. unfold assemble, bind, lift. rewrite Hfill, Ht, Hy.
  destruct x as [x1 x2]. cbn [snd] in Hlegs. split; intros Hleg; rewrite Hleg in Hlegs.
  - subst x2. reflexivity.
  - destruct Hlegs as [x2' ->]. reflexivity.
Qed.

(** With a second leg, [__getitem__] never returns a batch. *)
Lemma two_legs_never_return (self : Sequence) (g : rng) (fs : filesystem) (idx : Z) b :
  truthy (imgfilenames2 self) = true ->
  value (__getitem__ self g fs idx) <> Ok b.
Proof.
  intros Hleg H. unfold __getitem__ in H.
  destruct (renew_rotation self g idx) as [[s' g']|] eqn:Hrenew; [|discriminate].
  pose proof (renew_rotation_labels _ _ _ _ _ Hrenew) as (_ & Hf2 & _).
  unfold run, assemble, bind, lift in H.
  destruct (fill_inputs s' fs idx []) as [[x|] t] eqn:Hfill; [|discriminate].
  apply fill_inputs_legs in Hfill. rewrite Hf2, Hleg in Hfill.
  destruct Hfill as [x2 Hx2]. destruct x as [x1 x2']. cbn in Hx2. subst x2'.
  destruct (target_array s' idx); discriminate.
Qed.

(** The index used for the shift of the second leg is the documented one
    in every full batch. *)
Lemma leg2_totalidx_full_batch (self : Sequence) (idx i : Z) :
  (idx + 1) * batch_size self <= n self ->
  leg2_totalidx self idx i = idx * batch_size self + i.
Proof.
  intros H. unfold leg2_totalidx, batch_bounds.
  destruct (Z.gtb_spec ((idx + 1) * batch_size self) (n self)); [lia|reflexivity].
Qed.

(** In a shortened batch it is computed from the shortened size. *)
Lemma leg2_totalidx_short_batch (self : Sequence) (idx i : Z) :
  (idx + 1) * batch_size self > n self ->
  leg2_totalidx self idx i = idx * (n self - idx * batch_size self) + i.
Proof.
  intros H. unfold leg2_totalidx, batch_bounds.
  destruct (Z.gtb_spec ((idx + 1) * batch_size self) (n self)); [reflexivity|lia].
Qed.

End Packaging.

(** With two legs the first batch of the three pairs raises [TypeError]. *)
Lemma return_packaging_witness :
  exists x t y,
    renew_rotation (RG := MersenneTwister) fixed fixed_rng 0 = Ok (fixed, fixed_rng) /\
    run (fill_inputs (NP := DenseImages) fixed disk 0) = (Ok x, t) /\
    target_array fixed 0 = Ok y /\
    truthy (imgfilenames2 fixed) = true /\
    value (__getitem__ (RG := MersenneTwister) (NP := DenseImages) fixed fixed_rng disk 0)
    = Err TypeError.
Proof.
  assert (Hfill : exists x t,
             run (fill_inputs (NP := DenseImages) fixed disk 0) = (Ok x, t))
    by (eexists; eexists; vm_compute; reflexivity).
  destruct Hfill as (x & t & Hfill).
  assert (Hy : exists y, target_array fixed 0 = Ok y)
    by (eexists; vm_compute; reflexivity).
  destruct Hy as (y & Hy).
  assert (Hrenew : renew_rotation (RG := MersenneTwister) fixed fixed_rng 0
                   = Ok (fixed, fixed_rng)) by reflexivity.
  assert (Hleg : truthy (imgfilenames2 fixed) = true) by reflexivity.
  exists x, t, y. repeat (split; [assumption|]).
  exact (proj2 (return_packaging (RG := MersenneTwister) (NP := DenseImages)
                  fixed fixed_rng disk 0 fixed fixed_rng x t y Hrenew Hfill Hy) Hleg).
Defined.

(** C1 on the code.  Three pairs in batches of two: batch 1 holds the
    single pair at global position [1 * 2 + 0 = 2], yet the second leg is
    prepared with [totalidx = 1 * 1 + 0 = 1].  The schedule drawn from
    seed 1234 is [7, 1, 0], so the scan [b2] is shifted by 1 where the
    documented index gives a shift of 0. *)
Theorem short_final_batch_shift_index :
  __len__ fixed = Ok 2 /\
  batch_bounds fixed 1 = (3, 1) /\
  leg2_totalidx fixed 1 0 = 1 /\
  1 * batch_size fixed + 0 = 2 /\
  lookup_shift fixed (leg2_totalidx fixed 1 0) = Ok 1 /\
  lookup_shift fixed (1 * batch_size fixed + 0) = Ok 0 /\
  fst (run (fill_inputs (NP := DenseImages) fixed disk 1))
  = Ok (Dense.mkTensor (1, 1, 7, 1)
          [[[[30]; [31]; [32]; [33]; [34]; [35]; [36]]]]%Q,
        Some (Dense.mkTensor (1, 1, 7, 1)
                [[[[66]; [60]; [61]; [62]; [63]; [64]; [65]]]]%Q)).
Proof.
  split; [reflexivity|]. split; [reflexivity|]. split; [reflexivity|].
  split; [reflexivity|]. split; [reflexivity|]. split; [reflexivity|].
  vm_compute. reflexivity.
Qed.

(* ================================================================== *)
(** ** Reading the layers *)

Section Loading.

Context {RG : PyRandom} {NP : NumpyImages}.

Variable self : Sequence.
Variable fs : filesystem.
Variable i : Z.
Variables batch_f1 dir_f1 : list string.

(** The directory of the class probabilities *)
Definition probability_kind : string :=
  if use_class_probabilities_pca self then "probability_pca"%string
  else "probability"%string.



(** Storing never raises an [IOError] and reads nothing. *)
Lemma store_probabilities_no_io (st : tensor * Z) img t r t' :
  store_probabilities self i st img t = (r, t') ->
  t' = t /\ forall e, r = Err e -> is_IOError e = false.
Proof.
  unfold store_probabilities. destruct st as [x1 c].
  destruct (use_class_probabilities_pca self); unfold bind, lift, ret;
    destruct (set_channels _ _ _ _ _) as [x|e0] eqn:E; intros H;
    injection H as <- <-; (split; [reflexivity|]); intros e He;
    try discriminate He; injection He as <-;
    eapply set_channels_no_io; eassumption.
Qed.

(** The class probabilities: when the [.npy] file loads, nothing else is
    read. *)
Lemma load_probabilities_primary (st : tensor * Z) (t : list string) f img :
  use_class_probabilities self = true ->
  layer_path self dir_f1 batch_f1 i probability_kind ".npy"%string = Ok f ->
  fs f = Ok img ->
  load_probabilities self fs i batch_f1 dir_f1 st t
  = store_probabilities self i st img (t ++ [f]).
Proof.
  intros Hflag Hpath Hfs. unfold load_probabilities. rewrite Hflag.
  fold probability_kind. unfold bind at 1. unfold lift at 1. rewrite Hpath.
  unfold try_except_IOError, bind, np_load. rewrite Hfs.
  destruct (store_probabilities self i st img (t ++ [f])) as [r t'] eqn:E.
  destruct (store_probabilities_no_io _ _ _ _ _ E) as [-> Hr].
  destruct r as [a|e]; [reflexivity|].
  rewrite (Hr e eq_refl). reflexivity.
Qed.

Lemma load_probabilities_primary_reads (st : tensor * Z) (t : list string) f img :
  use_class_probabilities self = true ->
  layer_path self dir_f1 batch_f1 i probability_kind ".npy"%string = Ok f ->
  fs f = Ok img ->
  snd (load_probabilities self fs i batch_f1 dir_f1 st t) = t ++ [f].
Proof.
  intros Hflag Hpath Hfs. rewrite (load_probabilities_primary st t f img) by assumption.
  destruct (store_probabilities self i st img (t ++ [f])) as [r t'] eqn:E.
  apply store_probabilities_no_io in E as [-> _]. reflexivity.
Qed.

(** When the [.npy] file cannot be read, the [.npz] file is read next and
    decides. *)
Lemma load_probabilities_fallback (st : tensor * Z) (t : list string) f f' e :
  use_class_probabilities self = true ->
  layer_path self dir_f1 batch_f1 i probability_kind ".npy"%string = Ok f ->
  layer_path self dir_f1 batch_f1 i probability_kind ".npz"%string = Ok f' ->
  fs f = Err e -> is_IOError e = true ->
  load_probabilities self fs i batch_f1 dir_f1 st t
  = match fs f' with
    | Ok img => store_probabilities self i st img (t ++ [f; f'])
    | Err e' => (Err e', t ++ [f; f'])
    end.
Proof.
  intros Hflag Hpath Hpath' Hfs He. unfold load_probabilities. rewrite Hflag.
  fold probability_kind. unfold bind at 1. unfold lift at 1. rewrite Hpath.
  unfold try_except_IOError. unfold bind at 1. unfold np_load at 1.
  rewrite Hfs, He. unfold bind, lift, np_load. rewrite Hpath'.
  rewrite <- app_assoc. cbn [app]. destruct (fs f'); reflexivity.
Qed.

(** The intensity: the same two reads. *)
Lemma load_intensity_primary (x1 : tensor) (c : Z) (t : list string) f img :
  use_intensity self = true ->
  layer_path self dir_f1 batch_f1 i "intensity"%string ".npy"%string = Ok f ->
  fs f = Ok img ->
  load_intensity self fs i batch_f1 dir_f1 (x1, c) t
  = (match set_channel x1 i c img with
     | Ok x1' => Ok (x1', c + 1)
     | Err e => Err e
     end, t ++ [f]).
Proof.
  intros Hflag Hpath Hfs. unfold load_intensity. rewrite Hflag.
  unfold bind, lift, try_except_IOError, np_load, ret. rewrite Hpath, Hfs.
  destruct (set_channel x1 i c img); reflexivity.
Qed.

Lemma load_intensity_fallback (x1 : tensor) (c : Z) (t : list string) f f' e :
  use_intensity self = true ->
  layer_path self dir_f1 batch_f1 i "intensity"%string ".npy"%string = Ok f ->
  layer_path self dir_f1 batch_f1 i "intensity"%string ".npz"%string = Ok f' ->
  fs f = Err e -> is_IOError e = true ->
  load_intensity self fs i batch_f1 dir_f1 (x1, c) t
  = (match fs f' with
     | Ok img => match set_channel x1 i c img with
                 | Ok x1' => Ok (x1', c + 1)
                 | Err e => Err e
                 end
     | Err e' => Err e'
     end, t ++ [f; f']).
Proof.
  intros Hflag Hpath Hpath' Hfs He. unfold load_intensity. rewrite Hflag.
  unfold bind, lift, try_except_IOError, np_load, ret.
  rewrite Hpath, Hfs, He, Hpath'. rewrite <- app_assoc. cbn [app].
  destruct (fs f') as [img|]; [|reflexivity].
  destruct (set_channel x1 i c img); reflexivity.
Qed.

(** An exception of any layer leaves [prepareOneInput] as it is. *)
Lemma prepareOneInput_raises (x1 : tensor) (totalidx : Z) (rot : bool)
    (t : list string) :
  (forall e t',
     load_depth self fs i batch_f1 dir_f1 (x1, 0) t = (Err e, t') ->
     prepareOneInput self fs x1 i batch_f1 dir_f1 totalidx rot t = (Err e, t')) /\
  (forall st t1 e t',
     load_depth self fs i batch_f1 dir_f1 (x1, 0) t = (Ok st, t1) ->
     load_normals self fs i batch_f1 dir_f1 st t1 = (Err e, t') ->
     prepareOneInput self fs x1 i batch_f1 dir_f1 totalidx rot t = (Err e, t')) /\
  (forall st t1 st' t2 e t',
     load_depth self fs i batch_f1 dir_f1 (x1, 0) t = (Ok st, t1) ->
     load_normals self fs i batch_f1 dir_f1 st t1 = (Ok st', t2) ->
     load_probabilities self fs i batch_f1 dir_f1 st' t2 = (Err e, t') ->
     prepareOneInput self fs x1 i batch_f1 dir_f1 totalidx rot t = (Err e, t')) /\
  (forall st t1 st' t2 st'' t3 e t',
     load_depth self fs i batch_f1 dir_f1 (x1, 0) t = (Ok st, t1) ->
     load_normals self fs i batch_f1 dir_f1 st t1 = (Ok st', t2) ->
     load_probabilities self fs i batch_f1 dir_f1 st' t2 = (Ok st'', t3) ->
     load_intensity self fs i batch_f1 dir_f1 st'' t3 = (Err e, t') ->
     prepareOneInput self fs x1 i batch_f1 dir_f1 totalidx rot t = (Err e, t')).
Proof.
  unfold prepareOneInput, bind. repeat split.
  - intros e t' ->. reflexivity.
  - intros st t1 e t' -> ->. reflexivity.
  - intros st t1 st' t2 e t' -> -> ->. reflexivity.
  - intros st t1 st' t2 st'' t3 e t' -> -> -> ->. reflexivity.
Qed.

End Loading.

(* ================================================================== *)
(** ** Further properties of the batches *)

Section SecondLeg.

Context {RG : PyRandom} {NP : NumpyImages}.

(** X1.  The index handed to [prepareOneInput] for the shift of the second
    leg is [idx * size + i].  In a full batch this is the position
    [idx * batch_size + i] of the sample in the dataset; in a shortened
    batch after the first it falls short of that position by
    [idx * ((idx + 1) * batch_size - n)]. *)
Theorem second_leg_shift_index (self : Sequence) (idx i : Z) :
  1 <= batch_size self -> 0 <= idx ->
  ((idx + 1) * batch_size self <= n self ->
   leg2_totalidx self idx i = idx * batch_size self + i) /\
  ((idx + 1) * batch_size self > n self ->
   leg2_totalidx self idx i
   = idx * batch_size self + i - idx * ((idx + 1) * batch_size self - n self) /\
   (1 <= idx -> leg2_totalidx self idx i < idx * batch_size self + i)).
Proof.
  intros Hb Hidx. split.
  - apply leg2_totalidx_full_batch.
  - intros Hshort. rewrite leg2_totalidx_short_batch by assumption.
    split; [lia|]. intros H1. nia.
Qed.

(** Once the inputs and the array [y] are there, two legs end in the
    [TypeError] of [np.hstack]. *)
Lemma two_legs_type_error (self : Sequence) (g : rng) (fs : filesystem) (idx : Z)
    s' g' x t y :
  truthy (imgfilenames2 self) = true ->
  renew_rotation self g idx = Ok (s', g') ->
  run (fill_inputs s' fs idx) = (Ok x, t) ->
  target_array self idx = Ok y ->
  value (__getitem__ self g fs idx) = Err TypeError.
Proof.
  intros Hleg Hrenew Hfill Hy.
  pose proof (fill_inputs_legs _ _ _ _ _ _ Hfill) as Hlegs.
  unfold __getitem__. rewrite Hrenew.
  apply renew_rotation_labels in Hrenew as (Ht & Hf2 & _).
  rewrite Hf2, Hleg in Hlegs. destruct Hlegs as [x2 Hx2].
  unfold run in *. unfold assemble, bind, lift. rewrite Hfill, Ht, Hy.
  destruct x as [x1 x2']. cbn [snd] in Hx2. subst x2'. reflexivity.
Qed.

(** X2.  A generator with a second leg never returns a batch: every call
    of [__getitem__] ends in an exception, and once the inputs and the
    array [y] are built that exception is the [TypeError] of
    [np.hstack(y_overlap, y_function_angle)]. *)
Theorem two_leg_batches_always_raise (self : Sequence) (g : rng) (fs : filesystem)
    (idx : Z) :
  truthy (imgfilenames2 self) = true ->
  (exists e, value (__getitem__ self g fs idx) = Err e) /\
  (forall s' g' x t y,
     renew_rotation self g idx = Ok (s', g') ->
     run (fill_inputs s' fs idx) = (Ok x, t) ->
     target_array self idx = Ok y ->
     value (__getitem__ self g fs idx) = Err TypeError).
Proof.
  intros Hleg. split.
  - destruct (value (__getitem__ self g fs idx)) as [b|e] eqn:E; [|eauto].
    exfalso. exact (two_legs_never_return self g fs idx b Hleg E).
  - intros s' g' x t y Hrenew Hfill Hy.
    exact (two_legs_type_error self g fs idx s' g' x t y Hleg Hrenew Hfill Hy).
Qed.

End SecondLeg.

Lemma second_leg_shift_index_witness :
  1 <= batch_size fixed /\ 0 <= 1 /\
  (1 + 1) * batch_size fixed > n fixed /\ 1 <= 1 /\
  leg2_totalidx fixed 1 0
  = 1 * batch_size fixed + 0 - 1 * ((1 + 1) * batch_size fixed - n fixed) /\
  leg2_totalidx fixed 1 0 < 1 * batch_size fixed + 0 /\
  (0 + 1) * batch_size fixed <= n fixed /\
  leg2_totalidx fixed 0 1 = 0 * batch_size fixed + 1.
Proof.
  assert (Hb : 1 <= batch_size fixed) by (cbn; lia).
  assert (H0 : 0 <= 0) by lia.
  assert (H1 : 0 <= 1) by lia.
  assert (Hs : (1 + 1) * batch_size fixed > n fixed) by (cbn; lia).
  assert (Hf : (0 + 1) * batch_size fixed <= n fixed) by (cbn; lia).
  assert (H11 : 1 <= 1) by lia.
  destruct (proj2 (second_leg_shift_index fixed 1 0 Hb H1) Hs) as [E L].
  split; [exact Hb|]. split; [exact H1|]. split; [exact Hs|]. split; [exact H11|].
  split; [exact E|]. split; [exact (L H11)|]. split; [exact Hf|].
  exact (proj1 (second_leg_shift_index fixed 0 1 Hb H0) Hf).
Defined.

Lemma two_leg_batches_always_raise_witness :
  truthy (imgfilenames2 fixed) = true /\
  (exists e,
     value (__getitem__ (RG := MersenneTwister) (NP := DenseImages)
              fixed fixed_rng disk 1) = Err e).
Proof.
  assert (Hleg : truthy (imgfilenames2 fixed) = true) by reflexivity.
  split; [exact Hleg|].
  exact (proj1 (two_leg_batches_always_raise (RG := MersenneTwister) (NP := DenseImages)
                  fixed fixed_rng disk 1 Hleg)).
Defined.

(* ================================================================== *)
(** ** Paths *)

Lemma string_append_assoc (a b c : string) :
  ((a ++ b) ++ c = a ++ (b ++ c))%string.
Proof. induction a as [|x a IH]; simpl; [reflexivity|]. now rewrite IH. Qed.

Lemma string_append_nil_r (a : string) : (a ++ "")%string = a.
Proof. induction a as [|x a IH]; simpl; [reflexivity|]. now rewrite IH. Qed.

Lemma endswith_sep_append (a b : string) :
  b <> ""%string -> endswith_sep (a ++ b) = endswith_sep b.
Proof.
  intros Hb. induction a as [|x a IH]; [reflexivity|].
  cbn [append endswith_sep]. rewrite IH.
  destruct (a ++ b)%string eqn:E; [|reflexivity].
  destruct a; simpl in E; [contradiction|discriminate].
Qed.

(** Joining onto a path that is not empty and does not end with the
    separator, with a component that does not start with it. *)
Lemma join_step_plain (path b : string) :
  path <> ""%string -> endswith_sep path = false -> startswith_sep b = false ->
  join_step path b = (path ++ "/" ++ b)%string.
Proof.
  intros Hp He Hb. unfold join_step. rewrite Hb, He.
  destruct (String.eqb_spec path ""); [contradiction|reflexivity].
Qed.

Lemma append_not_empty (a b : string) : b <> ""%string -> (a ++ b)%string <> ""%string.
Proof. intros Hb. destruct a; simpl; [assumption|discriminate]. Qed.

Lemma startswith_sep_append (b ext : string) :
  startswith_sep ext = false ->
  startswith_sep (b ++ ext) = startswith_sep b.
Proof. intros He. destruct b; [exact He|reflexivity]. Qed.

Section Paths.

Context {RG : PyRandom} {NP : NumpyImages}.

(** The two extensions of one layer give the same path up to the
    extension. *)
Lemma layer_path_stem (self : Sequence) (dir_f1 batch_f1 : list string) (i : Z)
    (kind : string) f :
  layer_path self dir_f1 batch_f1 i kind ".npy" = Ok f ->
  exists stem, f = (stem ++ ".npy")%string /\
               layer_path self dir_f1 batch_f1 i kind ".npz" = Ok (stem ++ ".npz")%string.
Proof.
  unfold layer_path, rbind.
  destruct (getitem dir_f1 i) as [d|]; [|discriminate].
  destruct (getitem batch_f1 i) as [b|]; [|discriminate].
  unfold os_path_join. cbn [fold_left].
  set (p := join_step (join_step (image_path self) d) kind).
  unfold join_step.
  rewrite !startswith_sep_append by reflexivity.
  intros H. injection H as <-.
  destruct (startswith_sep b).
  - exists b. split; reflexivity.
  - destruct (orb (String.eqb p "") (endswith_sep p)).
    + exists (p ++ b)%string. now rewrite !string_append_assoc.
    + exists (p ++ "/" ++ b)%string. now rewrite !string_append_assoc.
Qed.

(** X7.  With a base path that is not empty and does not end with a slash,
    a directory name that is not empty and neither starts nor ends with a
    slash, and a file name that does not start with a slash, the file of a
    layer is [<image_path>/<dir>/<layer>/<name><ext>].  A directory name
    that starts with a slash replaces the base path instead. *)
Theorem layer_path_layout (self : Sequence) (dir_f1 batch_f1 : list string) (i : Z)
    (kind ext d b : string) :
  getitem dir_f1 i = Ok d -> getitem batch_f1 i = Ok b ->
  kind <> ""%string -> startswith_sep kind = false -> endswith_sep kind = false ->
  startswith_sep ext = false ->
  startswith_sep b = false ->
  (image_path self <> ""%string -> endswith_sep (image_path self) = false ->
   d <> ""%string -> startswith_sep d = false -> endswith_sep d = false ->
   layer_path self dir_f1 batch_f1 i kind ext
   = Ok (image_path self ++ "/" ++ d ++ "/" ++ kind ++ "/" ++ b ++ ext)%string) /\
  (startswith_sep d = true -> endswith_sep d = false ->
   layer_path self dir_f1 batch_f1 i kind ext
   = Ok (d ++ "/" ++ kind ++ "/" ++ b ++ ext)%string).
Proof.
  intros Hd Hb Hk Hks Hke Hext Hbs. unfold layer_path, rbind. rewrite Hd, Hb.
  unfold os_path_join. cbn [fold_left].
  assert (Hbe : startswith_sep (b ++ ext) = false)
    by (rewrite startswith_sep_append; assumption).
  split.
  - intros Hip Hipe Hdn Hds Hde.
    rewrite (join_step_plain (image_path self) d) by assumption.
    rewrite (join_step_plain _ kind).
    + rewrite (join_step_plain _ (b ++ ext)).
      * now rewrite !string_append_assoc.
      * apply append_not_empty, append_not_empty. assumption.
      * rewrite endswith_sep_append by (apply append_not_empty; assumption).
        rewrite endswith_sep_append by assumption. assumption.
      * assumption.
    + apply append_not_empty, append_not_empty. assumption.
    + rewrite endswith_sep_append by (apply append_not_empty; assumption).
      rewrite endswith_sep_append by assumption. assumption.
    + assumption.
  - intros Hds Hde.
    assert (Hdn : d <> ""%string) by (intros ->; discriminate Hds).
    unfold join_step at 3. rewrite Hds.
    rewrite (join_step_plain d kind) by assumption.
    rewrite (join_step_plain _ (b ++ ext)).
    + now rewrite !string_append_assoc.
    + apply append_not_empty, append_not_empty. assumption.
    + rewrite endswith_sep_append by (apply append_not_empty; assumption).
      rewrite endswith_sep_append by assumption. assumption.
    + assumption.
Qed.

End Paths.

Lemma layer_path_layout_witness :
  layer_path fixed ["s"; "/mnt/other"]%string ["a0"; "a1"]%string 0 "depth" ".npy"
  = Ok "data/s/depth/a0.npy"%string /\
  layer_path fixed ["s"; "/mnt/other"]%string ["a0"; "a1"]%string 1 "depth" ".npy"
  = Ok "/mnt/other/depth/a1.npy"%string.
Proof.
  split.
  - refine (proj1 (layer_path_layout fixed ["s"; "/mnt/other"]%string
                     ["a0"; "a1"]%string 0 "depth" ".npy" "s" "a0"
                     eq_refl eq_refl _ eq_refl eq_refl eq_refl eq_refl)
                  _ eq_refl _ eq_refl eq_refl); discriminate.
  - refine (proj2 (layer_path_layout fixed ["s"; "/mnt/other"]%string
                     ["a0"; "a1"]%string 1 "depth" ".npy" "/mnt/other" "a1"
                     eq_refl eq_refl _ eq_refl eq_refl eq_refl eq_refl)
                  eq_refl eq_refl); discriminate.
Defined.

(* ================================================================== *)
(** ** Files that cannot be read *)

(** One scan with every layer switched on: depth, normals, the three
    principal components of the class probabilities and the intensity. *)
Definition layered : Sequence :=
  mkSequence "data" 1 ["a0"]%string [] ["s"]%string []
    [1#2]%Q [7#10]%Q [3]%Q
    10 1 1 2 8 true true true true true 0 false None.

(** A disk where the probabilities and the intensity of the scan exist
    under the second extension only. *)
Definition disk_second_extension : filesystem (H := DenseImages) :=
  fun f =>
    if String.eqb f "data/s/depth/a0.npy" then Ok (Dense.Array2 [[1; 2]]%Q)
    else if String.eqb f "data/s/normal/a0.npy"
         then Ok (Dense.Array3 [[[3; 4; 5]; [6; 7; 8]]]%Q)
    else if String.eqb f "data/s/probability_pca/a0.npz"
         then Ok (Dense.Array3 [[[9; 10; 11]; [12; 13; 14]]]%Q)
    else if String.eqb f "data/s/intensity/a0.npz" then Ok (Dense.Array2 [[15; 16]]%Q)
    else Err (IOError "No such file or directory").

(** A disk with the depth layer alone. *)
Definition disk_depth_only : filesystem (H := DenseImages) :=
  fun f =>
    if String.eqb f "data/s/depth/a0.npy" then Ok (Dense.Array2 [[1; 2]]%Q)
    else Err (IOError "No such file or directory").

(** The disk of the three scans after the depth file of [a1] was lost. *)
Definition disk_without_a1 : filesystem (H := DenseImages) :=
  fun f =>
    if String.eqb f "data/s/depth/a1.npy"
    then Err (IOError "No such file or directory")
    else disk f.

Section Unreadable.

Context {RG : PyRandom} {NP : NumpyImages}.

Variable self : Sequence.
Variable fs : filesystem.
Variable i : Z.
Variables batch_f1 dir_f1 : list string.

Lemma load_depth_unreadable (st : tensor * Z) (t : list string) f e :
  use_depth self = true ->
  layer_path self dir_f1 batch_f1 i "depth"%string ".npy"%string = Ok f ->
  fs f = Err e ->
  load_depth self fs i batch_f1 dir_f1 st t
  = (Err (if is_IOError e
          then Exception ("Could not read depth image " ++ f)%string else e),
     t ++ [f]).
Proof.
  intros Hflag Hpath Hfs. unfold load_depth. destruct st as [x1 c].
  rewrite Hflag. unfold bind, lift, try_except_IOError, np_load, raise.
  rewrite Hpath, Hfs. destruct (is_IOError e); reflexivity.
Qed.

Lemma load_normals_unreadable (st : tensor * Z) (t : list string) f e :
  use_normals self = true ->
  layer_path self dir_f1 batch_f1 i "normal"%string ".npy"%string = Ok f ->
  fs f = Err e ->
  load_normals self fs i batch_f1 dir_f1 st t
  = (Err (if is_IOError e
          then Exception ("Could not read normal image " ++ f)%string else e),
     t ++ [f]).
Proof.
  intros Hflag Hpath Hfs. unfold load_normals. destruct st as [x1 c].
  rewrite Hflag. unfold bind, lift, try_except_IOError, np_load, raise.
  rewrite Hpath, Hfs. destruct (is_IOError e); reflexivity.
Qed.

(** X3.  A depth or normals file that cannot be read ends
    [prepareOneInput] after that one read: an [IOError] is replaced by an
    exception whose message is the fixed text followed by the path handed
    to [np.load]; any other exception of [np.load] passes unchanged.  No
    other extension is tried. *)
Theorem unreadable_depth_or_normals (x1 : tensor) (totalidx : Z) (rot : bool)
    (t : list string) :
  (forall f e,
     use_depth self = true ->
     layer_path self dir_f1 batch_f1 i "depth"%string ".npy"%string = Ok f ->
     fs f = Err e ->
     prepareOneInput self fs x1 i batch_f1 dir_f1 totalidx rot t
     = (Err (if is_IOError e
             then Exception ("Could not read depth image " ++ f)%string else e),
        t ++ [f])) /\
  (forall st t1 f e,
     load_depth self fs i batch_f1 dir_f1 (x1, 0) t = (Ok st, t1) ->
     use_normals self = true ->
     layer_path self dir_f1 batch_f1 i "normal"%string ".npy"%string = Ok f ->
     fs f = Err e ->
     prepareOneInput self fs x1 i batch_f1 dir_f1 totalidx rot t
     = (Err (if is_IOError e
             then Exception ("Could not read normal image " ++ f)%string else e),
        t1 ++ [f])).
Proof.
  destruct (prepareOneInput_raises self fs i batch_f1 dir_f1 x1 totalidx rot t)
    as (Hd & Hn & _).
  split.
  - intros f e Hflag Hpath Hfs. apply Hd.
    apply load_depth_unreadable; assumption.
  - intros st t1 f e Hdepth Hflag Hpath Hfs. eapply Hn; [exact Hdepth|].
    apply load_normals_unreadable; assumption.
Qed.

(** X4.  The class probabilities are read from the [.npy] file; when that
    read raises an [IOError] the file with the same name and the extension
    [.npz] is read and decides alone: its array is stored, or its
    exception is the one raised.  When the [.npy] file loads, the [.npz]
    file is not read; an exception of the first read that is not an
    [IOError] passes unchanged. *)
Theorem probabilities_second_extension (st : tensor * Z) (t : list string) f :
  use_class_probabilities self = true ->
  layer_path self dir_f1 batch_f1 i (probability_kind self) ".npy"%string = Ok f ->
  exists stem,
    f = (stem ++ ".npy")%string /\
    (forall img,
       fs f = Ok img ->
       load_probabilities self fs i batch_f1 dir_f1 st t
       = store_probabilities self i st img (t ++ [f]) /\
       snd (load_probabilities self fs i batch_f1 dir_f1 st t) = t ++ [f]) /\
    (forall e,
       fs f = Err e -> is_IOError e = true ->
       load_probabilities self fs i batch_f1 dir_f1 st t
       = match fs (stem ++ ".npz")%string with
         | Ok img => store_probabilities self i st img (t ++ [f; (stem ++ ".npz")%string])
         | Err e' => (Err e', t ++ [f; (stem ++ ".npz")%string])
         end) /\
    (forall e,
       fs f = Err e -> is_IOError e = false ->
       load_probabilities self fs i batch_f1 dir_f1 st t = (Err e, t ++ [f])).
Proof.
  intros Hflag Hpath.
  destruct (layer_path_stem self dir_f1 batch_f1 i _ f Hpath) as (stem & Hf & Hpath').
  exists stem. split; [exact Hf|]. split; [|split].
  - intros img Hfs. split.
    + apply load_probabilities_primary; assumption.
    + eapply load_probabilities_primary_reads; eassumption.
  - intros e Hfs He.
    apply (load_probabilities_fallback self fs i batch_f1 dir_f1 st t f _ e);
      assumption.
  - intros e Hfs He. unfold load_probabilities. rewrite Hflag.
    fold (probability_kind self). unfold bind at 1. unfold lift at 1. rewrite Hpath.
    unfold try_except_IOError, bind, np_load. rewrite Hfs, He. reflexivity.
Qed.

(** X5.  The intensity is read in the same way: the [.npy] file first and,
    on an [IOError], the [.npz] file of the same name, whose array is
    stored at the current channel or whose exception is raised. *)
Theorem intensity_second_extension (x1 : tensor) (c : Z) (t : list string) f :
  use_intensity self = true ->
  layer_path self dir_f1 batch_f1 i "intensity"%string ".npy"%string = Ok f ->
  exists stem,
    f = (stem ++ ".npy")%string /\
    (forall img,
       fs f = Ok img ->
       load_intensity self fs i batch_f1 dir_f1 (x1, c) t
       = (match set_channel x1 i c img with
          | Ok x1' => Ok (x1', c + 1)
          | Err e => Err e
          end, t ++ [f])) /\
    (forall e,
       fs f = Err e -> is_IOError e = true ->
       load_intensity self fs i batch_f1 dir_f1 (x1, c) t
       = (match fs (stem ++ ".npz")%string with
          | Ok img => match set_channel x1 i c img with
                      | Ok x1' => Ok (x1', c + 1)
                      | Err e => Err e
                      end
          | Err e' => Err e'
          end, t ++ [f; (stem ++ ".npz")%string])) /\
    (forall e,
       fs f = Err e -> is_IOError e = false ->
       load_intensity self fs i batch_f1 dir_f1 (x1, c) t = (Err e, t ++ [f])).
Proof.
  intros Hflag Hpath.
  destruct (layer_path_stem self dir_f1 batch_f1 i _ f Hpath) as (stem & Hf & Hpath').
  exists stem. split; [exact Hf|]. split; [|split].
  - intros img Hfs. apply load_intensity_primary; assumption.
  - intros e Hfs He.
    apply (load_intensity_fallback self fs i batch_f1 dir_f1 x1 c t f _ e); assumption.
  - intros e Hfs He. unfold load_intensity. rewrite Hflag.
    unfold bind, lift, try_except_IOError, np_load. rewrite Hpath, Hfs, He.
    reflexivity.
Qed.

End Unreadable.

Local Open Scope string_scope.

(** A blank input tensor for one scan of 1 x 2 pixels and 8 channels. *)
Definition blank : Dense.tensor :=
  Eval vm_compute in
    match Dense.zeros4 1 1 2 8 with
    | Ok z => z
    | Err _ => Dense.mkTensor (0, 0, 0, 0) []
    end.

(** A disk with nothing on it. *)
Definition empty_disk : filesystem (H := DenseImages) :=
  fun _ => Err (IOError "No such file or directory").

Lemma unreadable_depth_or_normals_witness :
  (use_depth layered = true /\
   layer_path layered ["s"] ["a0"] 0 "depth" ".npy"
   = Ok "data/s/depth/a0.npy" /\
   empty_disk "data/s/depth/a0.npy" = Err (IOError "No such file or directory") /\
   prepareOneInput (NP := DenseImages) layered empty_disk blank 0
     ["a0"] ["s"] 0 false []
   = (Err (Exception "Could not read depth image data/s/depth/a0.npy"),
      ["data/s/depth/a0.npy"])) /\
  (exists st t1,
     load_depth (NP := DenseImages) layered disk_depth_only 0
       ["a0"] ["s"] (blank, 0) [] = (Ok st, t1) /\
     use_normals layered = true /\
     layer_path layered ["s"] ["a0"] 0 "normal" ".npy"
     = Ok "data/s/normal/a0.npy" /\
     disk_depth_only "data/s/normal/a0.npy" = Err (IOError "No such file or directory") /\
     prepareOneInput (NP := DenseImages) layered disk_depth_only blank 0
       ["a0"] ["s"] 0 false []
     = (Err (Exception "Could not read normal image data/s/normal/a0.npy"),
        ["data/s/depth/a0.npy"; "data/s/normal/a0.npy"])).
Proof.
  split.
  - split; [reflexivity|]. split; [reflexivity|]. split; [reflexivity|].
    exact (proj1 (unreadable_depth_or_normals (NP := DenseImages) layered empty_disk 0
                    ["a0"] ["s"] blank 0 false [])
                 "data/s/depth/a0.npy" (IOError "No such file or directory")
                 eq_refl eq_refl eq_refl).
  - assert (Hd : exists st t1,
               load_depth (NP := DenseImages) layered disk_depth_only 0
                 ["a0"] ["s"] (blank, 0) [] = (Ok st, t1))
      by (eexists; eexists; vm_compute; reflexivity).
    destruct Hd as (st & t1 & Hd). exists st, t1.
    split; [exact Hd|]. split; [reflexivity|]. split; [reflexivity|].
    split; [reflexivity|].
    pose proof (proj2 (unreadable_depth_or_normals (NP := DenseImages) layered
                         disk_depth_only 0 ["a0"] ["s"] blank 0 false [])
                      st t1 "data/s/normal/a0.npy"
                      (IOError "No such file or directory")
                      Hd eq_refl eq_refl eq_refl) as H.
    rewrite H. vm_compute in Hd. injection Hd as _ <-. reflexivity.
Defined.

Lemma probabilities_second_extension_witness :
  use_class_probabilities layered = true /\
  layer_path layered ["s"] ["a0"] 0 (probability_kind layered) ".npy"
  = Ok "data/s/probability_pca/a0.npy" /\
  disk_second_extension "data/s/probability_pca/a0.npy"
  = Err (IOError "No such file or directory") /\
  exists stem,
    "data/s/probability_pca/a0.npy" = (stem ++ ".npy")%string /\
    load_probabilities (NP := DenseImages) layered disk_second_extension 0
      ["a0"] ["s"] (blank, 4) []
    = match disk_second_extension (stem ++ ".npz")%string with
      | Ok img =>
          store_probabilities (NP := DenseImages) layered 0 (blank, 4) img
            ([] ++ ["data/s/probability_pca/a0.npy"; (stem ++ ".npz")%string])%list
      | Err e' =>
          (Err e', ([] ++ ["data/s/probability_pca/a0.npy"; (stem ++ ".npz")%string])%list)
      end.
Proof.
  split; [reflexivity|]. split; [reflexivity|]. split; [reflexivity|].
  destruct (probabilities_second_extension (NP := DenseImages) layered
              disk_second_extension 0 ["a0"] ["s"] (blank, 4) []
              "data/s/probability_pca/a0.npy" eq_refl eq_refl)
    as (stem & Hf & _ & Hsecond & _).
  exists stem. split; [exact Hf|].
  exact (Hsecond (IOError "No such file or directory") eq_refl eq_refl).
Defined.

Lemma intensity_second_extension_witness :
  use_intensity layered = true /\
  layer_path layered ["s"] ["a0"] 0 "intensity" ".npy"
  = Ok "data/s/intensity/a0.npy" /\
  disk_second_extension "data/s/intensity/a0.npy"
  = Err (IOError "No such file or directory") /\
  exists stem,
    "data/s/intensity/a0.npy" = (stem ++ ".npy")%string /\
    load_intensity (NP := DenseImages) layered disk_second_extension 0
      ["a0"] ["s"] (blank, 7) []
    = (match disk_second_extension (stem ++ ".npz")%string with
       | Ok img => match set_channel (NumpyImages := DenseImages) blank 0 7 img with
                   | Ok x1' => Ok (x1', 7 + 1)
                   | Err e => Err e
                   end
       | Err e' => Err e'
       end, ([] ++ ["data/s/intensity/a0.npy"; (stem ++ ".npz")%string])%list).
Proof.
  split; [reflexivity|]. split; [reflexivity|]. split; [reflexivity|].
  destruct (intensity_second_extension (NP := DenseImages) layered
              disk_second_extension 0 ["a0"] ["s"] blank 7 []
              "data/s/intensity/a0.npy" eq_refl eq_refl)
    as (stem & Hf & _ & Hsecond & _).
  exists stem. split; [exact Hf|].
  exact (Hsecond (IOError "No such file or directory") eq_refl eq_refl).
Defined.

(** With every layer on, the scan is assembled from the four files, two of
    them under the second extension. *)
Example layered_scan_assembled :
  prepareOneInput (NP := DenseImages) layered disk_second_extension blank 0
    ["a0"] ["s"] 0 false []
  = (Ok (Dense.mkTensor (1, 1, 2, 8)
           [[[[1; 3; 4; 5; 9; 10; 11; 15]; [2; 6; 7; 8; 12; 13; 14; 16]]]]%Q),
     ["data/s/depth/a0.npy"; "data/s/normal/a0.npy";
      "data/s/probability_pca/a0.npy"; "data/s/probability_pca/a0.npz";
      "data/s/intensity/a0.npy"; "data/s/intensity/a0.npz"]).
Proof. vm_compute. reflexivity. Qed.

(** Assignment broadcasts: a single depth value fills the channel of both
    pixels, and one normal is repeated along the row.  The positions are
    resolved before the value is looked at, and an archive is refused. *)
Example dense_assignment_broadcasts :
  Dense.set_channel blank 0 0 (Dense.Array2 [[5]]%Q)
  = Ok (Dense.mkTensor (1, 1, 2, 8)
          [[[[5; 0; 0; 0; 0; 0; 0; 0]; [5; 0; 0; 0; 0; 0; 0; 0]]]]%Q) /\
  Dense.set_channels blank 0 1 4 (Dense.Array2 [[3; 4; 5]]%Q)
  = Ok (Dense.mkTensor (1, 1, 2, 8)
          [[[[0; 3; 4; 5; 0; 0; 0; 0]; [0; 3; 4; 5; 0; 0; 0; 0]]]]%Q) /\
  Dense.set_channel blank 0 0 (Dense.Array3 [[[1; 2]]]%Q)
  = Ok (Dense.mkTensor (1, 1, 2, 8)
          [[[[1; 0; 0; 0; 0; 0; 0; 0]; [2; 0; 0; 0; 0; 0; 0; 0]]]]%Q) /\
  Dense.set_channel blank 0 0 (Dense.Array2 [[1; 2; 3]]%Q) = Err ValueError /\
  Dense.set_channel blank 0 0 Dense.NpzFile = Err ValueError /\
  Dense.set_channels blank 0 1 4 Dense.NpzFile = Err ValueError /\
  Dense.set_channel blank 1 0 Dense.NpzFile = Err IndexError /\
  Dense.set_channel blank 0 8 (Dense.Array2 [[1; 2; 3]]%Q) = Err IndexError.
Proof. repeat split. Qed.

Local Close Scope string_scope.

(* ================================================================== *)
(** ** A failed sample fails the batch *)

Section Propagation.

Context {RG : PyRandom} {NP : NumpyImages}.

Lemma for_each_app {S} (body : Z -> S -> IO S) (l1 l2 : list Z) : forall s t,
  for_each (l1 ++ l2) body s t
  = match for_each l1 body s t with
    | (Ok s1, t1) => for_each l2 body s1 t1
    | (Err e, t1) => (Err e, t1)
    end.
Proof.
  induction l1 as [|i l1 IH]; intros s t; cbn [for_each app].
  - reflexivity.
  - unfold bind. destruct (body i s t) as [[s1|e] t1]; [apply IH|reflexivity].
Qed.

Lemma range_split (k size : Z) :
  0 <= k < size -> exists rest, range size = range k ++ k :: rest.
Proof.
  intros H. unfold range.
  replace (Z.to_nat size) with (Z.to_nat k + S (Z.to_nat size - Z.to_nat k - 1))%nat by lia.
  rewrite seq_app, map_app. cbn [seq map Nat.add].
  rewrite Z2Nat.id by lia. eauto.
Qed.

(** X6.  The first sample of a batch whose preparation raises decides the
    call: once the rounds before it have passed, [__getitem__] raises the
    exception of that round and reads no file after it.  The round of a
    sample raises what [prepareOneInput] raises for its first leg. *)
Theorem failing_sample_ends_batch (self : Sequence) (g : rng) (fs : filesystem)
    (idx : Z) s' g' z k s1 t1 e t2 :
  renew_rotation self g idx = Ok (s', g') ->
  np_zeros4 (snd (batch_bounds s' idx)) (height s') (width s') (no_channels s') = Ok z ->
  0 <= k < snd (batch_bounds s' idx) ->
  for_each (range k) (fill_one s' fs idx)
    (z, if truthy (imgfilenames2 s') then Some z else None) [] = (Ok s1, t1) ->
  fill_one s' fs idx k s1 t1 = (Err e, t2) ->
  value (__getitem__ self g fs idx) = Err e /\
  reads (__getitem__ self g fs idx) = t2 /\
  (forall x1 x2 i t e' t',
     prepareOneInput s' fs x1 i (batch_slice s' idx (imgfilenames1 s'))
       (batch_slice s' idx (dir1 s')) 0 false t = (Err e', t') ->
     fill_one s' fs idx i (x1, x2) t = (Err e', t')).
Proof.
  intros Hrenew Hz Hk Hbefore Hround.
  assert (Hfill : run (fill_inputs s' fs idx) = (Err e, t2)).
  { unfold run, fill_inputs, bind, lift, ret. rewrite Hz.
    destruct (range_split k _ Hk) as (rest & ->).
    destruct (truthy (imgfilenames2 s')); rewrite for_each_app, Hbefore;
      cbn [for_each]; unfold bind; rewrite Hround; reflexivity. }
  split; [|split].
  - unfold __getitem__. rewrite Hrenew. unfold run in *.
    unfold assemble, bind. rewrite Hfill. reflexivity.
  - unfold __getitem__. rewrite Hrenew. unfold run in *.
    unfold assemble, bind. rewrite Hfill. reflexivity.
  - intros x1 x2 i t e' t' H. unfold fill_one, bind. rewrite H. reflexivity.
Qed.

End Propagation.

Local Open Scope string_scope.

Lemma failing_sample_ends_batch_witness :
  exists z s1,
    renew_rotation (RG := MersenneTwister) wrapped [] 0 = Ok (wrapped, []) /\
    np_zeros4 (NumpyImages := DenseImages) (snd (batch_bounds wrapped 0))
      (height wrapped) (width wrapped) (no_channels wrapped) = Ok z /\
    0 <= 1 < snd (batch_bounds wrapped 0) /\
    for_each (range 1) (fill_one (NP := DenseImages) wrapped disk_without_a1 0)
      (z, if truthy (imgfilenames2 wrapped) then Some z else None) []
    = (Ok s1, ["data/s/depth/a0.npy"]) /\
    fill_one (NP := DenseImages) wrapped disk_without_a1 0 1 s1 ["data/s/depth/a0.npy"]
    = (Err (Exception "Could not read depth image data/s/depth/a1.npy"),
       ["data/s/depth/a0.npy"; "data/s/depth/a1.npy"]) /\
    value (__getitem__ (RG := MersenneTwister) (NP := DenseImages)
             wrapped [] disk_without_a1 0)
    = Err (Exception "Could not read depth image data/s/depth/a1.npy") /\
    reads (__getitem__ (RG := MersenneTwister) (NP := DenseImages)
             wrapped [] disk_without_a1 0)
    = ["data/s/depth/a0.npy"; "data/s/depth/a1.npy"].
Proof.
  assert (Hz : exists z,
             np_zeros4 (NumpyImages := DenseImages) (snd (batch_bounds wrapped 0))
               (height wrapped) (width wrapped) (no_channels wrapped) = Ok z)
    by (eexists; vm_compute; reflexivity).
  destruct Hz as (z & Hz).
  assert (Hb : exists s1,
             for_each (range 1) (fill_one (NP := DenseImages) wrapped disk_without_a1 0)
               (z, if truthy (imgfilenames2 wrapped) then Some z else None) []
             = (Ok s1, ["data/s/depth/a0.npy"])).
  { vm_compute in Hz. injection Hz as <-. eexists. vm_compute. reflexivity. }
  destruct Hb as (s1 & Hb).
  assert (Hr : fill_one (NP := DenseImages) wrapped disk_without_a1 0 1 s1
                 ["data/s/depth/a0.npy"]
               = (Err (Exception "Could not read depth image data/s/depth/a1.npy"),
                  ["data/s/depth/a0.npy"; "data/s/depth/a1.npy"])).
  { vm_compute in Hz. injection Hz as <-. vm_compute in Hb. injection Hb as <-.
    vm_compute. reflexivity. }
  assert (Hrenew : renew_rotation (RG := MersenneTwister) wrapped [] 0 = Ok (wrapped, []))
    by reflexivity.
  assert (Hk : 0 <= 1 < snd (batch_bounds wrapped 0)) by (cbn; lia).
  exists z, s1. split; [exact Hrenew|]. split; [exact Hz|]. split; [exact Hk|].
  split; [exact Hb|]. split; [exact Hr|].
  destruct (failing_sample_ends_batch (RG := MersenneTwister) (NP := DenseImages)
              wrapped [] disk_without_a1 0 wrapped [] z 1 s1 _ _ _
              Hrenew Hz Hk Hb Hr) as (Hv & Hreads & _).
  split; [exact Hv|exact Hreads].
Defined.

Local Close Scope string_scope.

(* ================================================================== *)
(** ** Construction and length at the edges *)

Section Edges.

Context {RG : PyRandom} {NP : NumpyImages}.

(** X8.  Construction touches the generator of [random] only when
    [rotate_data > 0].  Otherwise the generator is left as it was, no
    schedule exists and rotation is off.  With [rotate_data > 0] the
    generator is seeded anew, so the object and the generator after the
    construction do not depend on the generator before it; rotation is on
    and the schedule has one entry for each overlap label. *)
Theorem construction_and_random
    image_path f1 f2 d1 d2 ov fa ori M bs h w c ud un ucp ucpp ui rd :
  (rd <= 0 ->
   forall g, exists self,
     __init__ image_path f1 f2 d1 d2 ov fa ori M bs h w c ud un ucp ucpp ui rd g
     = Ok (self, g) /\
     do_rotation self = false /\ random_rotate self = None) /\
  (rd > 0 ->
   (forall g1 g2,
      __init__ image_path f1 f2 d1 d2 ov fa ori M bs h w c ud un ucp ucpp ui rd g1
      = __init__ image_path f1 f2 d1 d2 ov fa ori M bs h w c ud un ucp ucpp ui rd g2) /\
   (forall g self g',
      __init__ image_path f1 f2 d1 d2 ov fa ori M bs h w c ud un ucp ucpp ui rd g
      = Ok (self, g') ->
      do_rotation self = true /\
      exists r, random_rotate self = Some r /\ len r = len ov)).
Proof.
  split.
  - intros Hrd g. unfold __init__.
    replace (rd >? 0) with false
      by (symmetry; destruct (Z.gtb_spec rd 0); [lia|reflexivity]).
    eexists. split; [reflexivity|]. split; reflexivity.
  - intros Hrd. unfold __init__.
    replace (rd >? 0) with true by (symmetry; apply Z.gtb_lt; lia).
    split; [reflexivity|].
    intros g self g'. unfold rbind.
    destruct (draw_random_rotate _ _) as [[r g1]|] eqn:E; [|discriminate].
    intros H. injection H as <- _. split; [reflexivity|].
    exists r. split; [reflexivity|].
    unfold draw_random_rotate in E. apply randint_list_spec in E as [Hl _].
    cbn [n] in Hl. unfold len in *. lia.
Qed.

(** X9.  A negative width makes a rotating generator impossible to build
    as soon as there is one sample: [random.randint(0, width)] raises
    [ValueError].  A width that is not negative never makes the
    construction fail. *)
Theorem construction_needs_width
    image_path f1 f2 d1 d2 ov fa ori M bs h w c ud un ucp ucpp ui rd g :
  (rd > 0 -> w < 0 -> ov <> [] ->
   __init__ image_path f1 f2 d1 d2 ov fa ori M bs h w c ud un ucp ucpp ui rd g
   = Err ValueError) /\
  (0 <= w ->
   exists self g',
     __init__ image_path f1 f2 d1 d2 ov fa ori M bs h w c ud un ucp ucpp ui rd g
     = Ok (self, g')).
Proof.
  split.
  - intros Hrd Hw Hov. unfold __init__.
    replace (rd >? 0) with true by (symmetry; apply Z.gtb_lt; lia).
    unfold draw_random_rotate. cbn [n width].
    destruct ov as [|o ov']; [contradiction|].
    unfold len. cbn [List.length]. rewrite Nat2Z.id. cbn [randint_list].
    rewrite randint_empty by lia. reflexivity.
  - intros Hw. unfold __init__. destruct (rd >? 0); [|eauto].
    unfold draw_random_rotate. cbn [n width].
    destruct (randint_list_total (Z.to_nat (len ov)) 0 w (random_seed 1234) Hw)
      as (r & g' & ->).
    cbn [rbind]. eauto.
Qed.

(** X10.  With fewer than [2^53] samples, [__len__] raises
    [ZeroDivisionError] for a batch size of 0, and for a positive batch
    size below [2^53] the float expression
    [int(np.ceil(n / float(batch_size)))] is the integer quotient
    [(n + batch_size - 1) / batch_size] rounded down: 0 for an empty
    dataset, [k] for [k] full batches, [k + 1] when samples are left
    over.  A batch size of [2^1024] or more is no float: [__len__] raises
    [OverflowError]. *)
Theorem len_integer_formula (self : Sequence) :
  (0 <= n self < 2 ^ 53 -> batch_size self = 0 ->
   __len__ self = Err ZeroDivisionError) /\
  (0 <= n self < 2 ^ 53 -> 1 <= batch_size self < 2 ^ 53 ->
   __len__ self = Ok ((n self + batch_size self - 1) / batch_size self) /\
   (n self = 0 -> __len__ self = Ok 0) /\
   (forall k r, n self = k * batch_size self + r -> 0 <= r < batch_size self ->
                __len__ self = Ok (if r =? 0 then k else k + 1))) /\
  (2 ^ 1024 <= batch_size self -> __len__ self = Err OverflowError).
Proof.
  split; [|split].
  - intros Hn H. unfold __len__. rewrite H.
    change (Float64.of_int 0) with (Ok (A := Float64.t) (0, 0)). cbn [rbind].
    destruct (Z.eq_dec (n self) 0) as [->|Hn0].
    + reflexivity.
    + rewrite of_int_small by lia. reflexivity.
  - intros Hn Hb.
    destruct (len_is_ceiling self Hn Hb) as (L & HL & HL1 & HL2).
    assert (HLq : L = (n self + batch_size self - 1) / batch_size self).
    { apply Z.div_unique with (r := n self + batch_size self - 1 - batch_size self * L);
        lia. }
    split; [rewrite HL; f_equal; exact HLq|]. split.
    + intros Hn0. rewrite HL. f_equal. nia.
    + intros k r Hnk Hr. rewrite HL. f_equal.
      destruct (Z.eqb_spec r 0); nia.
  - intros Hb. unfold __len__. rewrite of_int_overflow by exact Hb. reflexivity.
Qed.

End Edges.

Lemma construction_and_random_witness :
  0 <= 0 /\
  (exists self,
     three_scans [3; 0; 1]%Q = Ok (self, []) /\
     do_rotation self = false /\ random_rotate self = None) /\
  1 > 0 /\
  three_pairs 1
  = __init__ (RG := MersenneTwister)
      "data" ["a0"; "a1"; "a2"]%string ["b0"; "b1"; "b2"]%string
      ["s"; "s"; "s"]%string ["s"; "s"; "s"]%string
      [1#2; 1#3; 1#4]%Q [7#10; 1#10; 2#10]%Q [3; 0; 1]%Q
      10 2 1 7 1 true false false false false 1 fixed_rng /\
  do_rotation fixed = true /\
  exists r, random_rotate fixed = Some r /\ len r = 3.
Proof.
  assert (H0 : 0 <= 0) by lia.
  assert (H1 : 1 > 0) by lia.
  split; [exact H0|]. split.
  - exact (proj1 (construction_and_random (RG := MersenneTwister)
                    "data" ["a0"; "a1"; "a2"]%string [] ["s"; "s"; "s"]%string []
                    [1#2; 1#3; 1#4]%Q [7#10; 1#10; 2#10]%Q [3; 0; 1]%Q
                    3 2 1 7 1 true false false false false 0) H0 []).
  - split; [exact H1|].
    destruct (proj2 (construction_and_random (RG := MersenneTwister)
                       "data" ["a0"; "a1"; "a2"]%string ["b0"; "b1"; "b2"]%string
                       ["s"; "s"; "s"]%string ["s"; "s"; "s"]%string
                       [1#2; 1#3; 1#4]%Q [7#10; 1#10; 2#10]%Q [3; 0; 1]%Q
                       10 2 1 7 1 true false false false false 1) H1) as [Hsame Hsched].
    split; [exact (Hsame [] fixed_rng)|].
    exact (Hsched [] fixed fixed_rng three_pairs_fixed).
Defined.

Lemma construction_needs_width_witness :
  1 > 0 /\ -1 < 0 /\ [1#2]%Q <> [] /\
  __init__ (RG := MersenneTwister) "data" ["a0"]%string [] ["s"]%string []
    [1#2]%Q [7#10]%Q [3]%Q 10 1 1 (-1) 1 true false false false false 1 []
  = Err ValueError /\
  0 <= 7 /\
  exists self g',
    __init__ (RG := MersenneTwister) "data" ["a0"]%string [] ["s"]%string []
      [1#2]%Q [7#10]%Q [3]%Q 10 1 1 7 1 true false false false false 1 []
    = Ok (self, g').
Proof.
  assert (H1 : 1 > 0) by lia.
  assert (Hn : -1 < 0) by lia.
  assert (Hov : [1#2]%Q <> []) by discriminate.
  assert (H7 : 0 <= 7) by lia.
  split; [exact H1|]. split; [exact Hn|]. split; [exact Hov|]. split.
  - exact (proj1 (construction_needs_width (RG := MersenneTwister)
                    "data" ["a0"]%string [] ["s"]%string []
                    [1#2]%Q [7#10]%Q [3]%Q 10 1 1 (-1) 1
                    true false false false false 1 []) H1 Hn Hov).
  - split; [exact H7|].
    exact (proj2 (construction_needs_width (RG := MersenneTwister)
                    "data" ["a0"]%string [] ["s"]%string []
                    [1#2]%Q [7#10]%Q [3]%Q 10 1 1 7 1
                    true false false false false 1 []) H7).
Defined.

Lemma len_integer_formula_witness :
  0 <= n five_pairs < 2 ^ 53 /\ 1 <= batch_size five_pairs < 2 ^ 53 /\
  __len__ five_pairs = Ok ((n five_pairs + batch_size five_pairs - 1) / batch_size five_pairs) /\
  n five_pairs = 2 * batch_size five_pairs + 1 /\ 0 <= 1 < batch_size five_pairs /\
  __len__ five_pairs = Ok (if 1 =? 0 then 2 else 2 + 1) /\
  2 ^ 1024 <= batch_size huge_batches /\
  __len__ huge_batches = Err OverflowError.
Proof.
  assert (Hn5 : 0 <= n five_pairs < 2 ^ 53) by (cbn; lia).
  assert (Hb : 1 <= batch_size five_pairs < 2 ^ 53) by (cbn; lia).
  assert (Hn : n five_pairs = 2 * batch_size five_pairs + 1) by reflexivity.
  assert (Hr : 0 <= 1 < batch_size five_pairs) by (cbn; lia).
  assert (Hh : 2 ^ 1024 <= batch_size huge_batches)
    by (apply Z.leb_le; vm_compute; reflexivity).
  destruct (proj1 (proj2 (len_integer_formula five_pairs)) Hn5 Hb) as (Hq & _ & Hk).
  split; [exact Hn5|]. split; [exact Hb|]. split; [exact Hq|]. split; [exact Hn|].
  split; [exact Hr|]. split; [exact (Hk 2 1 Hn Hr)|]. split; [exact Hh|].
  exact (proj2 (proj2 (len_integer_formula huge_batches)) Hh).
Defined.

(* ================================================================== *)
(** ** More on the target array *)

Section TargetShape.

Context {RG : PyRandom} {NP : NumpyImages}.

Lemma rows_total (row : Z -> result (list Q)) (l : list Z) :
  (forall idx, In idx l -> exists r, row idx = Ok r) ->
  exists y, rows row l = Ok y.
Proof.
  induction l as [|idx l IH]; intros H; cbn [rows]; [eauto|].
  destruct (H idx (or_introl eq_refl)) as (r & ->).
  destruct IH as (y & ->); [intros; apply H; now right|].
  cbn [rbind]. eauto.
Qed.

Lemma in_range (k j : Z) : In j (range k) <-> 0 <= j < k.
Proof.
  unfold range. rewrite in_map_iff. split.
  - intros (a & <- & Ha). apply in_seq in Ha. lia.
  - intros H. exists (Z.to_nat j). split; [lia|]. apply in_seq. lia.
Qed.

Lemma target_row_length (self : Sequence) (fa ori : list Q) (j : Z) row :
  target_row self fa ori j = Ok row -> len row = network_output_size self.
Proof.
  unfold target_row, np_zeros, rbind.
  destruct (network_output_size self <? 0) eqn:EM; [discriminate|].
  apply Z.ltb_ge in EM.
  destruct (getitem fa j); [|discriminate].
  destruct (getitem ori j); [|discriminate].
  unfold setitem. destruct (norm_index _ _); [|discriminate].
  intros H. injection H as <-. unfold len.
  rewrite length_update, repeat_length. lia.
Qed.

Lemma target_array_length (self : Sequence) (idx : Z) y :
  target_array self idx = Ok y ->
  len y = len (batch_slice self idx (overlap self)).
Proof.
  intros Hy. unfold target_array in Hy. apply rows_ok in Hy.
  apply Forall2_nth_error in Hy as [Hlen _]. unfold len at 1. rewrite <- Hlen.
  unfold range. rewrite length_map, length_seq. unfold len. lia.
Qed.

(** X11.  The array [y] has one row for each overlap label of the batch
    and every row has [network_output_size] entries.  It is built
    whenever the size is not negative and every sample of the batch has a
    function angle and an orientation whose integer part lies in
    [-M, M). *)
Theorem target_array_shape (self : Sequence) (idx : Z) :
  (forall y, target_array self idx = Ok y ->
     len y = len (batch_slice self idx (overlap self)) /\
     Forall (fun row => len row = network_output_size self) y) /\
  (0 <= network_output_size self ->
   (forall j, 0 <= j < len (batch_slice self idx (overlap self)) ->
      (exists v, getitem (batch_slice self idx (function_angle self)) j = Ok v) /\
      (exists o, getitem (batch_slice self idx (orientation self)) j = Ok o /\
                 - network_output_size self <= int_of_float o
                 < network_output_size self)) ->
   exists y, target_array self idx = Ok y).
Proof.
  split.
  - intros y Hy. split; [apply target_array_length; exact Hy|].
    unfold target_array in Hy. apply rows_ok in Hy.
    induction Hy as [|a row l y' Hrow _ IH]; constructor; [|exact IH].
    eapply target_row_length; exact Hrow.
  - intros HM Hall. unfold target_array. apply rows_total.
    intros j Hj. apply in_range in Hj.
    destruct (Hall j Hj) as ((v & Hv) & (o & Ho & Hk)).
    unfold target_row, np_zeros, rbind. rewrite Hv, Ho.
    replace (network_output_size self <? 0) with false by (symmetry; apply Z.ltb_ge; lia).
    unfold setitem, len. rewrite repeat_length, Z2Nat.id by lia.
    unfold norm_index.
    destruct ((0 <=? int_of_float o) && (int_of_float o <? network_output_size self))
      eqn:E1; [eauto|].
    replace ((- network_output_size self <=? int_of_float o) && (int_of_float o <? 0))
      with true; [eauto|].
    symmetry. apply andb_true_iff. split; [apply Z.leb_le; lia|].
    apply Z.ltb_lt. apply andb_false_iff in E1 as [E1|E1].
    + apply Z.leb_gt in E1. lia.
    + apply Z.ltb_ge in E1. lia.
Qed.

(** X12.  An orientation whose integer part [k] lies in [-M, 0) is
    counted from the end of the row: the function angle of the sample is
    stored at position [M + k], every other entry of the row is zero. *)
Theorem negative_orientation_counts_from_end
    (self : Sequence) (idx j : Z) (o v : Q) (y : list (list Q)) :
  target_array self idx = Ok y ->
  0 <= j < len (batch_slice self idx (overlap self)) ->
  getitem (batch_slice self idx (orientation self)) j = Ok o ->
  getitem (batch_slice self idx (function_angle self)) j = Ok v ->
  - network_output_size self <= int_of_float o < 0 ->
  exists row,
    getitem y j = Ok row /\
    getitem row (network_output_size self + int_of_float o) = Ok v /\
    forall p, 0 <= p < network_output_size self ->
              p <> network_output_size self + int_of_float o ->
              getitem row p = Ok 0%Q.
Proof.
  intros Hy Hj Ho Hv Hk.
  pose proof (target_array_length self idx y Hy) as Hlen.
  unfold target_array in Hy. apply rows_ok in Hy.
  apply Forall2_nth_error in Hy as [_ Hnth].
  destruct (getitem_inside (range (len (batch_slice self idx (overlap self)))) j)
    as (a & Ha & Hna).
  { unfold range, len at 1. rewrite length_map, length_seq. lia. }
  rewrite getitem_range in Ha by assumption. injection Ha as <-.
  destruct (Hnth _ _ Hna) as (row & Hrow & Htr).
  exists row. split.
  { unfold getitem. rewrite norm_index_inside by lia. now rewrite Hrow. }
  unfold target_row, np_zeros, rbind in Htr. rewrite Hv, Ho in Htr.
  assert (HM : 0 < network_output_size self) by lia.
  replace (network_output_size self <? 0) with false in Htr
    by (symmetry; apply Z.ltb_ge; lia).
  unfold setitem, len in Htr. rewrite repeat_length, Z2Nat.id in Htr by lia.
  unfold norm_index in Htr.
  replace ((0 <=? int_of_float o) && (int_of_float o <? network_output_size self))
    with false in Htr
    by (symmetry; apply andb_false_iff; left; apply Z.leb_gt; lia).
  replace ((- network_output_size self <=? int_of_float o) && (int_of_float o <? 0))
    with true in Htr
    by (symmetry; apply andb_true_iff; split; [apply Z.leb_le|apply Z.ltb_lt]; lia).
  injection Htr as <-.
  rewrite (Z.add_comm (int_of_float o)).
  set (k := network_output_size self + int_of_float o).
  assert (Hkr : 0 <= k < network_output_size self) by (unfold k; lia).
  assert (Hl : len (update (repeat 0%Q (Z.to_nat (network_output_size self)))
                      (Z.to_nat k) v) = network_output_size self).
  { unfold len. rewrite length_update, repeat_length. lia. }
  split.
  - unfold getitem. rewrite Hl, norm_index_inside by assumption.
    rewrite nth_error_update_same; [reflexivity|]. rewrite repeat_length. lia.
  - intros p Hp Hne. unfold getitem. rewrite Hl, norm_index_inside by assumption.
    rewrite nth_error_update_other by lia.
    rewrite nth_error_repeat; [reflexivity|lia].
Qed.

(** X13.  The label arrays are not compared at construction.  When the
    function angle or the orientation array ends before the overlap array
    does inside a batch, building [y] raises [IndexError] (for a size
    that is not negative), and so does [__getitem__] once the inputs were
    read. *)
Theorem short_label_array_raises (self : Sequence) (idx j : Z) :
  0 <= network_output_size self ->
  0 <= j < len (batch_slice self idx (overlap self)) ->
  len (batch_slice self idx (function_angle self)) <= j \/
  len (batch_slice self idx (orientation self)) <= j ->
  target_array self idx = Err IndexError /\
  (forall g fs s' g' x t,
     renew_rotation self g idx = Ok (s', g') ->
     run (fill_inputs s' fs idx) = (Ok x, t) ->
     value (__getitem__ self g fs idx) = Err IndexError).
Proof.
  intros HM Hj Hshort.
  assert (Hrow : exists e,
             target_row self (batch_slice self idx (function_angle self))
               (batch_slice self idx (orientation self)) j = Err e).
  { unfold target_row, np_zeros, rbind.
    replace (network_output_size self <? 0) with false by (symmetry; apply Z.ltb_ge; lia).
    destruct Hshort as [H|H].
    - unfold getitem at 1. rewrite norm_index_outside by lia. eauto.
    - destruct (getitem (batch_slice self idx (function_angle self)) j); [|eauto].
      unfold getitem at 1. rewrite norm_index_outside by lia. eauto. }
  destruct Hrow as (e & He).
  assert (Hy : target_array self idx = Err IndexError).
  { unfold target_array.
    destruct (rows_err _ (range (len (batch_slice self idx (overlap self)))) j e
                (proj2 (in_range _ _) Hj) He) as (e' & He').
    rewrite He'. f_equal. eapply rows_error; eassumption. }
  split; [exact Hy|].
  intros g fs s' g' x t Hrenew Hfill. unfold __getitem__. rewrite Hrenew.
  apply renew_rotation_labels in Hrenew as (Ht & _ & _).
  unfold run in *. unfold assemble, bind, lift. rewrite Hfill, Ht, Hy. reflexivity.
Qed.

End TargetShape.

(** The three scans with a single orientation label. *)
Definition ragged : Sequence :=
  Eval vm_compute in fst (made (three_scans [0]%Q)).

Lemma target_array_shape_witness :
  0 <= network_output_size wrapped /\
  (forall j, 0 <= j < len (batch_slice wrapped 0 (overlap wrapped)) ->
     (exists v, getitem (batch_slice wrapped 0 (function_angle wrapped)) j = Ok v) /\
     (exists o, getitem (batch_slice wrapped 0 (orientation wrapped)) j = Ok o /\
                - network_output_size wrapped <= int_of_float o
                < network_output_size wrapped)) /\
  exists y,
    target_array wrapped 0 = Ok y /\
    len y = len (batch_slice wrapped 0 (overlap wrapped)) /\
    Forall (fun row => len row = network_output_size wrapped) y.
Proof.
  assert (HM : 0 <= network_output_size wrapped) by (cbn; lia).
  assert (Hall : forall j, 0 <= j < len (batch_slice wrapped 0 (overlap wrapped)) ->
             (exists v, getitem (batch_slice wrapped 0 (function_angle wrapped)) j = Ok v) /\
             (exists o, getitem (batch_slice wrapped 0 (orientation wrapped)) j = Ok o /\
                        - network_output_size wrapped <= int_of_float o
                        < network_output_size wrapped)).
  { intros j Hj. change (len (batch_slice wrapped 0 (overlap wrapped))) with 2 in Hj.
    assert (Hc : j = 0 \/ j = 1) by lia.
    destruct Hc as [-> | ->]; (split; [eexists; reflexivity|]);
      eexists; (split; [reflexivity|]); vm_compute; split; congruence. }
  split; [exact HM|]. split; [exact Hall|].
  destruct (proj2 (target_array_shape wrapped 0) HM Hall) as (y & Hy).
  exists y. split; [exact Hy|].
  exact (proj1 (target_array_shape wrapped 0) y Hy).
Defined.

Lemma negative_orientation_counts_from_end_witness :
  target_array wrapped 0 = Ok [[0; 0; 7 # 10]; [1 # 10; 0; 0]]%Q /\
  0 <= 0 < len (batch_slice wrapped 0 (overlap wrapped)) /\
  getitem (batch_slice wrapped 0 (orientation wrapped)) 0 = Ok (-1 # 1)%Q /\
  getitem (batch_slice wrapped 0 (function_angle wrapped)) 0 = Ok (7 # 10)%Q /\
  - network_output_size wrapped <= int_of_float (-1 # 1)%Q < 0 /\
  exists row,
    getitem [[0; 0; 7 # 10]; [1 # 10; 0; 0]]%Q 0 = Ok row /\
    getitem row (network_output_size wrapped + int_of_float (-1 # 1)%Q) = Ok (7 # 10)%Q /\
    forall p, 0 <= p < network_output_size wrapped ->
              p <> network_output_size wrapped + int_of_float (-1 # 1)%Q ->
              getitem row p = Ok 0%Q.
Proof.
  assert (Hy : target_array wrapped 0 = Ok [[0; 0; 7 # 10]; [1 # 10; 0; 0]]%Q)
    by (vm_compute; reflexivity).
  assert (Hj : 0 <= 0 < len (batch_slice wrapped 0 (overlap wrapped)))
    by (vm_compute; split; congruence).
  assert (Ho : getitem (batch_slice wrapped 0 (orientation wrapped)) 0 = Ok (-1 # 1)%Q)
    by reflexivity.
  assert (Hv : getitem (batch_slice wrapped 0 (function_angle wrapped)) 0 = Ok (7 # 10)%Q)
    by reflexivity.
  assert (Hk : - network_output_size wrapped <= int_of_float (-1 # 1)%Q < 0)
    by (vm_compute; split; congruence).
  split; [exact Hy|]. split; [exact Hj|]. split; [exact Ho|]. split; [exact Hv|].
  split; [exact Hk|].
  exact (negative_orientation_counts_from_end wrapped 0 0 _ _ _ Hy Hj Ho Hv Hk).
Defined.

Lemma short_label_array_raises_witness :
  0 <= network_output_size ragged /\
  0 <= 1 < len (batch_slice ragged 0 (overlap ragged)) /\
  len (batch_slice ragged 0 (orientation ragged)) <= 1 /\
  target_array ragged 0 = Err IndexError /\
  value (__getitem__ (RG := MersenneTwister) (NP := DenseImages) ragged [] disk 0)
  = Err IndexError.
Proof.
  assert (HM : 0 <= network_output_size ragged) by (cbn; lia).
  assert (Hj : 0 <= 1 < len (batch_slice ragged 0 (overlap ragged)))
    by (vm_compute; split; congruence).
  assert (Hs : len (batch_slice ragged 0 (orientation ragged)) <= 1)
    by (vm_compute; congruence).
  destruct (short_label_array_raises (RG := MersenneTwister) (NP := DenseImages)
              ragged 0 1 HM Hj (or_intror Hs)) as [Hy Hcall].
  split; [exact HM|]. split; [exact Hj|]. split; [exact Hs|]. split; [exact Hy|].
  assert (Hfill : exists x t,
             run (fill_inputs (NP := DenseImages) ragged disk 0) = (Ok x, t))
    by (eexists; eexists; vm_compute; reflexivity).
  destruct Hfill as (x & t & Hfill).
  exact (Hcall [] disk ragged [] x t eq_refl Hfill).
Defined.

(* ================================================================== *)
(** ** Batches at the edges *)

Section BatchEdges.

Context {RG : PyRandom} {NP : NumpyImages}.

(** What a redraw of the schedule leaves alone. *)
Lemma renew_rotation_frame (self : Sequence) (g : rng) (idx : Z) s' g' :
  renew_rotation self g idx = Ok (s', g') ->
  s' = self \/ exists r, s' = set_rotation self (do_rotation self) r.
Proof.
  unfold renew_rotation. destruct ((idx =? 0) && (rotate_data self =? 2)).
  - unfold rbind. destruct (draw_random_rotate self g) as [[r g1]|]; [|discriminate].
    intros H. injection H as <- _. right. eauto.
  - intros H. injection H as <- _. left. reflexivity.
Qed.

Lemma slice_past_end {A} (l : list A) (lo hi : Z) :
  len l <= lo -> slice l lo hi = [].
Proof.
  intros H. unfold slice, clamp.
  assert (0 <= len l) by (unfold len; lia).
  replace (lo <? 0) with false by (symmetry; apply Z.ltb_ge; lia).
  rewrite (Z.min_r lo) by lia.
  rewrite skipn_all2 by (unfold len; lia). apply firstn_nil.
Qed.

Lemma range_nonpositive (k : Z) : k <= 0 -> range k = [].
Proof. intros H. unfold range. now replace (Z.to_nat k) with 0%nat by lia. Qed.

(** X14.  An index past the last batch is not refused.  When
    [idx * batch_size] is at least [n] the batch is empty: the target
    array has no row and no file is read; if numpy builds the tensor of
    [n - idx * batch_size] samples, a generator with one leg returns it
    with the empty target array. *)
Theorem batch_past_the_end (self : Sequence) (idx : Z) :
  1 <= batch_size self -> n self = len (overlap self) ->
  n self <= idx * batch_size self ->
  snd (batch_bounds self idx) = n self - idx * batch_size self /\
  target_array self idx = Ok [] /\
  (forall g fs, reads (__getitem__ self g fs idx) = []) /\
  (forall g fs s' g' z,
     renew_rotation self g idx = Ok (s', g') ->
     np_zeros4 (n self - idx * batch_size self) (height self) (width self)
       (no_channels self) = Ok z ->
     truthy (imgfilenames2 self) = false ->
     value (__getitem__ self g fs idx) = Ok ([z], OneHead [])).
Proof.
  intros Hb Hn Hpast.
  assert (Hbounds : batch_bounds self idx = (n self, n self - idx * batch_size self)).
  { unfold batch_bounds.
    destruct (Z.gtb_spec ((idx + 1) * batch_size self) (n self)); [reflexivity|lia]. }
  assert (Hy : target_array self idx = Ok []).
  { unfold target_array, batch_slice.
    rewrite (slice_past_end (overlap self)) by lia. reflexivity. }
  assert (Hfill : forall s' fs,
             s' = self \/ (exists r, s' = set_rotation self (do_rotation self) r) ->
             fill_inputs s' fs idx []
             = (match np_zeros4 (n self - idx * batch_size self) (height self)
                        (width self) (no_channels self) with
                | Ok z => Ok (z, if truthy (imgfilenames2 self) then Some z else None)
                | Err e => Err e
                end, [])).
  { intros s' fs Hs'.
    assert (E : fill_inputs s' fs idx [] = fill_inputs self fs idx [] \/
                (batch_bounds s' idx = batch_bounds self idx /\
                 height s' = height self /\ width s' = width self /\
                 no_channels s' = no_channels self /\
                 imgfilenames2 s' = imgfilenames2 self)).
    { right. destruct Hs' as [->|[r ->]]; repeat split. }
    destruct E as [E|(E1 & E2 & E3 & E4 & E5)].
    - rewrite E. unfold fill_inputs, bind, lift, ret. rewrite Hbounds. cbn [snd].
      destruct (np_zeros4 _ _ _ _); [|reflexivity].
      rewrite range_nonpositive by lia.
      destruct (truthy (imgfilenames2 self)); reflexivity.
    - unfold fill_inputs, bind, lift, ret. rewrite E1, E2, E3, E4, E5, Hbounds.
      cbn [snd]. destruct (np_zeros4 _ _ _ _); [|reflexivity].
      rewrite range_nonpositive by lia.
      destruct (truthy (imgfilenames2 self)); reflexivity. }
  split; [rewrite Hbounds; reflexivity|]. split; [exact Hy|]. split.
  - intros g fs. unfold __getitem__.
    destruct (renew_rotation self g idx) as [[s' g']|] eqn:Hrenew; [|reflexivity].
    pose proof (renew_rotation_frame _ _ _ _ _ Hrenew) as Hs'.
    apply renew_rotation_labels in Hrenew as (Ht & _ & _).
    unfold run, assemble, bind, lift. rewrite (Hfill s' fs Hs'), Ht, Hy.
    destruct (np_zeros4 _ _ _ _); [|reflexivity].
    destruct (pack _ _ _ _); reflexivity.
  - intros g fs s' g' z Hrenew Hz Hleg. unfold __getitem__. rewrite Hrenew.
    pose proof (renew_rotation_frame _ _ _ _ _ Hrenew) as Hs'.
    apply renew_rotation_labels in Hrenew as (Ht & _ & _).
    unfold run, assemble, bind, lift. rewrite (Hfill s' fs Hs'), Ht, Hy, Hz, Hleg.
    reflexivity.
Qed.

(** X15.  When a layer is switched on, a sample whose directory name or
    file name is missing from the batch lists makes [prepareOneInput]
    raise [IndexError] before any file is read.  With every layer off and
    no rotation asked, nothing is read and the tensor is returned as it
    was. *)
Theorem missing_name_raises_before_reading (self : Sequence) (fs : filesystem)
    (x1 : tensor) (i : Z) (batch_f1 dir_f1 : list string) (totalidx : Z)
    (rot : bool) (t : list string) :
  (use_depth self || use_normals self || use_class_probabilities self
   || use_intensity self = true ->
   (exists e, getitem dir_f1 i = Err e) \/ (exists e, getitem batch_f1 i = Err e) ->
   prepareOneInput self fs x1 i batch_f1 dir_f1 totalidx rot t = (Err IndexError, t)) /\
  (use_depth self || use_normals self || use_class_probabilities self
   || use_intensity self = false ->
   prepareOneInput self fs x1 i batch_f1 dir_f1 totalidx false t = (Ok x1, t)).
Proof.
  split.
  - intros Hon Hmiss.
    assert (Hpath : forall kind ext,
               layer_path self dir_f1 batch_f1 i kind ext = Err IndexError).
    { intros kind ext. unfold layer_path, rbind.
      destruct Hmiss as [[e He]|[e He]].
      - rewrite He. f_equal. eapply getitem_error; exact He.
      - destruct (getitem dir_f1 i) eqn:Ed; [|f_equal; eapply getitem_error; exact Ed].
        rewrite He. f_equal. eapply getitem_error; exact He. }
    unfold prepareOneInput, load_depth, load_normals, load_probabilities,
      load_intensity, bind, lift, ret.
    destruct (use_depth self); [rewrite Hpath; reflexivity|].
    destruct (use_normals self); [rewrite Hpath; reflexivity|].
    destruct (use_class_probabilities self); [rewrite Hpath; reflexivity|].
    destruct (use_intensity self); [rewrite Hpath; reflexivity|].
    discriminate Hon.
  - intros Hoff.
    apply orb_false_iff in Hoff as [Hoff Hi].
    apply orb_false_iff in Hoff as [Hoff Hp].
    apply orb_false_iff in Hoff as [Hd Hn].
    unfold prepareOneInput, load_depth, load_normals, load_probabilities,
      load_intensity, rotate, bind, lift, ret.
    rewrite Hd, Hn, Hp, Hi. reflexivity.
Qed.

(** A schedule with one entry for each sample. *)
Definition schedule_fits (self : Sequence) : Prop :=
  exists r, random_rotate self = Some r /\ len r = n self.

(** X16.  A schedule with one entry for each sample is kept by every call
    of [__getitem__], redraws included, and with it the shift of the
    second leg is always found: for every batch that starts inside the
    dataset and every sample of it, [random_rotate[idx * size + i]]
    exists, in a shortened batch as well. *)
Theorem schedule_lookup_in_range (self : Sequence) :
  0 <= n self -> schedule_fits self ->
  (forall g fs idx, schedule_fits (self_after (__getitem__ self g fs idx))) /\
  (forall idx i,
     1 <= batch_size self -> 0 <= idx -> idx * batch_size self < n self ->
     0 <= i < snd (batch_bounds self idx) ->
     0 <= leg2_totalidx self idx i < n self /\
     exists shift, lookup_shift self (leg2_totalidx self idx i) = Ok shift).
Proof.
  intros Hn (r & Hr & Hlen). split.
  - intros g fs idx. pose proof (getitem_state self g fs idx) as E.
    destruct (renew_rotation self g idx) as [[s' g']|] eqn:Hrenew.
    + injection E as -> _.
      unfold renew_rotation in Hrenew.
      destruct ((idx =? 0) && (rotate_data self =? 2)).
      * unfold rbind in Hrenew.
        destruct (draw_random_rotate self g) as [[r' g1]|] eqn:Hd; [|discriminate].
        injection Hrenew as <- _. exists r'. split; [reflexivity|].
        unfold draw_random_rotate in Hd. apply randint_list_spec in Hd as [Hl _].
        cbn [n set_rotation]. unfold len. lia.
      * injection Hrenew as <- _. exists r. split; assumption.
    + injection E as -> _. exists r. split; assumption.
  - intros idx i Hb Hidx Hstart Hi.
    assert (Hrange : 0 <= leg2_totalidx self idx i < n self).
    { unfold leg2_totalidx. rewrite batch_bounds_min in *. cbn [snd] in *.
      destruct (Z.min_spec ((idx + 1) * batch_size self) (n self)) as [[_ E]|[_ E]];
        rewrite E in *; nia. }
    split; [exact Hrange|].
    unfold lookup_shift. rewrite Hr.
    destruct (getitem_inside r (leg2_totalidx self idx i)) as (v & Hv & _); [lia|].
    eauto.
Qed.

End BatchEdges.

Lemma batch_past_the_end_witness :
  1 <= batch_size layered /\ n layered = len (overlap layered) /\
  n layered <= 1 * batch_size layered /\
  target_array layered 1 = Ok [] /\
  reads (__getitem__ (RG := MersenneTwister) (NP := DenseImages) layered [] empty_disk 1)
  = [] /\
  exists z,
    renew_rotation (RG := MersenneTwister) layered [] 1 = Ok (layered, []) /\
    np_zeros4 (NumpyImages := DenseImages) (n layered - 1 * batch_size layered)
      (height layered) (width layered) (no_channels layered) = Ok z /\
    truthy (imgfilenames2 layered) = false /\
    value (__getitem__ (RG := MersenneTwister) (NP := DenseImages)
             layered [] empty_disk 1) = Ok ([z], OneHead []).
Proof.
  assert (Hb : 1 <= batch_size layered) by (cbn; lia).
  assert (Hn : n layered = len (overlap layered)) by reflexivity.
  assert (Hp : n layered <= 1 * batch_size layered) by (cbn; lia).
  destruct (batch_past_the_end (RG := MersenneTwister) (NP := DenseImages)
              layered 1 Hb Hn Hp) as (_ & Hy & Hreads & Hvalue).
  split; [exact Hb|]. split; [exact Hn|]. split; [exact Hp|]. split; [exact Hy|].
  split; [exact (Hreads [] empty_disk)|].
  assert (Hz : exists z,
             np_zeros4 (NumpyImages := DenseImages) (n layered - 1 * batch_size layered)
               (height layered) (width layered) (no_channels layered) = Ok z)
    by (eexists; vm_compute; reflexivity).
  destruct Hz as (z & Hz). exists z.
  assert (Hrenew : renew_rotation (RG := MersenneTwister) layered [] 1 = Ok (layered, []))
    by reflexivity.
  assert (Hleg : truthy (imgfilenames2 layered) = false) by reflexivity.
  split; [exact Hrenew|]. split; [exact Hz|]. split; [exact Hleg|].
  exact (Hvalue [] empty_disk layered [] z Hrenew Hz Hleg).
Defined.

Lemma missing_name_raises_before_reading_witness :
  (use_depth layered || use_normals layered || use_class_probabilities layered
   || use_intensity layered = true) /\
  (exists e, getitem (A := string) [] 0 = Err e) /\
  prepareOneInput (NP := DenseImages) layered empty_disk blank 0 [] [] 0 false []
  = (Err IndexError, []) /\
  (use_depth five_pairs || use_normals five_pairs || use_class_probabilities five_pairs
   || use_intensity five_pairs = false) /\
  prepareOneInput (NP := DenseImages) five_pairs empty_disk blank 0 [] [] 0 false []
  = (Ok blank, []).
Proof.
  assert (Hon : use_depth layered || use_normals layered
                || use_class_probabilities layered || use_intensity layered = true)
    by reflexivity.
  assert (Hmiss : exists e, getitem (A := string) [] 0 = Err e)
    by (eexists; reflexivity).
  assert (Hoff : use_depth five_pairs || use_normals five_pairs
                 || use_class_probabilities five_pairs || use_intensity five_pairs = false)
    by reflexivity.
  split; [exact Hon|]. split; [exact Hmiss|]. split.
  - exact (proj1 (missing_name_raises_before_reading (NP := DenseImages)
                    layered empty_disk blank 0 [] [] 0 false []) Hon (or_introl Hmiss)).
  - split; [exact Hoff|].
    exact (proj2 (missing_name_raises_before_reading (NP := DenseImages)
                    five_pairs empty_disk blank 0 [] [] 0 false []) Hoff).
Defined.

Lemma schedule_lookup_in_range_witness :
  0 <= n fixed /\ schedule_fits fixed /\
  schedule_fits (self_after (__getitem__ (RG := MersenneTwister) (NP := DenseImages)
                               fixed fixed_rng disk 0)) /\
  1 <= batch_size fixed /\ 0 <= 1 /\ 1 * batch_size fixed < n fixed /\
  0 <= 0 < snd (batch_bounds fixed 1) /\
  0 <= leg2_totalidx fixed 1 0 < n fixed /\
  exists shift, lookup_shift fixed (leg2_totalidx fixed 1 0) = Ok shift.
Proof.
  assert (Hn : 0 <= n fixed) by (cbn; lia).
  assert (Hfit : schedule_fits fixed) by (exists [7; 1; 0]; split; reflexivity).
  assert (Hb : 1 <= batch_size fixed) by (cbn; lia).
  assert (H1 : 0 <= 1) by lia.
  assert (Hs : 1 * batch_size fixed < n fixed) by (cbn; lia).
  assert (Hi : 0 <= 0 < snd (batch_bounds fixed 1)) by (cbn; lia).
  destruct (schedule_lookup_in_range (RG := MersenneTwister) (NP := DenseImages)
              fixed Hn Hfit) as [Hkeep Hlook].
  split; [exact Hn|]. split; [exact Hfit|].
  split; [exact (Hkeep fixed_rng disk 0)|].
  split; [exact Hb|]. split; [exact H1|]. split; [exact Hs|]. split; [exact Hi|].
  exact (Hlook 1 0 Hb H1 Hs Hi).
Defined.

(* ================================================================== *)
(** ** One leg and the schedule *)

Section OneLeg.

Context {RG : PyRandom} {NP : NumpyImages}.

(** Two loop bodies that agree on the states a property singles out, one
    of which keeps the property, run alike from such a state. *)
Lemma for_each_ext_inv {S} (P : S -> Prop) (body1 body2 : Z -> S -> IO S) :
  (forall i s t, P s -> body1 i s t = body2 i s t) ->
  (forall i s t s' t', P s -> body1 i s t = (Ok s', t') -> P s') ->
  forall l s t, P s -> for_each l body1 s t = for_each l body2 s t.
Proof.
  intros Hext Hinv. induction l as [|i l IH]; intros s t HP; cbn [for_each].
  - reflexivity.
  - unfold bind. rewrite <- (Hext i s t HP).
    destruct (body1 i s t) as [[s1|e] t1] eqn:E; [|reflexivity].
    apply IH. eapply Hinv; eassumption.
Qed.

Lemma fill_one_keeps_one_leg (self : Sequence) (fs : filesystem) (idx i : Z) s t s' t' :
  snd s = None -> fill_one self fs idx i s t = (Ok s', t') -> snd s' = None.
Proof.
  destruct s as [x1 x2]. cbn [snd]. intros -> H. unfold fill_one, bind, ret in H.
  destruct (prepareOneInput _ _ _ _ _ _ _ _ _) as [[a|] t1]; [|discriminate].
  injection H as <- _. reflexivity.
Qed.

(** X17.  Without a second leg the rotation has no effect: the batch
    assembled, and the files read for it, are the same whatever the
    rotation flag and the schedule of the object are, so every call that
    reaches the assembling returns what the object would return without
    any rotation state. *)
Theorem one_leg_ignores_rotation (self : Sequence) (fs : filesystem) (idx : Z) :
  truthy (imgfilenames2 self) = false ->
  (forall d r,
     run (assemble (set_rotation self d r) fs idx) = run (assemble self fs idx)) /\
  (forall g s' g',
     renew_rotation self g idx = Ok (s', g') ->
     value (__getitem__ self g fs idx) = fst (run (assemble self fs idx)) /\
     reads (__getitem__ self g fs idx) = snd (run (assemble self fs idx))).
Proof.
  intros Hleg.
  assert (Hsame : forall d r,
             run (assemble (set_rotation self d r) fs idx) = run (assemble self fs idx)).
  { intros d r. unfold run, assemble, bind.
    assert (Hfill : fill_inputs (set_rotation self d r) fs idx []
                    = fill_inputs self fs idx []).
    { unfold fill_inputs, bind, lift, ret. cbn [imgfilenames2 set_rotation].
      rewrite Hleg.
      change (batch_bounds (set_rotation self d r) idx) with (batch_bounds self idx).
      cbn [height width no_channels set_rotation].
      destruct (np_zeros4 _ _ _ _) as [z|]; [|reflexivity].
      apply (for_each_ext_inv (fun s => snd s = None)).
      - intros i [x1 x2] t Hs. cbn [snd] in Hs. subst x2. reflexivity.
      - intros i s t s' t'. apply fill_one_keeps_one_leg.
      - reflexivity. }
    rewrite Hfill. reflexivity. }
  split; [exact Hsame|].
  intros g s' g' Hrenew. unfold __getitem__. rewrite Hrenew.
  apply renew_rotation_frame in Hrenew as [->|[r ->]].
  - destruct (run (assemble self fs idx)). split; reflexivity.
  - rewrite Hsame. destruct (run (assemble self fs idx)). split; reflexivity.
Qed.

End OneLeg.

(** The three scans as rotation mode 2 would leave them. *)
Lemma one_leg_ignores_rotation_witness :
  truthy (imgfilenames2 wrapped) = false /\
  run (assemble (NP := DenseImages) (set_rotation wrapped true [7; 1; 0]) disk 0)
  = run (assemble (NP := DenseImages) wrapped disk 0) /\
  renew_rotation (RG := MersenneTwister) wrapped [] 0 = Ok (wrapped, []) /\
  value (__getitem__ (RG := MersenneTwister) (NP := DenseImages) wrapped [] disk 0)
  = fst (run (assemble (NP := DenseImages) wrapped disk 0)).
Proof.
  assert (Hleg : truthy (imgfilenames2 wrapped) = false) by reflexivity.
  assert (Hrenew : renew_rotation (RG := MersenneTwister) wrapped [] 0 = Ok (wrapped, []))
    by reflexivity.
  destruct (one_leg_ignores_rotation (RG := MersenneTwister) (NP := DenseImages)
              wrapped disk 0 Hleg) as [Hsame Hcall].
  split; [exact Hleg|]. split; [exact (Hsame true [7; 1; 0])|].
  split; [exact Hrenew|].
  exact (proj1 (Hcall [] wrapped [] Hrenew)).
Defined.

(* ================================================================== *)
(** ** The channels of a sample, on dense arrays *)

(** Depth value and normal, pixel by pixel: the four channels a sample
    gets from a depth image and a normals image. *)
Definition depth_and_normals (d : list (list Q)) (nm : list (list (list Q)))
    : list (list (list Q)) :=
  map (fun '(drow, nrow) => map (fun '(dv, nv) => dv :: nv) (combine drow nrow))
      (combine d nm).

Lemma has_shape2_lengths (a : list (list Q)) (h w : Z) :
  0 <= h -> 0 <= w -> Dense.has_shape2 a h w = true ->
  List.length a = Z.to_nat h /\ Forall (fun r => List.length r = Z.to_nat w) a.
Proof.
  intros Hh Hw H. unfold Dense.has_shape2 in H. apply andb_true_iff in H as [H1 H2].
  apply Z.eqb_eq in H1. unfold len in H1. split; [lia|].
  apply Forall_forall. intros r Hr. rewrite forallb_forall in H2.
  specialize (H2 r Hr). apply Z.eqb_eq in H2. unfold len in H2. lia.
Qed.

Lemma has_shape3_lengths (a : list (list (list Q))) (h w k : Z) :
  0 <= h -> 0 <= w -> 0 <= k -> Dense.has_shape3 a h w k = true ->
  List.length a = Z.to_nat h /\
  Forall (fun r => List.length r = Z.to_nat w /\
                   Forall (fun p => List.length p = Z.to_nat k) r) a.
Proof.
  intros Hh Hw Hk H. unfold Dense.has_shape3 in H. apply andb_true_iff in H as [H1 H2].
  apply Z.eqb_eq in H1. unfold len in H1. split; [lia|].
  apply Forall_forall. intros r Hr. rewrite forallb_forall in H2.
  apply (has_shape2_lengths r w k Hw Hk). exact (H2 r Hr).
Qed.

(** An array of exactly the shape of the destination is stored as it
    is. *)
Lemma same_len_exact {A} (l : list (list A)) (w : Z) :
  forallb (fun r => len r =? w) l = true -> Dense.same_len l = true.
Proof.
  destruct l as [|r t]; [reflexivity|]. cbn [forallb Dense.same_len].
  intros H. apply andb_true_iff in H as [Hr Ht]. apply Z.eqb_eq in Hr.
  rewrite Hr. exact Ht.
Qed.

Lemma stretch_exact {A} (l : list A) (k : Z) :
  (len l =? k) = true -> Dense.stretch k l = l.
Proof. intros H. unfold Dense.stretch. now rewrite H. Qed.

Lemma fits_exact (k n : Z) : (n =? k) = true -> Dense.fits k n = true.
Proof. intros H. unfold Dense.fits. now rewrite H. Qed.

Lemma has_shape2_fits (a : list (list Q)) (h w : Z) :
  Dense.has_shape2 a h w = true ->
  Dense.fits2 a h w = true /\ Dense.stretch2 h w a = a.
Proof.
  unfold Dense.has_shape2, Dense.fits2, Dense.stretch2. intros H.
  apply andb_true_iff in H as [H1 H2].
  assert (Hmap : map (Dense.stretch w) a = a).
  { rewrite <- (map_id a) at 2. apply map_ext_in. intros r Hr.
    apply stretch_exact. rewrite forallb_forall in H2. exact (H2 r Hr). }
  split.
  - rewrite (same_len_exact a w H2), (fits_exact h _ H1). cbn [andb].
    apply forallb_forall. intros r Hr. apply fits_exact.
    rewrite forallb_forall in H2. exact (H2 r Hr).
  - rewrite Hmap. apply stretch_exact. exact H1.
Qed.

Lemma has_shape3_fits (a : list (list (list Q))) (h w k : Z) :
  Dense.has_shape3 a h w k = true ->
  Dense.fits3 a h w k = true /\ Dense.stretch3 h w k a = a.
Proof.
  unfold Dense.has_shape3, Dense.fits3, Dense.stretch3. intros H.
  apply andb_true_iff in H as [H1 H2]. rewrite forallb_forall in H2.
  assert (Hplanes : forallb (fun p : list (list Q) => len p =? w) a = true).
  { apply forallb_forall. intros p Hp. specialize (H2 p Hp).
    unfold Dense.has_shape2 in H2. now apply andb_true_iff in H2 as [H2 _]. }
  assert (Hrows : forallb (fun r : list Q => len r =? k) (List.concat a) = true).
  { apply forallb_forall. intros r Hr. apply in_concat in Hr as (p & Hp & Hr).
    specialize (H2 p Hp). unfold Dense.has_shape2 in H2.
    apply andb_true_iff in H2 as [_ H2]. rewrite forallb_forall in H2.
    exact (H2 r Hr). }
  assert (Hmap : map (Dense.stretch2 w k) a = a).
  { rewrite <- (map_id a) at 2. apply map_ext_in. intros p Hp.
    apply has_shape2_fits. exact (H2 p Hp). }
  split.
  - rewrite (same_len_exact a w Hplanes), (same_len_exact _ k Hrows),
      (fits_exact h _ H1). cbn [andb].
    apply forallb_forall. intros p Hp.
    destruct (has_shape2_fits p w k (H2 p Hp)) as [Hf _].
    unfold Dense.fits2 in Hf. apply andb_true_iff in Hf as [Hf Hf3].
    apply andb_true_iff in Hf as [_ Hf2]. now rewrite Hf2, Hf3.
  - rewrite Hmap. apply stretch_exact. exact H1.
Qed.

(** One row: the depth goes to channel 0 of a blank pixel, the normal to
    channels 1 to 3. *)
Lemma put_row_depth_normals (drow : list Q) : forall (w : nat) (nrow : list (list Q)),
  List.length drow = w -> List.length nrow = w ->
  Forall (fun p => List.length p = 3%nat) nrow ->
  map (fun '(pixel, v) => Dense.put_pixel 1 pixel v)
    (combine
       (map (fun '(pixel, v) => Dense.put_pixel 0 pixel v)
          (combine (repeat (repeat 0%Q 4) w) (map (fun v => [v]) drow)))
       nrow)
  = map (fun '(dv, nv) => dv :: nv) (combine drow nrow).
Proof.
  induction drow as [|dv drow IH]; intros w nrow Hd Hn HF.
  - subst w. destruct nrow; [reflexivity|discriminate Hn].
  - destruct w as [|w]; [discriminate Hd|].
    destruct nrow as [|nv nrow]; [discriminate Hn|].
    inversion HF as [|? ? Hp HF']; subst.
    destruct nv as [|a [|b [|c [|? ?]]]]; try discriminate Hp.
    cbn [repeat map combine]. f_equal.
    apply IH; [now injection Hd|now injection Hn|assumption].
Qed.

Lemma put_image_depth_normals (d : list (list Q)) : forall (h w : nat)
    (nm : list (list (list Q))),
  List.length d = h -> Forall (fun r => List.length r = w) d ->
  List.length nm = h ->
  Forall (fun r => List.length r = w /\ Forall (fun p => List.length p = 3%nat) r) nm ->
  Dense.put_image 1
    (Dense.put_image 0 (repeat (repeat (repeat 0%Q 4) w) h)
       (map (map (fun v => [v])) d))
    nm
  = depth_and_normals d nm.
Proof.
  unfold Dense.put_image, depth_and_normals.
  induction d as [|drow d IH]; intros h w nm Hd HFd Hn HFn.
  - subst h. destruct nm; [reflexivity|discriminate Hn].
  - destruct h as [|h]; [discriminate Hd|].
    destruct nm as [|nrow nm]; [discriminate Hn|].
    inversion HFd as [|? ? Hr HFd']; subst.
    inversion HFn as [|? ? [Hnr Hnp] HFn']; subst.
    cbn [repeat map combine]. f_equal.
    + apply put_row_depth_normals; [reflexivity|assumption|assumption].
    + apply IH; [now injection Hd|assumption|now injection Hn|assumption].
Qed.

Lemma nth_update_same {A} (l : list A) : forall k v d,
  (k < List.length l)%nat -> nth k (update l k v) d = v.
Proof.
  induction l as [|x l IH]; intros [|k] v d H; simpl in *; try lia; auto.
  apply IH. lia.
Qed.

Lemma update_update {A} (l : list A) : forall k v v',
  update (update l k v) k v' = update l k v'.
Proof.
  induction l as [|x l IH]; intros [|k] v v'; simpl; auto. now rewrite IH.
Qed.

Section DenseLayout.

Context {RG : PyRandom}.

(** X18.  On dense arrays, a generator with the depth and the normals
    switched on, and nothing else, fills sample [i] of a blank tensor of
    four channels so that channel 0 of every pixel is the depth and
    channels 1 to 3 are the normal of that pixel.  The two files are read
    in that order and the other samples are left alone. *)
Theorem depth_then_normals_layout (self : Sequence) (fs : filesystem (H := DenseImages))
    (s h w i : Z) (batch_f1 dir_f1 : list string) (fd fn : string)
    (d : list (list Q)) (nm : list (list (list Q))) (z : Dense.tensor) :
  use_depth self = true -> use_normals self = true ->
  use_class_probabilities self = false -> use_intensity self = false ->
  Dense.zeros4 s h w 4 = Ok z -> 0 <= i < s ->
  layer_path self dir_f1 batch_f1 i "depth"%string ".npy"%string = Ok fd ->
  layer_path self dir_f1 batch_f1 i "normal"%string ".npy"%string = Ok fn ->
  fs fd = Ok (Dense.Array2 d) -> fs fn = Ok (Dense.Array3 nm) ->
  Dense.has_shape2 d h w = true -> Dense.has_shape3 nm h w 3 = true ->
  exists x,
    prepareOneInput (NP := DenseImages) self fs z i batch_f1 dir_f1 0 false []
    = (Ok x, [fd; fn]) /\
    Dense.shape x = (s, h, w, 4) /\
    nth_error (Dense.cells x) (Z.to_nat i) = Some (depth_and_normals d nm) /\
    forall k, k <> Z.to_nat i ->
              nth_error (Dense.cells x) k = nth_error (Dense.cells z) k.
Proof.
  intros Hud Hun Hup Hui Hz Hi Hpd Hpn Hfd Hfn Hsd Hsn.
  unfold Dense.zeros4 in Hz.
  destruct ((s <? 0) || (h <? 0) || (w <? 0) || (4 <? 0)) eqn:Hneg; [discriminate|].
  apply orb_false_iff in Hneg as [Hneg _].
  apply orb_false_iff in Hneg as [Hneg Hw].
  apply orb_false_iff in Hneg as [Hs Hh].
  apply Z.ltb_ge in Hs, Hh, Hw.
  injection Hz as <-.
  destruct (has_shape2_lengths d h w Hh Hw Hsd) as [Hdl Hdr].
  destruct (has_shape3_lengths nm h w 3 Hh Hw ltac:(lia) Hsn) as [Hnl Hnr].
  set (cells0 := repeat (repeat (repeat [0%Q; 0%Q; 0%Q; 0%Q] (Z.to_nat w))
                           (Z.to_nat h)) (Z.to_nat s)).
  assert (Hlen0 : List.length cells0 = Z.to_nat s) by (unfold cells0; apply repeat_length).
  eexists. split; [|split; [|split]].
  - unfold prepareOneInput, load_depth, load_normals, load_probabilities,
      load_intensity, rotate, bind, lift, ret, try_except_IOError, np_load.
    rewrite Hud, Hun, Hup, Hui, Hpd, Hfd.
    cbn [set_channel set_channels DenseImages].
    destruct (has_shape2_fits d h w Hsd) as [Hfd2 Hsd2].
    destruct (has_shape3_fits nm h w 3 Hsn) as [Hfn3 Hsn3].
    unfold Dense.set_channel. cbn [Dense.shape Dense.image2].
    rewrite (norm_index_inside s i), (norm_index_inside 4 0) by lia.
    rewrite Hfd2, Hsd2. unfold Dense.store. cbn [Dense.shape Dense.cells].
    rewrite Hpn, Hfn. unfold Dense.set_channels. cbn [Dense.shape Dense.image3].
    rewrite norm_index_inside by lia.
    change (Z.max 0 (clamp 4 (0 + 1 + 3) - clamp 4 (0 + 1))) with 3.
    rewrite Hfn3, Hsn3. unfold Dense.store. cbn [Dense.shape Dense.cells app].
    reflexivity.
  - reflexivity.
  - cbn [Dense.cells]. fold cells0.
    rewrite update_update, nth_error_update_same by lia. f_equal.
    rewrite nth_update_same by lia.
    change (Z.to_nat (clamp 4 (0 + 1))) with 1%nat. change (Z.to_nat 0) with 0%nat.
    replace (nth (Z.to_nat i) cells0 [])
      with (repeat (repeat (repeat 0%Q 4) (Z.to_nat w)) (Z.to_nat h)).
    + apply put_image_depth_normals; try assumption.
    + unfold cells0. symmetry.
      change [0%Q; 0%Q; 0%Q; 0%Q] with (repeat 0%Q 4). apply nth_repeat_lt. lia.
  - intros k Hk. cbn [Dense.cells]. fold cells0.
    rewrite update_update. apply nth_error_update_other. exact Hk.
Qed.

End DenseLayout.

(** One scan of 1 x 2 pixels with the depth and the normals, four
    channels. *)
Definition depth_normals : Sequence :=
  mkSequence "data" 1 ["a0"]%string [] ["s"]%string []
    [1#2]%Q [7#10]%Q [3]%Q
    10 1 1 2 4 true true false false false 0 false None.

Lemma depth_then_normals_layout_witness :
  exists z x,
    use_depth depth_normals = true /\ use_normals depth_normals = true /\
    use_class_probabilities depth_normals = false /\
    use_intensity depth_normals = false /\
    Dense.zeros4 1 1 2 4 = Ok z /\ 0 <= 0 < 1 /\
    disk_second_extension "data/s/depth/a0.npy"%string = Ok (Dense.Array2 [[1; 2]]%Q) /\
    disk_second_extension "data/s/normal/a0.npy"%string
    = Ok (Dense.Array3 [[[3; 4; 5]; [6; 7; 8]]]%Q) /\
    prepareOneInput (NP := DenseImages) depth_normals disk_second_extension z 0
      ["a0"]%string ["s"]%string 0 false []
    = (Ok x, ["data/s/depth/a0.npy"; "data/s/normal/a0.npy"]%string) /\
    nth_error (Dense.cells x) 0 = Some [[[1; 3; 4; 5]; [2; 6; 7; 8]]]%Q.
Proof.
  assert (Hz : exists z, Dense.zeros4 1 1 2 4 = Ok z) by (eexists; reflexivity).
  destruct Hz as (z & Hz).
  assert (Hi : 0 <= 0 < 1) by lia.
  destruct (depth_then_normals_layout depth_normals disk_second_extension
              1 1 2 0 ["a0"]%string ["s"]%string
              "data/s/depth/a0.npy"%string "data/s/normal/a0.npy"%string
              [[1; 2]]%Q [[[3; 4; 5]; [6; 7; 8]]]%Q z
              eq_refl eq_refl eq_refl eq_refl Hz Hi
              eq_refl eq_refl eq_refl eq_refl eq_refl eq_refl)
    as (x & Hx & _ & Hcells & _).
  exists z, x. repeat (split; [reflexivity || assumption|]).
  exact Hcells.
Defined.

(* ================================================================== *)
(** ** Missing files and the second extension *)

Section MissingFiles.

Context {RG : PyRandom} {NP : NumpyImages}.




End MissingFiles.

Local Open Scope string_scope.


Local Close Scope string_scope.
